(** * Gang-database visualisation scripts: normalisation and aggregation

    A shallow embedding of the data-cleaning and aggregation code of the
    five analysis scripts (gang_colors.py, colors.py, race.py,
    escalation.py, heatmap.py) and the properties of their contract.

    Conventions of the embedding.

    - A spreadsheet cell is a [cell]: a missing value ([NaN], what
      [read_excel] yields for an empty cell), Python's [None] (as the
      fallback generators put into object columns), a string, or a
      timestamp.  A numeric cell is represented by the string that
      [astype(str)] renders for it.
    - A Python string is the Rocq string of its UTF-8 encoding.  A
      character outside ASCII takes two to four bytes; [strip], [len] and
      slicing work on code points as Python does.
    - [astype(str)] renders a missing value as ["nan"] and [None] as
      ["None"], which is what the scripts' own [replace('nan', ...)] calls
      expect.
    - Percentages are floating-point numbers in the scripts; here they are
      exact rationals ([Q]). *)

From Stdlib Require Import ZArith QArith Qabs Qround List String Ascii Bool Lia.
From Stdlib Require Import Sorting.Sorted Sorting.Permutation.
From Stdlib Require Import Structures.OrderedTypeEx.
Import ListNotations.

Local Open Scope string_scope.
Local Open Scope list_scope.

(** ** Python string primitives *)

Module PyStr.

(** The number of a byte. *)
Definition code (c : ascii) : nat := nat_of_ascii c.

(** A byte [10xxxxxx]: it continues the code point that an earlier byte
    starts. *)
Definition is_continuation (c : ascii) : bool :=
  ((128 <=? code c) && (code c <=? 191))%nat.

(** [len(s)]: the number of code points. *)
Fixpoint len (s : string) : nat :=
  match s with
  | EmptyString => 0%nat
  | String c s' => if is_continuation c then len s' else S (len s')
  end.

(** [str.isspace] on the ASCII range: TAB, LF, VT, FF, CR, the four
    separators FS, GS, RS, US, and the space. *)
Definition is_space (c : ascii) : bool :=
  let n := code c in
  (((9 <=? n) && (n <=? 13)) || ((28 <=? n) && (n <=? 32)))%nat.

Definition is_lower (c : ascii) : bool :=
  let n := code c in ((97 <=? n) && (n <=? 122))%nat.


Definition upper_char (c : ascii) : ascii :=
  if is_lower c then ascii_of_nat (code c - 32)%nat else c.

(** [str.upper], on the letters a to z.  Python also changes letters
    outside ASCII, never into white space; the scripts compare the result
    with ["Y"], ["NULL"], ["NAN"] and ["N/A"] only, and no character outside
    ASCII has an upper case that is a part of one of these words. *)
Fixpoint upper (s : string) : string :=
  match s with
  | EmptyString => EmptyString
  | String c s' => String (upper_char c) (upper s')
  end.

Definition bytes (l : list nat) : string :=
  string_of_list_ascii (map ascii_of_nat l).

(** The white-space code points outside ASCII, encoded: U+0085, U+00A0,
    U+1680, U+2000 to U+200A, U+2028, U+2029, U+202F, U+205F, U+3000. *)
Definition wide_spaces : list string :=
  map bytes
      [ [194; 133]; [194; 160]; [225; 154; 128];
        [226; 128; 128]; [226; 128; 129]; [226; 128; 130]; [226; 128; 131];
        [226; 128; 132]; [226; 128; 133]; [226; 128; 134]; [226; 128; 135];
        [226; 128; 136]; [226; 128; 137]; [226; 128; 138];
        [226; 128; 168]; [226; 128; 169]; [226; 128; 175];
        [226; 129; 159]; [227; 128; 128] ]%nat.

(** [s.startswith(w)] *)
Fixpoint starts_with (w s : string) : bool :=
  match w, s with
  | EmptyString, _ => true
  | String _ _, EmptyString => false
  | String a w', String c s' => Ascii.eqb a c && starts_with w' s'
  end.

(** The number of bytes of the white-space code point that [s] starts
    with; 0 when it starts with none. *)
Definition space_width (s : string) : nat :=
  match s with
  | EmptyString => 0%nat
  | String c _ =>
      if is_space c then 1%nat
      else match find (fun w => starts_with w s) wide_spaces with
           | Some w => String.length w
           | None => 0%nat
           end
  end.

(** [str.lstrip].  [skip] counts the bytes still to be dropped of the
    white-space code point being removed. *)
Fixpoint lstrip_from (skip : nat) (s : string) : string :=
  match s with
  | EmptyString => EmptyString
  | String _ s' =>
      match skip with
      | S k => lstrip_from k s'
      | O =>
          match space_width s with
          | O => s
          | S k => lstrip_from k s'
          end
      end
  end.

Definition lstrip (s : string) : string := lstrip_from 0 s.

(** [str.rstrip]: the string is cut where only white space follows. *)
Fixpoint rstrip (s : string) : string :=
  match s with
  | EmptyString => EmptyString
  | String c s' =>
      if String.eqb (lstrip s) EmptyString then EmptyString
      else String c (rstrip s')
  end.

(** [str.strip] *)
Definition strip (s : string) : string := rstrip (lstrip s).

(** Case-insensitive prefix test: [match_ci pat s] is the rest of [s] after
    a prefix that equals [pat] up to ASCII case. *)
Fixpoint match_ci (pat s : string) : option string :=
  match pat, s with
  | EmptyString, _ => Some s
  | String _ _, EmptyString => None
  | String p pat', String c s' =>
      if Ascii.eqb (upper_char p) (upper_char c) then match_ci pat' s' else None
  end.

(** [re.sub(re.escape(pat), repl, s, flags=re.IGNORECASE)] for a non-empty
    [pat] of the letters N, U and L, which match no character outside ASCII:
    every occurrence, left to right, without overlap.  [skip] counts
    the characters of the current match that are still to be consumed. *)
Fixpoint replace_ci_from (skip : nat) (pat repl s : string) : string :=
  match s with
  | EmptyString => EmptyString
  | String c s' =>
      match skip with
      | S k => replace_ci_from k pat repl s'
      | O =>
          match match_ci pat s with
          | Some _ => repl ++ replace_ci_from (String.length pat - 1) pat repl s'
          | None => String c (replace_ci_from 0 pat repl s')
          end
      end
  end.

Definition replace_ci (pat repl s : string) : string :=
  replace_ci_from 0 pat repl s.

(** [re.sub(r'\..*', '', s)]: a dot and the rest of its line are removed
    ([.] does not match a line feed).  [skipping] holds inside a match. *)
Fixpoint drop_dot_suffix_from (skipping : bool) (s : string) : string :=
  match s with
  | EmptyString => EmptyString
  | String c s' =>
      if skipping then
        if Ascii.eqb c "010"%char
        then String c (drop_dot_suffix_from false s')
        else drop_dot_suffix_from true s'
      else
        if Ascii.eqb c "."%char
        then drop_dot_suffix_from true s'
        else String c (drop_dot_suffix_from false s')
  end.

Definition drop_dot_suffix (s : string) : string :=
  drop_dot_suffix_from false s.

(** [s[:n]]: the first [n] code points, each with its continuation
    bytes. *)
Fixpoint take (n : nat) (s : string) : string :=
  match s with
  | EmptyString => EmptyString
  | String c s' =>
      if is_continuation c then String c (take n s')
      else match n with
           | O => EmptyString
           | S k => String c (take k s')
           end
  end.

End PyStr.

(** ** Cells and series *)

Inductive cell : Type :=
| NaN
| PyNone
| Str (s : string)
| Stamp (year : Z) (text : string).

(** [Series.notna] *)
Definition notna (v : cell) : bool :=
  match v with
  | NaN | PyNone => false
  | _ => true
  end.

(** [Series.astype(str)], cell by cell. *)
Definition astype_str (v : cell) : string :=
  match v with
  | NaN => "nan"
  | PyNone => "None"
  | Str s => s
  | Stamp _ text => text
  end.

(** [Series.fillna(label)] *)
Definition fillna (label : string) (v : cell) : cell :=
  if notna v then v else Str label.

(** [Series.replace(old, new)]: whole-value match. *)
Definition replace_value (old new : string) (v : cell) : cell :=
  match v with
  | Str s => if String.eqb s old then Str new else v
  | _ => v
  end.

(** [Series.replace({...})] on a string series. *)
Fixpoint replace_dict (d : list (string * string)) (s : string) : string :=
  match d with
  | [] => s
  | (old, new) :: d' => if String.eqb s old then new else replace_dict d' s
  end.

(** [Series.isin(values)] *)
Definition isin (values : list string) (v : cell) : bool :=
  match v with
  | Str s => existsb (String.eqb s) values
  | _ => false
  end.

(** ** The normalizers of the three cross-tabulating scripts *)

(** gang_colors.py, [standardize_column]. *)
Module GangColors.

Definition column_colors := "Subject_Wears_Colors".
Definition column_admits := "Subject_Admits_Gang".

(** One cell through [standardize_column]: [astype(str).str.upper()
    .str.strip()], the replacement dictionary, [fillna('N')] (which finds
    nothing missing in a string series), then everything that is not
    ['Y'] set to ['N']. *)
Definition standardize_value (v : cell) : string :=
  let standardized := PyStr.strip (PyStr.upper (astype_str v)) in
  let standardized :=
    replace_dict [("NULL", "N"); ("NAN", "N"); ("N/A", "N")] standardized in
  if negb (String.eqb standardized "Y") then "N" else standardized.

Definition standardize_column (series : list cell) : list string :=
  map standardize_value series.

End GangColors.

(** colors.py, section 2. *)
Module Colors.

Definition column_wears_colors := "Subject_Wears_Colors".
Definition column_admits_gang := "Subject_Admits_Gang".

(** [.fillna('N').replace('NULL', 'N')] *)
Definition clean_value (v : cell) : cell :=
  replace_value "NULL" "N" (fillna "N" v).

Definition clean (df : list (cell * cell)) : list (cell * cell) :=
  map (fun r => (clean_value (fst r), clean_value (snd r))) df.

(** [df[df[wears].isin(['Y','N']) & df[admits].isin(['Y','N'])]] *)
Definition keep_YN (df : list (cell * cell)) : list (cell * cell) :=
  filter (fun r => isin ["Y"; "N"] (fst r) && isin ["Y"; "N"] (snd r)) df.

Definition prepare (df : list (cell * cell)) : list (cell * cell) :=
  keep_YN (clean df).

End Colors.

(** race.py, section 2 (heatmap.py cleans its race column the same way). *)
Module Race.

Definition column_race := "Subject_Race_ID".
Definition column_admits_gang := "Subject_Admits_Gang".

(** [astype(str).str.strip().str.replace('NULL', label, case=False)
    .fillna(label).replace('nan', label)]: after [astype(str)] nothing is
    missing, so [fillna] changes nothing. *)
Definition clean_with (label : string) (v : cell) : string :=
  let s := PyStr.replace_ci "NULL" label (PyStr.strip (astype_str v)) in
  if String.eqb s "nan" then label else s.

Definition clean_race : cell -> string := clean_with "Unknown".
Definition clean_admits : cell -> string := clean_with "N".

Definition clean (df : list (cell * cell)) : list (string * string) :=
  map (fun r => (clean_race (fst r), clean_admits (snd r))) df.

End Race.

(** ** Cross-tabulation *)

(** [groupby] and [crosstab] list their keys sorted and without duplicates. *)
Section SortedKeys.
Context {A : Type} (cmp : A -> A -> comparison).

Fixpoint insert_key (x : A) (l : list A) : list A :=
  match l with
  | [] => [x]
  | y :: l' =>
      match cmp x y with
      | Lt => x :: l
      | Eq => l
      | Gt => y :: insert_key x l'
      end
  end.

Definition sorted_keys (l : list A) : list A := fold_right insert_key [] l.
End SortedKeys.

(** Strings are ordered by code point, as Python orders [str]. *)
Definition sorted_labels : list string -> list string := sorted_keys String.compare.

Definition mem (x : string) (l : list string) : bool := existsb (String.eqb x) l.

(** A table of counts: its row labels, its column labels, and the count at
    a row label and a column label. *)
Record table : Type := {
  index : list string;
  columns : list string;
  count : string -> string -> nat
}.

(** The table as rows of counts, in label order. *)
Definition cells (t : table) : list (list nat) :=
  map (fun r => map (count t r) (columns t)) (index t).

(** [frequency_table.sum(axis=1)] at one row label. *)
Definition row_sum (t : table) (r : string) : nat :=
  list_sum (map (count t r) (columns t)).

Definition table_sum (t : table) : nat :=
  list_sum (map (row_sum t) (index t)).

Definition count_pairs (rows : list (string * string)) (r c : string) : nat :=
  List.length (filter (fun p => String.eqb (fst p) r && String.eqb (snd p) c) rows).

(** [pd.crosstab(a, b)] on two string series given as a list of pairs. *)
Definition crosstab (rows : list (string * string)) : table :=
  {| index := sorted_labels (map fst rows);
     columns := sorted_labels (map snd rows);
     count := count_pairs rows |}.

(** The group key of a cell; a missing value has none and its row is left
    out of the grouping. *)
Definition key (v : cell) : option string :=
  match v with
  | NaN | PyNone => None
  | Str s => Some s
  | Stamp _ text => Some text
  end.

Definition keyed (df : list (cell * cell)) : list (string * string) :=
  flat_map (fun r =>
              match key (fst r), key (snd r) with
              | Some a, Some b => [(a, b)]
              | _, _ => []
              end) df.

(** [pd.crosstab] on two object series. *)
Definition crosstab_obj (df : list (cell * cell)) : table :=
  crosstab (keyed df).

(** [t.reindex(index=labels, fill_value=0)] *)
Definition reindex_index (labels : list string) (t : table) : table :=
  {| index := labels;
     columns := columns t;
     count := fun r c => if mem r (index t) then count t r c else 0%nat |}.

(** [t[c] = 0] for a label [c] that is not yet a column. *)
Definition add_zero_column (c : string) (t : table) : table :=
  {| index := index t;
     columns := columns t ++ [c];
     count := fun r c' => if String.eqb c' c then 0%nat else count t r c' |}.

(** [t[labels]] for labels that are all columns of [t]. *)
Definition select_columns (labels : list string) (t : table) : table :=
  {| index := index t; columns := labels; count := count t |}.

(** gang_colors.py: the contingency table. *)
Definition gang_colors_contingency_table (df : list (cell * cell)) : table :=
  crosstab (combine (GangColors.standardize_column (map fst df))
                    (GangColors.standardize_column (map snd df))).

(** colors.py: the frequency table, with its rows reindexed and its columns
    put in order when both are there. *)
Definition colors_frequency_table (df : list (cell * cell)) : table :=
  let frequency_table := crosstab_obj (Colors.prepare df) in
  let frequency_table := reindex_index ["N"; "Y"] frequency_table in
  if mem "N" (columns frequency_table) && mem "Y" (columns frequency_table)
  then select_columns ["N"; "Y"] frequency_table
  else frequency_table.

(** race.py: the frequency table, with the two columns made to exist. *)
Definition race_frequency_table (df : list (cell * cell)) : table :=
  let frequency_table := crosstab (Race.clean df) in
  let frequency_table :=
    if negb (mem "N" (columns frequency_table))
    then add_zero_column "N" frequency_table else frequency_table in
  let frequency_table :=
    if negb (mem "Y" (columns frequency_table))
    then add_zero_column "Y" frequency_table else frequency_table in
  select_columns ["N"; "Y"] frequency_table.

(** ** escalation.py: the trend table *)

Module Escalation.

Definition column_date := "Subject_Create_Date".
Definition columns_to_track :=
  ["Subject_Armed"; "Subject_Felon"; "Subject_Probation"].

(** A record after step 2.1: the year of its creation date ([None] for a
    missing date) and the three tracked columns. *)
Record record : Type := {
  Year : option Z;
  Subject_Armed : cell;
  Subject_Felon : cell;
  Subject_Probation : cell
}.

(** [df[col]] on one record, for a tracked column. *)
Definition field (col : string) (r : record) : cell :=
  if String.eqb col "Subject_Armed" then Subject_Armed r
  else if String.eqb col "Subject_Felon" then Subject_Felon r
  else Subject_Probation r.

(** [df[col].notna() & (df[col].astype(str).str.strip() != '')] *)
Definition flagged (v : cell) : bool :=
  notna v && negb (String.eqb (PyStr.strip (astype_str v)) "").

Definition flagged_df (col : string) (df : list record) : list record :=
  filter (fun r => flagged (field col r)) df.

Definition year_is (y : Z) (r : record) : bool :=
  match Year r with
  | Some y' => Z.eqb y' y
  | None => false
  end.

Definition years (df : list record) : list Z :=
  flat_map (fun r => match Year r with Some y => [y] | None => [] end) df.

(** [df.groupby('Year').size()]: the years that occur, in order, each with
    the number of its records; records without a year are in no group. *)
Definition groupby_size (df : list record) : list (Z * nat) :=
  map (fun y => (y, List.length (filter (year_is y) df)))
      (sorted_keys Z.compare (years df)).

Fixpoint lookup (y : Z) (g : list (Z * nat)) : option nat :=
  match g with
  | [] => None
  | (y', n) :: g' => if Z.eqb y' y then Some n else lookup y g'
  end.

(** A row of [trends_df]: the year, [Total_Records], and the columns added
    so far, by name. *)
Record trend_row : Type := {
  trend_year : Z;
  Total_Records : nat;
  added : list (string * Q)
}.

Definition Q_of_nat (n : nat) : Q := inject_Z (Z.of_nat n).

(** One pass of the loop of step 2.3 on one row: the left merge of the
    flagged count, [fillna(0)], and the percentage. *)
Definition add_flag (col : string) (flagged_count : list (Z * nat))
           (row : trend_row) : trend_row :=
  let n := match lookup (trend_year row) flagged_count with
           | Some n => Q_of_nat n
           | None => 0%Q
           end in
  {| trend_year := trend_year row;
     Total_Records := Total_Records row;
     added := added row ++
              [ ((col ++ "_Count")%string, n);
                ((col ++ "_Percent")%string,
                 ((n / Q_of_nat (Total_Records row)) * 100)%Q) ] |}.

Definition trends_step (df : list record) (trends_df : list trend_row)
           (col : string) : list trend_row :=
  let flagged_count := groupby_size (flagged_df col df) in
  map (add_flag col flagged_count) trends_df.

Definition trends (df : list record) : list trend_row :=
  let total_records_per_year := groupby_size df in
  let trends_df :=
    map (fun g => {| trend_year := fst g; Total_Records := snd g; added := [] |})
        total_records_per_year in
  fold_left (trends_step df) columns_to_track trends_df.

(** The percentage columns of a row, as the script prints and plots them. *)
Definition percents (row : trend_row) : list (string * Q) :=
  filter (fun c => match String.index 0 "Percent" (fst c) with
                   | Some _ => true
                   | None => false
                   end) (added row).

End Escalation.

(** ** heatmap.py: the geographic aggregate and its legend tiers *)

Module Heatmap.

Definition column_zip := "address_zip".
Definition column_race := "Subject_Race_ID".

(** [astype(str).str.replace(r'\..*', '', regex=True).str.strip().str[:5]] *)
Definition clean_zip (v : cell) : string :=
  PyStr.take 5 (PyStr.strip (PyStr.drop_dot_suffix (astype_str v))).

(** Section 2 up to the cross-tabulation: the ZIP column cleaned, the rows
    with a five-character ZIP kept, the race column cleaned. *)
Definition clean (df : list (cell * cell)) : list (string * string) :=
  let df := map (fun r => (clean_zip (fst r), snd r)) df in
  let df := filter (fun r => Nat.eqb (PyStr.len (fst r)) 5) df in
  map (fun r => (fst r, Race.clean_race (snd r))) df.

Definition race_zip_counts (df : list (cell * cell)) : table :=
  crosstab (clean df).

(** [race_zip_counts.div(race_zip_counts.sum(axis=1), axis=0) * 100] at a
    row and a column. *)
Definition race_zip_percentage (t : table) (zip race : string) : Q :=
  ((inject_Z (Z.of_nat (count t zip race)) / inject_Z (Z.of_nat (row_sum t zip)))
   * 100)%Q.

(** [idxmax] along a row: the label of the first maximum, scanning the
    columns in order; a later column wins only if it is strictly greater. *)
Fixpoint idxmax_from (best : string) (best_val : Q) (l : list (string * Q)) : string :=
  match l with
  | [] => best
  | (c, v) :: l' =>
      if Qle_bool v best_val
      then idxmax_from best best_val l'
      else idxmax_from c v l'
  end.

Definition idxmax (l : list (string * Q)) : option string :=
  match l with
  | [] => None
  | (c, v) :: l' => Some (idxmax_from c v l')
  end.

(** [max] along a row. *)
Fixpoint max_from (best_val : Q) (l : list Q) : Q :=
  match l with
  | [] => best_val
  | v :: l' => if Qle_bool v best_val then max_from best_val l' else max_from v l'
  end.

Definition row_max (l : list Q) : option Q :=
  match l with
  | [] => None
  | v :: l' => Some (max_from v l')
  end.

(** A row of [map_data]; [None] stands for the missing value that an empty
    row of percentages would give. *)
Record geo_row : Type := {
  address_zip : string;
  Dominant_Race : option string;
  Dominant_Percentage : option Q;
  Total_Records : nat
}.

Definition percentage_row (t : table) (zip : string) : list (string * Q) :=
  map (fun race => (race, race_zip_percentage t zip race)) (columns t).

Definition map_data (df : list (cell * cell)) : list geo_row :=
  let t := race_zip_counts df in
  let rows :=
    map (fun zip =>
           {| address_zip := zip;
              Dominant_Race := idxmax (percentage_row t zip);
              Dominant_Percentage := row_max (map snd (percentage_row t zip));
              Total_Records := row_sum t zip |}) (index t) in
  (* map_data[map_data[column_zip].isin(df[column_zip].unique())] *)
  filter (fun row => mem (address_zip row) (map fst (clean df))) rows.

(** [map_data['Total_Records'].max()] of a non-empty aggregate. *)
Definition max_records (rows : list geo_row) : Z :=
  fold_right (fun row m => Z.max (Z.of_nat (Total_Records row)) m) 0%Z rows.

(** The range presets. *)
Definition ranges (max_records : Z) : list (Z * Z) :=
  if (max_records <=? 10)%Z then
    [(1, 1); (2, 2); (3, 4); (5, 7); (8, max_records)]%Z
  else if (max_records <=? 50)%Z then
    [(1, 2); (3, 5); (6, 10); (11, 20); (21, max_records)]%Z
  else if (max_records <=? 100)%Z then
    [(1, 3); (4, 8); (9, 15); (16, 30); (31, max_records)]%Z
  else if (max_records <=? 500)%Z then
    [(1, 5); (6, 15); (16, 30); (31, 60); (61, max_records)]%Z
  else
    [(1, 10); (11, 25); (26, 50); (51, 100); (101, max_records)]%Z.

(** The loop of [get_logical_color]: the position, counted from [i], of the
    first range that holds [records]. *)
Fixpoint find_range (i : Z) (rs : list (Z * Z)) (records : Z) : option Z :=
  match rs with
  | [] => None
  | (min_val, max_val) :: rs' =>
      if ((min_val <=? records) && (records <=? max_val))%Z
      then Some (i + 1)%Z
      else find_range (i + 1) rs' records
  end.

(** [get_logical_color]: the tier found in the table, or the default 1. *)
Definition get_logical_color (rs : list (Z * Z)) (records : Z) : Z :=
  match find_range 0 rs records with
  | Some tier => tier
  | None => 1%Z
  end.

Definition color_scale (df : list (cell * cell)) : list (string * Z) :=
  let rows := map_data df in
  let rs := ranges (max_records rows) in
  map (fun row => (address_zip row,
                   get_logical_color rs (Z.of_nat (Total_Records row)))) rows.

End Heatmap.

(** ** The loader: data frames, the random source, and the process outcome *)

(** A data frame as its columns, by name. *)
Definition dataframe : Type := list (string * list cell).

Definition df_columns (df : dataframe) : list string := map fst df.

(** [df[col]] for a column that exists. *)
Fixpoint series (col : string) (df : dataframe) : list cell :=
  match df with
  | [] => []
  | (name, s) :: df' => if String.eqb name col then s else series col df'
  end.

(** What the [try] block around [pd.read_excel] meets. *)
Inductive source : Type :=
| Sheet (df : dataframe)          (* the file is there and is read *)
| FileNotFound                    (* [FileNotFoundError] *)
| Unreadable (e : string).        (* any other exception *)

(** numpy's legacy global generator, as the scripts use it.  Each draw takes
    the generator state and returns the next one. *)
Class NumpyRandom : Type := {
  rng_state : Type;
  (** [np.random.seed(n)] *)
  rng_seed : Z -> rng_state;
  (** [np.random.choice(a, size=n, p=p)] *)
  rng_choice : list cell -> option (list Q) -> nat -> rng_state -> list cell * rng_state;
  (** [np.random.randint(low, high, n)] *)
  rng_randint : Z -> Z -> nat -> rng_state -> list Z * rng_state;
  (** [np.random.rand(n)] *)
  rng_rand : nat -> rng_state -> list Q * rng_state
}.

(** Lines printed to standard output.  A constructor other than [Text]
    stands for a line by what it reports. *)
Inductive message : Type :=
| Text (s : string)
| AttemptingToRead                        (* "Attempting to read data from: ..." *)
| ErrorColumnsNotFound                    (* "ERROR: ... required columns were not found ..." *)
| ExpectedColumns (cols : list string)    (* "Expected columns: ..." *)
| MissingColumns (cols : list string)     (* [print(missing_cols)] *)
| AvailableColumns (cols : list string)   (* "Available columns: ..." *)
| UnexpectedError (e : string)            (* "An unexpected error occurred ..." *)
| TotalRecords (n : nat).

(** How a run ends: [exit()] with its status, an uncaught exception (a
    traceback), or the chart or map rendered from the aggregate.  [stdout]
    holds the lines of the loading section, and the line that heatmap.py
    prints when its map is saved; the tables that a script prints in between
    are not listed. *)
Inductive outcome (A : Type) : Type :=
| Exited (stdout : list message) (status : Z)
| Crashed (stdout : list message)
| Rendered (stdout : list message) (aggregate : A).

Arguments Exited {A} stdout status.
Arguments Crashed {A} stdout.
Arguments Rendered {A} stdout aggregate.

(** The exit status of [SystemExit(code)]; [exit()] raises [SystemExit(None)]. *)
Definition exit_status (code : option Z) : Z :=
  match code with
  | Some n => n
  | None => 0%Z
  end.

Definition py_exit {A : Type} (stdout : list message) : outcome A :=
  Exited stdout (exit_status None).

(** The lines printed when the file is not found. *)
Definition file_not_found_lines : list message :=
  [Text "ERROR: The file was not found.";
   Text "Please ensure the Excel file is in the same directory as this script."].

Definition generating_line : message :=
  Text "--- Generating sample data for demonstration instead ---".

(** [len(df)] *)
Definition df_len (df : dataframe) : nat :=
  match df with
  | [] => 0%nat
  | (_, s) :: _ => List.length s
  end.

(** The two series a script works on, row by row. *)
Definition rows2 (a b : string) (df : dataframe) : list (cell * cell) :=
  combine (series a df) (series b df).

(** The check of the two required columns that four of the scripts share:
    the diagnostic and [exit()], or the rest of the script. *)
Definition require2 {A : Type} (a b : string) (stdout : list message)
           (df : dataframe) (rest : outcome A) : outcome A :=
  if negb (mem a (df_columns df)) || negb (mem b (df_columns df))
  then py_exit (stdout ++ [ErrorColumnsNotFound;
                           ExpectedColumns [a; b];
                           AvailableColumns (df_columns df)])
  else rest.

(** Calendar arithmetic for the synthetic dates of escalation.py. *)
Definition is_leap (y : Z) : bool :=
  ((y mod 4 =? 0) && (negb (y mod 100 =? 0) || (y mod 400 =? 0)))%Z.

Definition year_length (y : Z) : Z := if is_leap y then 366%Z else 365%Z.

(** The year of the day [d] days after the first of January of year [y]. *)
Fixpoint year_after (fuel : nat) (y d : Z) : Z :=
  match fuel with
  | O => y
  | S fuel' =>
      if (d <? year_length y)%Z then y
      else year_after fuel' (y + 1)%Z (d - year_length y)%Z
  end.

Definition year_of_offset (d : Z) : Z := year_after (Z.to_nat d) 2010%Z d.

(** The years of a column of timestamps and missing dates; [None] when the
    column holds anything else. *)
Fixpoint stamp_years (s : list cell) : option (list (option Z)) :=
  match s with
  | [] => Some []
  | v :: s' =>
      match v, stamp_years s' with
      | Stamp y _, Some ys => Some (Some y :: ys)
      | (NaN | PyNone), Some ys => Some (None :: ys)
      | _, _ => None
      end
  end.

(** [df[column_date].dt.year] on a column read from the sheet.  The column
    has the [.dt] accessor when [parse_dates] made it a column of dates: a
    sheet without rows leaves it an [object] column, as does a value that is
    no date, and the accessor then raises [AttributeError] ([None]). *)
Definition dt_year (s : list cell) : option (list (option Z)) :=
  match s with
  | [] => None
  | _ :: _ => stamp_years s
  end.

(** Dates outside a frame: a [Series], or the [DatetimeIndex] that
    [pd.to_datetime] makes of an array of timestamps. *)
Inductive datetimes : Type :=
| DatetimeSeries (stamps : list cell)
| DatetimeIndex (stamps : list cell).

(** [dates.dt.year.astype(int)]: a [DatetimeIndex] has no attribute [dt]
    ([AttributeError]), and a missing year cannot be cast to [int]. *)
Definition dt_year_int (dates : datetimes) : option (list Z) :=
  match dates with
  | DatetimeIndex _ => None
  | DatetimeSeries s =>
      match dt_year s with
      | None => None
      | Some ys =>
          fold_right (fun y acc =>
                        match y, acc with
                        | Some y, Some l => Some (y :: l)
                        | _, _ => None
                        end) (Some []) ys
      end
  end.

Fixpoint records_of (ys : list (option Z)) (armed felon probation : list cell)
  : list Escalation.record :=
  match ys, armed, felon, probation with
  | y :: ys', a :: armed', f :: felon', p :: probation' =>
      {| Escalation.Year := y;
         Escalation.Subject_Armed := a;
         Escalation.Subject_Felon := f;
         Escalation.Subject_Probation := p |}
      :: records_of ys' armed' felon' probation'
  | _, _, _, _ => []
  end.

Section Scripts.
Context `{G : NumpyRandom}.

(** Every fallback generator and every script takes [ambient], the state
    of the global generator when the interpreter reaches it. *)

(** The text of the timestamp [d] days after 2010-01-01. *)
Variable timestamp_text : Z -> string.

(** *** gang_colors.py *)

Definition gang_colors_fallback (ambient : rng_state) : dataframe :=
  let data_size := 5000%nat in
  let '(colors, st) :=
    rng_choice [Str "Y"; Str "NULL"; Str "N"]
               (Some [4 # 10; 2 # 10; 4 # 10]%Q) data_size ambient in
  let '(admits, st) :=
    rng_choice [Str "Y"; Str "NULL"; Str "N"]
               (Some [3 # 10; 1 # 10; 6 # 10]%Q) data_size st in
  [(GangColors.column_colors, colors); (GangColors.column_admits, admits)].

(** gang_colors.py prints nothing before it reads the file. *)
Definition gang_colors_main (ambient : rng_state) (src : source) : outcome table :=
  match src with
  | Unreadable e => py_exit [UnexpectedError e]
  | _ =>
      let '(stdout, df) :=
        match src with
        | Sheet df => ([Text "Data loaded successfully"; TotalRecords (df_len df)], df)
        | _ => (file_not_found_lines, gang_colors_fallback ambient)
        end in
      require2 GangColors.column_colors GangColors.column_admits stdout df
        (let contingency_table :=
           gang_colors_contingency_table
             (rows2 GangColors.column_colors GangColors.column_admits df) in
         (* [sns.heatmap] takes the minimum of the cells: [ValueError] on a
            table without rows *)
         match index contingency_table with
         | [] => Crashed stdout
         | _ :: _ => Rendered stdout contingency_table
         end)
  end.

(** *** colors.py *)

Definition colors_fallback (ambient : rng_state) : dataframe :=
  let st := rng_seed 42 in
  let data_size := 500%nat in
  let '(wears, st) :=
    rng_choice [Str "Y"; PyNone; Str "Y"; Str "Y"]
               (Some [4 # 10; 2 # 10; 3 # 10; 1 # 10]%Q) data_size st in
  let '(admits, st) :=
    rng_choice [Str "Y"; Str "NULL"; PyNone]
               (Some [2 # 10; 5 # 10; 3 # 10]%Q) data_size st in
  [(Colors.column_wears_colors, wears); (Colors.column_admits_gang, admits)].

Definition colors_main (ambient : rng_state) (src : source) : outcome table :=
  let stdout := [AttemptingToRead] in
  match src with
  | Unreadable e => py_exit (stdout ++ [UnexpectedError e])
  | _ =>
      let '(stdout, df) :=
        match src with
        | Sheet df => (stdout, df)
        | _ => (stdout ++ file_not_found_lines ++ [generating_line],
                colors_fallback ambient)
        end in
      require2 Colors.column_wears_colors Colors.column_admits_gang stdout df
        (let stdout := stdout ++ [Text "Data loaded successfully."; TotalRecords (df_len df)] in
         let frequency_table :=
           colors_frequency_table
             (rows2 Colors.column_wears_colors Colors.column_admits_gang df) in
         (* [frequency_table.plot] raises [TypeError] (no numeric data to
            plot) on a table without columns *)
         match columns frequency_table with
         | [] => Crashed stdout
         | _ :: _ => Rendered stdout frequency_table
         end)
  end.

(** *** race.py *)

Definition race_fallback (ambient : rng_state) : dataframe :=
  let st := rng_seed 43 in
  let data_size := 500%nat in
  let '(race, st) :=
    rng_choice [Str "Black"; Str "White"; Str "Hispanic"; Str "Multiracial"; PyNone; Str "Black"]
               (Some [30 # 100; 15 # 100; 40 # 100; 5 # 100; 5 # 100; 5 # 100]%Q)
               data_size st in
  let '(admits, st) :=
    rng_choice [Str "Y"; Str "NULL"; PyNone; Str "Y"]
               (Some [3 # 10; 3 # 10; 2 # 10; 2 # 10]%Q) data_size st in
  [(Race.column_race, race); (Race.column_admits_gang, admits)].

Definition race_main (ambient : rng_state) (src : source) : outcome table :=
  let stdout := [AttemptingToRead] in
  match src with
  | Unreadable e => py_exit (stdout ++ [UnexpectedError e])
  | _ =>
      let '(stdout, df) :=
        match src with
        | Sheet df => (stdout, df)
        | _ => (stdout ++ file_not_found_lines ++ [generating_line],
                race_fallback ambient)
        end in
      require2 Race.column_race Race.column_admits_gang stdout df
        (let stdout := stdout ++ [Text "Data loaded successfully."; TotalRecords (df_len df)] in
         let frequency_table :=
           race_frequency_table (rows2 Race.column_race Race.column_admits_gang df) in
         (* a table without rows has no greatest total height, and
            [ax.set_ylim] raises [ValueError] on the missing value *)
         match index frequency_table with
         | [] => Crashed stdout
         | _ :: _ => Rendered stdout frequency_table
         end)
  end.

(** *** escalation.py *)

(** [generate_binary_trend] *)
Definition generate_binary_trend (dates : datetimes) (base_prob annual_increase : Q)
           (st : rng_state) : option (list bool * rng_state) :=
  match dt_year_int dates with
  | None => None
  | Some years =>
      let min_year := fold_right Z.min (hd 0%Z years) years in
      let '(draws, st) := rng_rand (List.length years) st in
      Some (map (fun p => negb (Qle_bool (base_prob
                                          + inject_Z (snd p - min_year) * annual_increase)
                                         (fst p)))
                (combine draws years), st)
  end.

Definition Y_or_None (x : bool) : cell := if x then Str "Y" else PyNone.

(** The fallback data of escalation.py; [None] when building it raises.
    [dates] is what [pd.to_datetime] returns for a [DatetimeIndex], which is a
    [DatetimeIndex]. *)
Definition escalation_fallback (ambient : rng_state) : option dataframe :=
  let st := rng_seed 45 in
  let '(offsets, st) := rng_randint 0 (365 * 13) 5000 st in
  let stamps := map (fun d => Stamp (year_of_offset d) (timestamp_text d)) offsets in
  let dates := DatetimeIndex stamps in
  match generate_binary_trend dates (5 # 100) (5 # 1000) st with
  | None => None
  | Some (armed, st) =>
      match generate_binary_trend dates (15 # 100) (1 # 100) st with
      | None => None
      | Some (felon, st) =>
          match generate_binary_trend dates (10 # 100) (8 # 1000) st with
          | None => None
          | Some (probation, st) =>
              Some [(Escalation.column_date, stamps);
                    ("Subject_Armed", map Y_or_None armed);
                    ("Subject_Felon", map Y_or_None felon);
                    ("Subject_Probation", map Y_or_None probation)]
          end
      end
  end.

(** escalation.py from its column check on. *)
Definition escalation_analysis (stdout : list message) (df : dataframe)
  : outcome (list Escalation.trend_row) :=
  let required_columns := Escalation.column_date :: Escalation.columns_to_track in
  let missing_cols :=
    filter (fun col => negb (mem col (df_columns df))) required_columns in
  match missing_cols with
  | _ :: _ =>
      py_exit (stdout ++ [ErrorColumnsNotFound;
                          MissingColumns missing_cols;
                          AvailableColumns (df_columns df)])
  | [] =>
      let stdout := stdout ++ [Text "Data loaded successfully."; TotalRecords (df_len df)] in
      match dt_year (series Escalation.column_date df) with
      | None => Crashed stdout
      | Some ys =>
          Rendered stdout
            (Escalation.trends
               (records_of ys (series "Subject_Armed" df)
                           (series "Subject_Felon" df)
                           (series "Subject_Probation" df)))
      end
  end.

(** [read_excel(..., parse_dates=[column_date])] raises when the sheet has
    no such column, which the last [except] clause catches.  An exception
    raised while the fallback data is built, inside the handler of
    [FileNotFoundError], is caught by no clause. *)
Definition escalation_main (ambient : rng_state) (src : source)
  : outcome (list Escalation.trend_row) :=
  let stdout := [AttemptingToRead] in
  match src with
  | Sheet df =>
      if mem Escalation.column_date (df_columns df)
      then escalation_analysis stdout df
      else py_exit (stdout ++ [UnexpectedError "Missing column provided to 'parse_dates'"])
  | FileNotFound =>
      let stdout := stdout ++ file_not_found_lines ++ [generating_line] in
      match escalation_fallback ambient with
      | None => Crashed stdout
      | Some df => escalation_analysis stdout df
      end
  | Unreadable e => py_exit (stdout ++ [UnexpectedError e])
  end.

(** *** heatmap.py *)

Definition real_zips : list cell :=
  [Str "60601"; Str "60608"; Str "60616"; Str "60617"; Str "60620";
   Str "60632"; Str "60640"; Str "60649"; Str "60653"; Str "60827"].

(** The loop over the drawn ZIP codes: one draw of a race for each. *)
Fixpoint draw_races (zips : list cell) (st : rng_state) : list cell * rng_state :=
  match zips with
  | [] => ([], st)
  | z :: zips' =>
      let '(race, st) :=
        if isin ["60620"; "60649"] z then
          rng_choice [Str "Black"; Str "Hispanic"; Str "White"]
                     (Some [7 # 10; 2 # 10; 1 # 10]%Q) 1 st
        else if isin ["60608"; "60632"] z then
          rng_choice [Str "Hispanic"; Str "White"; Str "Black"]
                     (Some [6 # 10; 3 # 10; 1 # 10]%Q) 1 st
        else
          rng_choice [Str "White"; Str "Black"; Str "Hispanic"]
                     (Some [4 # 10; 3 # 10; 3 # 10]%Q) 1 st in
      let '(races, st) := draw_races zips' st in
      (hd NaN race :: races, st)
  end.

Definition heatmap_fallback (ambient : rng_state) : dataframe :=
  let st := rng_seed 42 in
  let data_size := 5000%nat in
  let '(zips, st) := rng_choice real_zips None data_size st in
  let '(races, st) := draw_races zips st in
  [(Heatmap.column_zip, zips); (Heatmap.column_race, races)].

(** The aggregate that the map is drawn from: [map_data] with its
    [Color_Scale] column. *)
Definition heatmap_main (ambient : rng_state) (src : source)
  : outcome (list Heatmap.geo_row * list (string * Z)) :=
  let stdout := [AttemptingToRead] in
  match src with
  | Unreadable e => py_exit (stdout ++ [UnexpectedError e])
  | _ =>
      let '(stdout, df) :=
        match src with
        | Sheet df => (stdout, df)
        | _ => (stdout ++ file_not_found_lines ++ [generating_line],
                heatmap_fallback ambient)
        end in
      require2 Heatmap.column_zip Heatmap.column_race stdout df
        (let stdout := stdout ++ [Text "Data loaded successfully."; TotalRecords (df_len df)] in
         let rows := rows2 Heatmap.column_zip Heatmap.column_race df in
         Rendered (stdout ++ [Text "Interactive map successfully created!"])
                  (Heatmap.map_data rows, Heatmap.color_scale rows))
  end.

End Scripts.

(** A small linear congruential generator: a concrete random source to run
    the fallback generators with. *)
Module Lcg.

Definition modulus : Z := 2147483648.

Definition next (st : Z) : Z := ((1103515245 * st + 12345) mod modulus)%Z.

(** The state as a number in [0, 1). *)
Definition uniform (st : Z) : Q := Qmake st 2147483648.

(** Inversion of the cumulative distribution [p] over the values [a]. *)
Fixpoint pick (a : list cell) (p : list Q) (u : Q) : cell :=
  match a, p with
  | [], _ => NaN
  | [x], _ => x
  | x :: _, [] => x
  | x :: a', q :: p' => if Qle_bool q u then pick a' p' (u - q)%Q else x
  end.

Definition choose (a : list cell) (p : option (list Q)) (st : Z) : cell :=
  match p with
  | Some p => pick a p (uniform st)
  | None => nth (Z.to_nat (st mod Z.of_nat (List.length a))) a NaN
  end.

Fixpoint draw {A : Type} (f : Z -> A) (n : nat) (st : Z) : list A * Z :=
  match n with
  | O => ([], st)
  | S n' =>
      let st := next st in
      let '(l, st') := draw f n' st in
      (f st :: l, st')
  end.

Definition generator : NumpyRandom :=
  {| rng_state := Z;
     rng_seed := fun n => n;
     rng_choice := fun a p n st => draw (choose a p) n st;
     rng_randint := fun low high n st => draw (fun s => (low + s mod (high - low))%Z) n st;
     rng_rand := fun n st => draw uniform n st |}.

End Lcg.

(** ** race.py: the labels of the stacked bars *)

Module RaceLabels.

Definition SMALL_SEGMENT_THRESHOLD : Q := 300.
Definition TINY_TOTAL_BAR_THRESHOLD : Q := 500.
Definition Y_N_OFFSET : Q := 30.
Definition Y_Y_OFFSET : Q := 350.

(** A rectangle of the chart, as its getters show it. *)
Record bar : Type := {
  get_x : Q;
  get_width : Q;
  get_y : Q;
  get_height : Q
}.

(** The colours of the labels: ['#4CAF50'], ['#FF5733'], ['black'],
    ['white']. *)
Inductive colour : Type := Green | Red | Black | White.

Inductive valign : Type := Bottom | Center.

(** A call of [ax.text]. *)
Record text : Type := {
  text_x : Q;
  text_y : Q;
  text_label : Z;
  text_va : valign;
  text_color : colour
}.

Definition Qlt_bool (a b : Q) : bool := negb (Qle_bool b a).

(** [min(x_positions, key=lambda x: abs(x - x_pos))]: the first of the
    closest positions. *)
Fixpoint closest_from (best x_pos : Q) (l : list Q) : Q :=
  match l with
  | [] => best
  | x :: l' =>
      if Qlt_bool (Qabs (x - x_pos)) (Qabs (best - x_pos))
      then closest_from x x_pos l'
      else closest_from best x_pos l'
  end.

(** [min] of an empty list raises [ValueError]: [None]. *)
Definition closest_tick (x_positions : list Q) (x_pos : Q) : option Q :=
  match x_positions with
  | [] => None
  | x :: l => Some (closest_from x x_pos l)
  end.

(** [dict(zip(keys, values)).get(k)]: the last value zipped with [k]. *)
Fixpoint dict_get (k : Q) (d : list (Q * Q)) : option Q :=
  match d with
  | [] => None
  | (k', v) :: d' =>
      match dict_get k d' with
      | Some v' => Some v'
      | None => if Qeq_bool k' k then Some v else None
      end
  end.

(** The body of the inner loop, for one bar of the container
    [container_index]: no label, one label, or [None] when [min] raises. *)
Definition label_bar (x_positions : list Q) (total_heights_map : list (Q * Q))
           (container_index : nat) (b : bar) : option (list text) :=
  let label_color := if Nat.eqb container_index 0 then Green else Red in
  let height := get_height b in
  if Qlt_bool 0 height then
    let x_pos := (get_x b + get_width b / 2)%Q in
    let label_text := Qfloor height in
    match closest_tick x_positions x_pos with
    | None => None
    | Some closest =>
        let total_height :=
          match dict_get closest total_heights_map with
          | Some h => h
          | None => 0%Q
          end in
        if Qlt_bool 0 total_height && Qlt_bool total_height TINY_TOTAL_BAR_THRESHOLD then
          let y_placement :=
            if Nat.eqb container_index 0
            then (total_height + Y_N_OFFSET)%Q
            else (total_height + Y_Y_OFFSET)%Q in
          Some [ {| text_x := x_pos; text_y := y_placement; text_label := label_text;
                    text_va := Bottom; text_color := label_color |} ]
        else if Qlt_bool height SMALL_SEGMENT_THRESHOLD then
          Some [ {| text_x := x_pos; text_y := (get_y b + height + Y_N_OFFSET)%Q;
                    text_label := label_text; text_va := Bottom; text_color := Black |} ]
        else
          Some [ {| text_x := x_pos; text_y := (get_y b + height / 2)%Q;
                    text_label := label_text; text_va := Center; text_color := White |} ]
    end
  else Some [].

(** The labels of the bars of one container, in order. *)
Fixpoint label_container (x_positions : list Q) (total_heights_map : list (Q * Q))
         (container_index : nat) (container : list bar) : option (list text) :=
  match container with
  | [] => Some []
  | b :: container' =>
      match label_bar x_positions total_heights_map container_index b,
            label_container x_positions total_heights_map container_index container' with
      | Some l, Some ls => Some (l ++ ls)
      | _, _ => None
      end
  end.

(** The outer loop, [enumerate(ax.containers)] counted from [container_index]. *)
Fixpoint label_containers (x_positions : list Q) (total_heights_map : list (Q * Q))
         (container_index : nat) (containers : list (list bar)) : option (list text) :=
  match containers with
  | [] => Some []
  | c :: containers' =>
      match label_container x_positions total_heights_map container_index c,
            label_containers x_positions total_heights_map (S container_index) containers' with
      | Some l, Some ls => Some (l ++ ls)
      | _, _ => None
      end
  end.

(** The chart that [frequency_table.plot(kind='bar', stacked=True)] draws:
    the ticks are at 0, 1, ... in row order; each column is a container; a
    bar is centred on the tick of its row, is half a unit wide, starts where
    the bars of the columns before it end, and is as high as its count. *)
Definition x_ticks (t : table) : list Q :=
  map (fun i => inject_Z (Z.of_nat i)) (seq 0 (List.length (index t))).

Definition Q_of_count (n : nat) : Q := inject_Z (Z.of_nat n).

Fixpoint containers_from (t : table) (before cols : list string) : list (list bar) :=
  match cols with
  | [] => []
  | c :: cols' =>
      map (fun ir =>
             {| get_x := (fst ir - (1 # 4))%Q;
                get_width := (1 # 2)%Q;
                get_y := Q_of_count (list_sum (map (count t (snd ir)) before));
                get_height := Q_of_count (count t (snd ir) c) |})
          (combine (x_ticks t) (index t))
      :: containers_from t (before ++ [c]) cols'
  end.

Definition containers (t : table) : list (list bar) := containers_from t [] (columns t).

(** [total_heights = frequency_table.sum(axis=1)] *)
Definition total_heights (t : table) : list Q :=
  map (fun r => Q_of_count (row_sum t r)) (index t).

(** Section 5 of race.py on the chart of a frequency table: the labels that
    it writes, in order. *)
Definition labels (t : table) : option (list text) :=
  let x_positions := x_ticks t in
  let total_heights_map := combine x_positions (total_heights t) in
  label_containers x_positions total_heights_map 0 (containers t).

(** The upper limit of the y axis,
    [max_total_height + Y_Y_OFFSET + 50], for a table with rows. *)
Definition ylim_top (t : table) : Q :=
  (fold_right (fun h m => if Qle_bool m h then h else m) 0%Q (total_heights t)
   + Y_Y_OFFSET + 50)%Q.

End RaceLabels.

(** ** Vocabulary of the properties *)

(** The order of row and column labels. *)
Definition label_before (x y : string) : Prop := String.compare x y = Lt.

(** A cell that holds one of the two canonical binary labels. *)
Definition is_YN (v : cell) : Prop := v = Str "Y" \/ v = Str "N".

(** A null marker: a missing value, or a string that trimmed and case-folded
    is empty or is ["NULL"]. *)
Definition null_marker (v : cell) : bool :=
  match v with
  | NaN | PyNone => true
  | Str s =>
      let folded := PyStr.strip (PyStr.upper s) in
      String.eqb folded "" || String.eqb folded "NULL"
  | Stamp _ _ => false
  end.

Definition indicator (b : bool) : nat := if b then 1%nat else 0%nat.

(** The number of records of a year, and the number of those that are
    flagged in a tracked column. *)
Definition year_total (y : Z) (df : list Escalation.record) : nat :=
  List.length (filter (Escalation.year_is y) df).

Definition flag_count (col : string) (y : Z) (df : list Escalation.record) : nat :=
  List.length
    (filter (fun r => Escalation.year_is y r
                      && Escalation.flagged (Escalation.field col r)) df).





(** The percentage of [n] in [total]. *)
Definition percent_of (n total : nat) : Q :=
  ((Escalation.Q_of_nat n / Escalation.Q_of_nat total) * 100)%Q.

(** A frame has all the columns listed. *)
Definition has_columns (cols : list string) (df : dataframe) : bool :=
  forallb (fun c => mem c (df_columns df)) cols.

(** ** Sample data *)

Definition demo_records : list Escalation.record :=
  [ {| Escalation.Year := Some 2011%Z; Escalation.Subject_Armed := Str "Y";
       Escalation.Subject_Felon := NaN; Escalation.Subject_Probation := Str " " |};
    {| Escalation.Year := Some 2010%Z; Escalation.Subject_Armed := Str "N";
       Escalation.Subject_Felon := PyNone; Escalation.Subject_Probation := Str "x" |};
    {| Escalation.Year := None; Escalation.Subject_Armed := Str "Y";
       Escalation.Subject_Felon := Str "Y"; Escalation.Subject_Probation := Str "Y" |};
    {| Escalation.Year := Some 2011%Z; Escalation.Subject_Armed := NaN;
       Escalation.Subject_Felon := NaN; Escalation.Subject_Probation := Str "Y" |} ].

Definition demo_trend_row : Escalation.trend_row :=
  {| Escalation.trend_year := 2011;
     Escalation.Total_Records := 2;
     Escalation.added :=
       [ ("Subject_Armed_Count", 1%Q); ("Subject_Armed_Percent", (100 # 2)%Q);
         ("Subject_Felon_Count", 0%Q); ("Subject_Felon_Percent", (0 # 2)%Q);
         ("Subject_Probation_Count", 1%Q); ("Subject_Probation_Percent", (100 # 2)%Q) ] |}.

Definition demo_geo : list (cell * cell) :=
  [ (Str "60601.0", Str "White"); (Str "60601", Str "Black"); (Str " 60608 ", NaN);
    (Str "606", Str "White"); (Str "60608-1234", Str "null"); (Str "60608", Str "Black");
    (Str "60601", Str "White"); (Str "60601", Str "Black") ].

Definition demo_geo_row : Heatmap.geo_row :=
  {| Heatmap.address_zip := "60601";
     Heatmap.Dominant_Race := Some "Black";
     Heatmap.Dominant_Percentage := Some (200 # 4)%Q;
     Heatmap.Total_Records := 4 |}.


(** The table that gang_colors.py draws when the file is missing. *)
Definition gang_colors_fallback_cells `{G : NumpyRandom} (ambient : rng_state)
  : list (list nat) :=
  match gang_colors_main ambient FileNotFound with
  | Rendered _ t => cells t
  | _ => []
  end.

(** Two tables with the same labels and the same counts. *)
Definition table_eq (t t' : table) : Prop :=
  index t = index t' /\ columns t = columns t'
  /\ forall r c, count t r c = count t' r c.

(** The records of gang_colors.py after [standardize_column], in pairs. *)
Definition gang_colors_rows (df : list (cell * cell)) : list (string * string) :=
  map (fun r => (GangColors.standardize_value (fst r),
                 GangColors.standardize_value (snd r))) df.

(** [pat] occurs in [s] up to ASCII case. *)
Fixpoint occurs_ci (pat s : string) : bool :=
  match PyStr.match_ci pat s with
  | Some _ => true
  | None =>
      match s with
      | EmptyString => false
      | String _ s' => occurs_ci pat s'
      end
  end.

(** The character [c] occurs in [s]. *)
Fixpoint has_char (c : ascii) (s : string) : bool :=
  match s with
  | EmptyString => false
  | String c' s' => Ascii.eqb c' c || has_char c s'
  end.

(** Some character of [s] is white space: a white-space code point starts
    at some byte of [s]. *)
Fixpoint has_space (s : string) : bool :=
  match s with
  | EmptyString => false
  | String _ s' => Nat.ltb 0 (PyStr.space_width s) || has_space s'
  end.


(** The no-break space U+00A0. *)
Definition nbsp : string := PyStr.bytes [194; 160]%nat.

(** heatmap.py, [style_function] and [popup_info]: the test
    [zip_code in map_data[column_zip].values] and, when it holds, the row
    [map_data[map_data[column_zip] == zip_code].iloc[0]]. *)
Definition popup_row (map_data : list Heatmap.geo_row) (zip_code : string)
  : option Heatmap.geo_row :=
  if mem zip_code (map Heatmap.address_zip map_data)
  then hd_error (filter (fun row => String.eqb (Heatmap.address_zip row) zip_code) map_data)
  else None.

(** A random source whose [choice] returns as many values as asked for, each
    one of the values offered. *)
Definition draws_well (G : NumpyRandom) : Prop :=
  forall (a : list cell) (p : option (list Q)) (n : nat) (st : rng_state),
    List.length (fst (rng_choice a p n st)) = n
    /\ (a <> [] -> Forall (fun v => In v a) (fst (rng_choice a p n st))).

(** The number of days of the [k] years that start with the year [y]. *)
Fixpoint days_of_years (y : Z) (k : nat) : Z :=
  match k with
  | O => 0%Z
  | S k' => (year_length y + days_of_years (y + 1) k')%Z
  end.

(** The position of the tick of the row number [i]. *)
Definition tick (i : nat) : Q := inject_Z (Z.of_nat i).

(** The label of one cell of a frequency table, read off the counts: the
    cell of the row [r], drawn at the tick [i], in the column [c] drawn as
    the container [container_index] on top of the columns [before]. *)
Definition cell_label (t : table) (container_index i : nat) (r : string)
           (before : list string) (c : string) : list RaceLabels.text :=
  let h := count t r c in
  let total := row_sum t r in
  let base := list_sum (map (count t r) before) in
  let x := (tick i - (1 # 4) + (1 # 2) / 2)%Q in
  if Nat.eqb h 0 then []
  else if Nat.ltb 0 total && Nat.ltb total 500 then
    [ {| RaceLabels.text_x := x;
         RaceLabels.text_y :=
           if Nat.eqb container_index 0
           then (RaceLabels.Q_of_count total + RaceLabels.Y_N_OFFSET)%Q
           else (RaceLabels.Q_of_count total + RaceLabels.Y_Y_OFFSET)%Q;
         RaceLabels.text_label := Z.of_nat h;
         RaceLabels.text_va := RaceLabels.Bottom;
         RaceLabels.text_color :=
           if Nat.eqb container_index 0 then RaceLabels.Green else RaceLabels.Red |} ]
  else if Nat.ltb h 300 then
    [ {| RaceLabels.text_x := x;
         RaceLabels.text_y :=
           (RaceLabels.Q_of_count base + RaceLabels.Q_of_count h + RaceLabels.Y_N_OFFSET)%Q;
         RaceLabels.text_label := Z.of_nat h;
         RaceLabels.text_va := RaceLabels.Bottom;
         RaceLabels.text_color := RaceLabels.Black |} ]
  else
    [ {| RaceLabels.text_x := x;
         RaceLabels.text_y := (RaceLabels.Q_of_count base + RaceLabels.Q_of_count h / 2)%Q;
         RaceLabels.text_label := Z.of_nat h;
         RaceLabels.text_va := RaceLabels.Center;
         RaceLabels.text_color := RaceLabels.White |} ].

(** The rows of a table with their positions. *)
Definition numbered_rows (t : table) : list (nat * string) :=
  combine (seq 0 (List.length (index t))) (index t).

(** The labels of the cells, column by column and, in a column, row by
    row. *)
Fixpoint labels_from (t : table) (container_index : nat) (before cols : list string)
  : list RaceLabels.text :=
  match cols with
  | [] => []
  | c :: cols' =>
      flat_map (fun ir => cell_label t container_index (fst ir) (snd ir) before c)
               (numbered_rows t)
      ++ labels_from t (S container_index) (before ++ [c]) cols'
  end.

Definition table_labels (t : table) : list RaceLabels.text :=
  labels_from t 0 [] (columns t).

(** A sheet of colors.py with one record, whose first value is no label. *)
Definition demo_maybe : dataframe :=
  [("Subject_Wears_Colors", [Str "maybe"]); ("Subject_Admits_Gang", [Str "Y"])].

Definition demo_race : list (cell * cell) :=
  [ (Str "White", Str "Y"); (Str "Black", NaN); (Str "Black", Str "Y");
    (Str "White", Str "Y") ].

(** * Properties *)

(** ** Sorted keys *)

Section SortedKeysFacts.
Context {A : Type} (cmp : A -> A -> comparison).
Hypothesis cmp_eq : forall x y, cmp x y = Eq -> x = y.
Hypothesis cmp_refl : forall x, cmp x x = Eq.
Hypothesis cmp_gt : forall x y, cmp x y = Gt -> cmp y x = Lt.
Hypothesis cmp_trans : forall x y z, cmp x y = Lt -> cmp y z = Lt -> cmp x z = Lt.

Let before (x y : A) : Prop := cmp x y = Lt.

Lemma In_insert_key (x z : A) (l : list A) :
  In z (insert_key cmp x l) <-> z = x \/ In z l.
Proof.
  induction l as [|y l IH]; simpl.
  - intuition.
  - destruct (cmp x y) eqn:E; simpl.
    + apply cmp_eq in E. subst y. intuition.
    + intuition.
    + rewrite IH. intuition.
Qed.

Lemma In_sorted_keys (z : A) (l : list A) :
  In z (sorted_keys cmp l) <-> In z l.
Proof.
  induction l as [|x l IH]; simpl.
  - reflexivity.
  - rewrite In_insert_key, IH. intuition.
Qed.

Lemma insert_key_sorted (x : A) (l : list A) :
  StronglySorted before l -> StronglySorted before (insert_key cmp x l).
Proof.
  induction 1 as [|y l Hs IH Hall]; simpl.
  - constructor; constructor.
  - destruct (cmp x y) eqn:E.
    + constructor; assumption.
    + constructor.
      * constructor; assumption.
      * constructor; [exact E|].
        rewrite Forall_forall in *. intros z Hz.
        apply (cmp_trans x y z E). apply Hall, Hz.
    + constructor; [exact IH|].
      rewrite Forall_forall in *. intros z Hz.
      apply In_insert_key in Hz. destruct Hz as [->|Hz].
      * apply cmp_gt, E.
      * apply Hall, Hz.
Qed.

Lemma sorted_keys_sorted (l : list A) : StronglySorted before (sorted_keys cmp l).
Proof.
  induction l as [|x l IH]; simpl.
  - constructor.
  - apply insert_key_sorted, IH.
Qed.

Lemma before_irrefl (x : A) : ~ before x x.
Proof. unfold before. rewrite cmp_refl. discriminate. Qed.

Lemma sorted_NoDup (l : list A) : StronglySorted before l -> NoDup l.
Proof.
  induction 1 as [|y l Hs IH Hall]; constructor; [|exact IH].
  intro Hin. rewrite Forall_forall in Hall.
  exact (before_irrefl y (Hall y Hin)).
Qed.

Lemma sorted_keys_NoDup (l : list A) : NoDup (sorted_keys cmp l).
Proof. apply sorted_NoDup, sorted_keys_sorted. Qed.

(** A strictly sorted list is determined by its elements. *)
Lemma sorted_unique (l1 : list A) :
  forall l2, StronglySorted before l1 -> StronglySorted before l2 ->
             (forall x, In x l1 <-> In x l2) -> l1 = l2.
Proof.
  induction l1 as [|a l1 IH]; intros [|b l2] H1 H2 Hin.
  - reflexivity.
  - exfalso. apply (proj2 (Hin b)). left. reflexivity.
  - exfalso. apply (proj1 (Hin a)). left. reflexivity.
  - inversion H1 as [|? ? Hs1 Ha]; subst.
    inversion H2 as [|? ? Hs2 Hb]; subst.
    rewrite Forall_forall in Ha, Hb.
    assert (a = b) as ->.
    { destruct (proj1 (Hin a) (or_introl eq_refl)) as [E|Hab]; [congruence|].
      destruct (proj2 (Hin b) (or_introl eq_refl)) as [E|Hba]; [congruence|].
      exfalso. apply (before_irrefl a).
      apply (cmp_trans a b a); [apply Ha, Hba | apply Hb, Hab]. }
    f_equal. apply IH; try assumption.
    intro x. split; intro Hx.
    + destruct (proj1 (Hin x) (or_intror Hx)) as [E|Hx']; [|exact Hx'].
      subst x. exfalso. exact (before_irrefl b (Ha b Hx)).
    + destruct (proj2 (Hin x) (or_intror Hx)) as [E|Hx']; [|exact Hx'].
      subst x. exfalso. exact (before_irrefl b (Hb b Hx)).
Qed.

Lemma sorted_keys_ext (l l' : list A) :
  (forall x, In x l <-> In x l') -> sorted_keys cmp l = sorted_keys cmp l'.
Proof.
  intro H. apply sorted_unique; try apply sorted_keys_sorted.
  intro x. rewrite !In_sorted_keys. apply H.
Qed.

Lemma sorted_keys_Permutation (l l' : list A) :
  Permutation l l' -> sorted_keys cmp l = sorted_keys cmp l'.
Proof.
  intro P. apply sorted_keys_ext. intro x. split.
  - apply Permutation_in, P.
  - apply Permutation_in, Permutation_sym, P.
Qed.
End SortedKeysFacts.

Lemma string_compare_refl (x : string) : String.compare x x = Eq.
Proof. apply String_as_OT.cmp_eq. reflexivity. Qed.

Lemma string_compare_gt (x y : string) :
  String.compare x y = Gt -> String.compare y x = Lt.
Proof. intro H. rewrite String.compare_antisym, H. reflexivity. Qed.

Lemma string_compare_trans (x y z : string) :
  String.compare x y = Lt -> String.compare y z = Lt -> String.compare x z = Lt.
Proof.
  intros H1 H2. apply String_as_OT.cmp_lt.
  apply String_as_OT.cmp_lt in H1. apply String_as_OT.cmp_lt in H2.
  exact (String_as_OT.lt_trans _ _ _ H1 H2).
Qed.

Lemma In_sorted_labels (z : string) (l : list string) :
  In z (sorted_labels l) <-> In z l.
Proof. apply In_sorted_keys, String.compare_eq_iff. Qed.

Lemma sorted_labels_sorted (l : list string) :
  StronglySorted label_before (sorted_labels l).
Proof.
  apply sorted_keys_sorted.
  - apply String.compare_eq_iff.
  - apply string_compare_gt.
  - apply string_compare_trans.
Qed.

Lemma sorted_labels_NoDup (l : list string) : NoDup (sorted_labels l).
Proof.
  apply sorted_keys_NoDup.
  - apply String.compare_eq_iff.
  - apply string_compare_refl.
  - apply string_compare_gt.
  - apply string_compare_trans.
Qed.

Lemma sorted_labels_Permutation (l l' : list string) :
  Permutation l l' -> sorted_labels l = sorted_labels l'.
Proof.
  apply sorted_keys_Permutation.
  - apply String.compare_eq_iff.
  - apply string_compare_refl.
  - apply string_compare_gt.
  - apply string_compare_trans.
Qed.

Lemma mem_In (x : string) (l : list string) : mem x l = true <-> In x l.
Proof.
  unfold mem. rewrite existsb_exists. split.
  - intros [y [Hy E]]. apply String.eqb_eq in E. subst. exact Hy.
  - intro H. exists x. split; [exact H | apply String.eqb_refl].
Qed.

(** ** Strings *)










Lemma upper_empty (s : string) : PyStr.upper s = "" -> s = "".
Proof. destruct s; [reflexivity | discriminate]. Qed.




Lemma append_empty_r (s : string) : (s ++ "")%string = s.
Proof. induction s as [|c s IH]; simpl; [|rewrite IH]; reflexivity. Qed.

(** A string that is ["NULL"] up to case is replaced as a whole. *)
Lemma replace_ci_NULL (label s : string) :
  PyStr.upper s = "NULL" -> PyStr.replace_ci "NULL" label s = label.
Proof.
  destruct s as [|a [|b [|c [|d s]]]]; try discriminate.
  simpl. intro H. injection H as Ha Hb Hc Hd Hs.
  apply upper_empty in Hs. subst s.
  unfold PyStr.replace_ci. simpl.
  rewrite Ha, Hb, Hc, Hd. simpl.
  apply append_empty_r.
Qed.

(** ** The binary normalizer of gang_colors.py *)

Lemma standardize_value_spec (v : cell) :
  GangColors.standardize_value v =
  if String.eqb (PyStr.strip (PyStr.upper (astype_str v))) "Y" then "Y" else "N".
Proof.
  unfold GangColors.standardize_value.
  set (x := PyStr.strip (PyStr.upper (astype_str v))).
  simpl replace_dict.
  destruct (String.eqb x "Y") eqn:EY.
  - apply String.eqb_eq in EY. rewrite EY. reflexivity.
  - destruct (String.eqb x "NULL"); [reflexivity|].
    destruct (String.eqb x "NAN"); [reflexivity|].
    destruct (String.eqb x "N/A"); [reflexivity|].
    rewrite EY. reflexivity.
Qed.

Lemma standardize_value_YN (v : cell) :
  GangColors.standardize_value v = "Y" \/ GangColors.standardize_value v = "N".
Proof.
  rewrite standardize_value_spec.
  destruct (String.eqb _ "Y"); [left | right]; reflexivity.
Qed.

(** ** The cleaning of colors.py *)

Lemma isin_YN (v : cell) : isin ["Y"; "N"] v = true <-> is_YN v.
Proof.
  unfold is_YN. destruct v as [| |s|y t]; simpl; try (split; [discriminate | intros [H|H]; discriminate]).
  destruct (String.eqb_spec s "Y") as [->|NY]; simpl.
  - split; auto.
  - destruct (String.eqb_spec s "N") as [->|NN]; simpl.
    + split; auto.
    + split; [discriminate | intros [H|H]; congruence].
Qed.

Lemma colors_clean_value_spec (v : cell) :
  Colors.clean_value v =
  match v with
  | NaN | PyNone => Str "N"
  | Str s => if String.eqb s "NULL" then Str "N" else Str s
  | Stamp _ _ => v
  end.
Proof. destruct v; reflexivity. Qed.

Lemma colors_prepare_In (df : list (cell * cell)) (r : cell * cell) :
  In r (Colors.prepare df) <->
  (exists r0, In r0 df /\ r = (Colors.clean_value (fst r0), Colors.clean_value (snd r0)))
  /\ is_YN (fst r) /\ is_YN (snd r).
Proof.
  unfold Colors.prepare, Colors.keep_YN, Colors.clean.
  rewrite filter_In, in_map_iff, andb_true_iff, !isin_YN.
  split.
  - intros [[r0 [E H]] Hyn]. split; [exists r0; split; [exact H | symmetry; exact E] | exact Hyn].
  - intros [[r0 [H E]] Hyn]. split; [exists r0; split; [symmetry; exact E | exact H] | exact Hyn].
Qed.

(** ** Claims on the normalizers *)

(** C1 at a failing input of colors.py: a record whose value in
    Subject_Wears_Colors is ["maybe"], which is not ["Y"] after trimming and
    case folding.  colors.py leaves the value as it is and its [isin] filter
    then removes the record: nothing is left to tabulate, and the plot of the
    table without columns raises.  gang_colors.py maps the same value to
    ["N"] and counts the record. *)
Theorem C1_colors_drops_unrecognized :
  let df := [(Str "maybe", Str "Y")] in
  PyStr.strip (PyStr.upper "maybe") <> "Y"
  /\ Colors.clean df = [(Str "maybe", Str "Y")]
  /\ Colors.prepare df = []
  /\ List.length (Colors.prepare df) <> List.length df
  /\ columns (colors_frequency_table df) = []
  /\ table_sum (colors_frequency_table df) = 0%nat
  /\ colors_main (G := Lcg.generator) 0%Z (Sheet demo_maybe) =
     Crashed [AttemptingToRead; Text "Data loaded successfully."; TotalRecords 1]
  /\ gang_colors_rows df = [("N", "Y")]
  /\ cells (gang_colors_contingency_table df) = [[1]]%nat.
Proof. repeat split; discriminate. Qed.

(** Every script maps a missing value to the label of the column, and
    gang_colors.py, race.py and heatmap.py map every spelling of ["NULL"] to
    it; colors.py maps the exact string ["NULL"]. *)
Lemma null_markers_collapse :
  (forall v : cell, null_marker v = true -> GangColors.standardize_value v = "N")
  /\ (forall v : cell,
         v = NaN \/ v = PyNone \/ v = Str "NULL" -> Colors.clean_value v = Str "N")
  /\ (forall (label : string) (v : cell),
         v = NaN \/ (exists s, v = Str s /\ PyStr.upper (PyStr.strip s) = "NULL") ->
         Race.clean_with label v = label).
Proof.
  split; [|split].
  - intros v H. rewrite standardize_value_spec.
    destruct v as [| |s|y t]; try reflexivity; try discriminate.
    simpl in *. apply orb_true_iff in H.
    destruct H as [H|H]; apply String.eqb_eq in H; rewrite H; reflexivity.
  - intros v [->|[->| ->]]; reflexivity.
  - intros label v [->|[s [-> H]]].
    + unfold Race.clean_with. simpl. reflexivity.
    + unfold Race.clean_with. simpl astype_str.
      rewrite (replace_ci_NULL label _ H).
      destruct (String.eqb label "nan"); reflexivity.
Qed.

(** C2 at a failing input of colors.py: a record whose value in
    Subject_Admits_Gang is ["Null"], the literal ["NULL"] in another letter
    case.  colors.py compares with ["NULL"] exactly: the value stays, and the
    [isin] filter removes the record.  gang_colors.py and race.py, which
    clean the same column, map the value to ["N"], and race.py and heatmap.py
    map it to ["Unknown"] in the race column. *)
Theorem C2_colors_keeps_Null :
  let df := [(Str "Y", Str "Null")] in
  null_marker (Str "Null") = true
  /\ Colors.clean_value (Str "Null") = Str "Null"
  /\ Colors.clean df = [(Str "Y", Str "Null")]
  /\ Colors.prepare df = []
  /\ table_sum (colors_frequency_table df) = 0%nat
  /\ Colors.clean_value (Str "NULL") = Str "N"
  /\ GangColors.standardize_value (Str "Null") = "N"
  /\ Race.clean_admits (Str "Null") = "N"
  /\ Race.clean_race (Str "Null") = "Unknown".
Proof. repeat split. Qed.

(** ** Counting in a cross-tabulation *)

Lemma list_sum_map_add {A : Type} (F G : A -> nat) (L : list A) :
  list_sum (map (fun c => F c + G c)%nat L) = (list_sum (map F L) + list_sum (map G L))%nat.
Proof. induction L as [|c L IH]; simpl; [reflexivity | rewrite IH; lia]. Qed.

Lemma list_sum_map_zero {A : Type} (F : A -> nat) (L : list A) :
  (forall c, In c L -> F c = 0%nat) -> list_sum (map F L) = 0%nat.
Proof.
  induction L as [|c L IH]; simpl; intro H; [reflexivity|].
  rewrite (H c (or_introl eq_refl)), IH; [reflexivity|].
  intros c' Hc'. apply H. right. exact Hc'.
Qed.

Lemma indicator_sum (y : string) (L : list string) :
  NoDup L -> In y L -> list_sum (map (fun c => indicator (String.eqb y c)) L) = 1%nat.
Proof.
  induction 1 as [|c L Hc Hnd IH]; simpl; intros Hin; [contradiction|].
  destruct Hin as [->|Hin].
  - rewrite String.eqb_refl. simpl. f_equal.
    apply list_sum_map_zero. intros c' Hc'.
    destruct (String.eqb_spec y c') as [->|_]; [contradiction | reflexivity].
  - destruct (String.eqb_spec y c) as [->|_]; [contradiction|].
    simpl. apply IH, Hin.
Qed.

(** Sorting the records that pass [g] by their label [f] loses none, when
    the labels listed are distinct and none is missing. *)
Lemma count_partition {A : Type} (f : A -> string) (g : A -> bool)
      (L : list string) (l : list A) :
  NoDup L ->
  (forall x, In x l -> g x = true -> In (f x) L) ->
  list_sum (map (fun c => List.length (filter (fun x => g x && String.eqb (f x) c) l)) L)
  = List.length (filter g l).
Proof.
  intros Hnd. induction l as [|x l IH]; intro Hin.
  - simpl. apply list_sum_map_zero. reflexivity.
  - assert (IH' := IH (fun y Hy => Hin y (or_intror Hy))). clear IH.
    transitivity
      (list_sum (map (fun c => indicator (g x && String.eqb (f x) c)
                               + List.length (filter (fun y => g y && String.eqb (f y) c) l))%nat L)).
    { f_equal. apply map_ext. intro c. simpl.
      destruct (g x && String.eqb (f x) c); reflexivity. }
    rewrite list_sum_map_add, IH'. simpl.
    destruct (g x) eqn:Eg; simpl.
    + rewrite indicator_sum; [reflexivity | exact Hnd |].
      apply Hin; [left; reflexivity | exact Eg].
    + rewrite list_sum_map_zero; reflexivity.
Qed.

Lemma row_sum_crosstab (rows : list (string * string)) (r : string) :
  row_sum (crosstab rows) r =
  List.length (filter (fun p => String.eqb (fst p) r) rows).
Proof.
  unfold row_sum, crosstab, count_pairs. simpl.
  apply (count_partition snd (fun p => String.eqb (fst p) r)).
  - apply sorted_labels_NoDup.
  - intros x Hx _. apply In_sorted_labels, in_map, Hx.
Qed.

(** Count conservation of [pd.crosstab]. *)
Lemma table_sum_crosstab (rows : list (string * string)) :
  table_sum (crosstab rows) = List.length rows.
Proof.
  unfold table_sum.
  transitivity
    (list_sum (map (fun r => List.length
                               (filter (fun p => true && String.eqb (fst p) r) rows))
                   (index (crosstab rows)))).
  { f_equal. apply map_ext. intro r. rewrite row_sum_crosstab. reflexivity. }
  rewrite (count_partition fst (fun _ => true)).
  - clear. induction rows as [|x rows IH]; simpl; [reflexivity | rewrite IH; reflexivity].
  - apply sorted_labels_NoDup.
  - intros x Hx _. apply In_sorted_labels, in_map, Hx.
Qed.

Lemma count_pairs_Permutation (rows rows' : list (string * string)) (r c : string) :
  Permutation rows rows' -> count_pairs rows r c = count_pairs rows' r c.
Proof.
  intro P. unfold count_pairs. apply Permutation_length.
  induction P; simpl.
  - constructor.
  - destruct (_ && _); [constructor|]; assumption.
  - destruct (String.eqb (fst y) r && _), (String.eqb (fst x) r && _);
      try constructor; apply Permutation_refl.
  - eapply Permutation_trans; eassumption.
Qed.

(** gang_colors.py keeps every record in its table. *)
Lemma gang_colors_table_sum (df : list (cell * cell)) :
  table_sum (gang_colors_contingency_table df) = List.length df.
Proof.
  unfold gang_colors_contingency_table, GangColors.standardize_column.
  rewrite table_sum_crosstab, length_combine, !length_map. apply Nat.min_id.
Qed.

(** A table whose cells count the pairs of [rows] and whose labels are
    distinct and miss none of [rows] holds each of them once. *)
Lemma table_sum_of_counts (t : table) (rows : list (string * string)) :
  NoDup (index t) -> NoDup (columns t) ->
  (forall p, In p rows -> In (fst p) (index t) /\ In (snd p) (columns t)) ->
  (forall r c, In r (index t) -> In c (columns t) -> count t r c = count_pairs rows r c) ->
  table_sum t = List.length rows.
Proof.
  intros Hi Hc Hin Hcount. unfold table_sum.
  transitivity
    (list_sum (map (fun r => List.length
                               (filter (fun p => true && String.eqb (fst p) r) rows))
                   (index t))).
  - f_equal. apply map_ext_in. intros r Hr. unfold row_sum.
    transitivity (list_sum (map (count_pairs rows r) (columns t))).
    + f_equal. apply map_ext_in. intros c Hc'. apply Hcount; assumption.
    + unfold count_pairs.
      apply (count_partition snd (fun p => String.eqb (fst p) r)); [exact Hc|].
      intros x Hx _. apply Hin, Hx.
  - rewrite (count_partition fst (fun _ => true)).
    + clear. induction rows as [|x rows IH]; simpl; [reflexivity | rewrite IH; reflexivity].
    + exact Hi.
    + intros x Hx _. apply Hin, Hx.
Qed.

Lemma count_pairs_zero (rows : list (string * string)) (r c : string) :
  ~ In r (map fst rows) \/ ~ In c (map snd rows) -> count_pairs rows r c = 0%nat.
Proof.
  intro H. unfold count_pairs.
  induction rows as [|p rows IH]; simpl; [reflexivity|].
  destruct (String.eqb_spec (fst p) r) as [E1|N1]; simpl.
  - destruct (String.eqb_spec (snd p) c) as [E2|N2]; simpl.
    + exfalso. destruct H as [H|H]; apply H; left; assumption.
    + apply IH. destruct H as [H|H]; [left|right]; intro Hx; apply H; right; exact Hx.
  - apply IH. destruct H as [H|H]; [left|right]; intro Hx; apply H; right; exact Hx.
Qed.

Lemma NoDup_NY : NoDup ["N"; "Y"].
Proof.
  constructor; [|constructor; [|constructor]]; simpl; intuition discriminate.
Qed.

Lemma keyed_prepare (df : list (cell * cell)) :
  List.length (keyed (Colors.prepare df)) = List.length (Colors.prepare df)
  /\ forall p, In p (keyed (Colors.prepare df)) ->
               In (fst p) ["N"; "Y"] /\ In (snd p) ["N"; "Y"].
Proof.
  assert (H : forall r, In r (Colors.prepare df) -> is_YN (fst r) /\ is_YN (snd r)).
  { intros r Hr. apply colors_prepare_In in Hr. apply Hr. }
  induction (Colors.prepare df) as [|r l IH]; simpl.
  - split; [reflexivity | contradiction].
  - destruct (H r (or_introl eq_refl)) as [Ha Hb].
    destruct IH as [IHl IHin]; [intros r' Hr'; apply H; right; exact Hr'|].
    destruct r as [a b]. simpl in Ha, Hb.
    assert (exists x y, a = Str x /\ b = Str y /\ In x ["N"; "Y"] /\ In y ["N"; "Y"])
      as [x [y [-> [-> [Hx Hy]]]]].
    { destruct Ha as [->| ->], Hb as [->| ->]; do 2 eexists; simpl; intuition. }
    simpl. split; [rewrite IHl; reflexivity|].
    intros p [<-|Hp]; [split; assumption | apply IHin, Hp].
Qed.

(** colors.py keeps in its table every record that passes its filter. *)
Lemma colors_table_sum (df : list (cell * cell)) :
  table_sum (colors_frequency_table df) = List.length (Colors.prepare df).
Proof.
  destruct (keyed_prepare df) as [Hlen Hin]. rewrite <- Hlen.
  unfold colors_frequency_table, crosstab_obj.
  set (rows := keyed (Colors.prepare df)) in *.
  assert (Hcount : forall r c,
             count (reindex_index ["N"; "Y"] (crosstab rows)) r c = count_pairs rows r c).
  { intros r c. simpl. destruct (mem r (sorted_labels (map fst rows))) eqn:E; [reflexivity|].
    symmetry. apply count_pairs_zero. left. intro Hr.
    apply In_sorted_labels, mem_In in Hr. congruence. }
  destruct (mem "N" _ && mem "Y" _) eqn:E.
  - apply table_sum_of_counts; simpl; try apply NoDup_NY.
    + exact Hin.
    + intros r c _ _. apply Hcount.
  - apply table_sum_of_counts; simpl.
    + apply NoDup_NY.
    + apply sorted_labels_NoDup.
    + intros p Hp. split; [apply Hin, Hp | apply In_sorted_labels, in_map, Hp].
    + intros r c _ _. apply Hcount.
Qed.

Lemma count_pairs_filter_snd (rows : list (string * string)) (r c : string)
      (L : list string) :
  mem c L = true ->
  count_pairs (filter (fun p => mem (snd p) L) rows) r c = count_pairs rows r c.
Proof.
  intro Hc. unfold count_pairs.
  induction rows as [|p rows IH]; [reflexivity|].
  cbn [filter]. destruct (mem (snd p) L) eqn:Em.
  - cbn [filter]. destruct (_ && _); cbn [List.length]; rewrite IH; reflexivity.
  - destruct (String.eqb_spec (snd p) c) as [E|_].
    + exfalso. rewrite <- E in Hc. congruence.
    + rewrite andb_false_r. exact IH.
Qed.

(** What race.py's table holds: the records whose cleaned admission label is
    one of the two columns kept. *)
Lemma race_table_sum (df : list (cell * cell)) :
  table_sum (race_frequency_table df) =
  List.length (filter (fun p => mem (snd p) ["N"; "Y"]) (Race.clean df)).
Proof.
  unfold race_frequency_table.
  set (rows := Race.clean df).
  set (t1 := if negb (mem "N" (columns (crosstab rows)))
             then add_zero_column "N" (crosstab rows) else crosstab rows).
  set (t2 := if negb (mem "Y" (columns t1)) then add_zero_column "Y" t1 else t1).
  assert (Hidx : index t2 = sorted_labels (map fst rows)).
  { unfold t2, t1. destruct (negb _); destruct (negb _); reflexivity. }
  assert (H1 : forall r c, In c ["N"; "Y"] -> count t1 r c = count_pairs rows r c).
  { intros r c Hc. unfold t1. destruct (mem "N" (columns (crosstab rows))) eqn:E; simpl; [reflexivity|].
    destruct (String.eqb_spec c "N") as [->|_]; [|reflexivity].
    symmetry. apply count_pairs_zero. right. intro H.
    apply In_sorted_labels, mem_In in H. simpl in E. congruence. }
  assert (H2 : forall r c, In c ["N"; "Y"] -> count t2 r c = count_pairs rows r c).
  { intros r c Hc. unfold t2. destruct (mem "Y" (columns t1)) eqn:E; simpl; [apply H1, Hc|].
    destruct (String.eqb_spec c "Y") as [->|_]; [|apply H1, Hc].
    symmetry. apply count_pairs_zero. right. intro H.
    assert (In "Y" (columns t1)) as HY.
    { unfold t1. destruct (negb _); simpl; [apply in_or_app; left|];
        apply In_sorted_labels, H. }
    apply mem_In in HY. congruence. }
  apply table_sum_of_counts; cbn [index columns count select_columns].
  - rewrite Hidx. apply sorted_labels_NoDup.
  - apply NoDup_NY.
  - intros p Hp. apply filter_In in Hp. destruct Hp as [Hp Hm]. split.
    + rewrite Hidx. apply In_sorted_labels, in_map, Hp.
    + apply mem_In, Hm.
  - intros r c _ Hc. rewrite (H2 r c Hc). symmetry.
    apply count_pairs_filter_snd, mem_In, Hc.
Qed.

(** ** Claims on the contingency tables *)

(** C3 at a failing input of race.py: one record whose admission value is a
    lower-case ["y"].  Its cleaned labels are [("White", "y")], the table
    keeps the columns ["N"] and ["Y"] only, and the record is in no cell. *)
Theorem C3_race_table_drops_record :
  let df := [(Str "White", Str "y")] in
  Race.clean df = [("White", "y")]
  /\ index (race_frequency_table df) = ["White"]
  /\ columns (race_frequency_table df) = ["N"; "Y"]
  /\ cells (race_frequency_table df) = [[0; 0]]%nat
  /\ table_sum (race_frequency_table df) = 0%nat
  /\ List.length df = 1%nat.
Proof. repeat split. Qed.

(** C4 at a failing input: one record that wears colours and does not admit.
    colors.py reindexes the rows, and leaves the columns as they are unless
    both labels occur: the column ["Y"] is missing.  gang_colors.py reindexes
    nothing: the row ["N"] and the column ["Y"] are missing. *)
Theorem C4_missing_label_not_filled :
  let df := [(Str "Y", Str "N")] in
  index (colors_frequency_table df) = ["N"; "Y"]
  /\ columns (colors_frequency_table df) = ["N"]
  /\ cells (colors_frequency_table df) = [[0]; [1]]%nat
  /\ index (gang_colors_contingency_table df) = ["Y"]
  /\ columns (gang_colors_contingency_table df) = ["N"]
  /\ cells (gang_colors_contingency_table df) = [[1]]%nat.
Proof. repeat split. Qed.

(** ** The trend table of escalation.py *)

Lemma percent_of_bounds (n t : nat) :
  (n <= t)%nat -> (1 <= t)%nat -> (0 <= percent_of n t /\ percent_of n t <= 100)%Q.
Proof.
  intros Hn Ht. unfold percent_of, Escalation.Q_of_nat.
  assert (Hq : (0 <= inject_Z (Z.of_nat n) / inject_Z (Z.of_nat t)
                /\ inject_Z (Z.of_nat n) / inject_Z (Z.of_nat t) <= 1)%Q).
  { assert (0 < inject_Z (Z.of_nat t))%Q as Hpos.
    { change 0%Q with (inject_Z 0). rewrite <- Zlt_Qlt. lia. }
    split.
    - apply Qle_shift_div_l; [exact Hpos|]. rewrite Qmult_0_l.
      change 0%Q with (inject_Z 0). rewrite <- Zle_Qle. lia.
    - apply Qle_shift_div_r; [exact Hpos|]. rewrite Qmult_1_l.
      rewrite <- Zle_Qle. lia. }
  destruct Hq as [H0 H1]. split.
  - apply Qmult_le_0_compat; [exact H0 | discriminate].
  - setoid_replace 100%Q with (1 * 100)%Q at 2 by reflexivity.
    apply Qmult_le_compat_r; [exact H1 | discriminate].
Qed.

Lemma In_years (y : Z) (df : list Escalation.record) :
  In y (Escalation.years df) <-> exists r, In r df /\ Escalation.Year r = Some y.
Proof.
  unfold Escalation.years. rewrite in_flat_map. split.
  - intros [r [Hr Hy]]. exists r. split; [exact Hr|].
    destruct (Escalation.Year r) as [y'|]; simpl in Hy; [|contradiction].
    destruct Hy as [->|[]]. reflexivity.
  - intros [r [Hr Hy]]. exists r. split; [exact Hr|]. rewrite Hy. left. reflexivity.
Qed.

Lemma year_total_positive (y : Z) (df : list Escalation.record) :
  In y (Escalation.years df) -> (1 <= year_total y df)%nat.
Proof.
  intro H. apply In_years in H. destruct H as [r [Hr Hy]].
  unfold year_total.
  assert (In r (filter (Escalation.year_is y) df)) as Hin.
  { apply filter_In. split; [exact Hr|].
    unfold Escalation.year_is. rewrite Hy. apply Z.eqb_refl. }
  destruct (filter (Escalation.year_is y) df); [contradiction | simpl; lia].
Qed.

Lemma year_total_zero (y : Z) (df : list Escalation.record) :
  ~ In y (Escalation.years df) -> year_total y df = 0%nat.
Proof.
  intro H. unfold year_total.
  destruct (filter (Escalation.year_is y) df) as [|r l] eqn:E; [reflexivity|].
  exfalso. apply H, In_years. exists r.
  assert (In r (filter (Escalation.year_is y) df)) as Hin by (rewrite E; left; reflexivity).
  apply filter_In in Hin. destruct Hin as [Hr Hy]. split; [exact Hr|].
  unfold Escalation.year_is in Hy. destruct (Escalation.Year r) as [y'|]; [|discriminate].
  apply Z.eqb_eq in Hy. congruence.
Qed.

Lemma In_sorted_years (y : Z) (l : list Z) : In y (sorted_keys Z.compare l) <-> In y l.
Proof. apply In_sorted_keys. intros a b. apply Z.compare_eq. Qed.

Lemma lookup_keys (F : Z -> nat) (y : Z) (keys : list Z) :
  Escalation.lookup y (map (fun k => (k, F k)) keys) =
  if existsb (Z.eqb y) keys then Some (F y) else None.
Proof.
  induction keys as [|k keys IH]; simpl; [reflexivity|].
  rewrite (Z.eqb_sym y k). destruct (Z.eqb_spec k y) as [->|_]; simpl; [reflexivity | exact IH].
Qed.

(** The left merge followed by [fillna(0)] yields the number of records of
    the year in the merged frame, also for a year that the frame lacks. *)
Lemma lookup_groupby_size (y : Z) (df : list Escalation.record) :
  match Escalation.lookup y (Escalation.groupby_size df) with
  | Some n => Escalation.Q_of_nat n
  | None => 0%Q
  end = Escalation.Q_of_nat (year_total y df).
Proof.
  unfold Escalation.groupby_size.
  rewrite (lookup_keys (fun y => List.length (filter (Escalation.year_is y) df))).
  destruct (existsb (Z.eqb y) _) eqn:E; [reflexivity|].
  rewrite year_total_zero; [reflexivity|].
  intro H. apply In_sorted_years in H.
  assert (existsb (Z.eqb y) (sorted_keys Z.compare (Escalation.years df)) = true).
  { apply existsb_exists. exists y. split; [exact H | apply Z.eqb_refl]. }
  congruence.
Qed.

Lemma year_total_flagged (col : string) (y : Z) (df : list Escalation.record) :
  year_total y (Escalation.flagged_df col df) = flag_count col y df.
Proof.
  unfold year_total, flag_count, Escalation.flagged_df.
  induction df as [|r df IH]; simpl; [reflexivity|].
  destruct (Escalation.flagged (Escalation.field col r)); simpl.
  - rewrite andb_true_r. destruct (Escalation.year_is y r); simpl; rewrite IH; reflexivity.
  - rewrite andb_false_r. exact IH.
Qed.

Lemma flag_count_le_total (col : string) (y : Z) (df : list Escalation.record) :
  (flag_count col y df <= year_total y df)%nat.
Proof.
  unfold flag_count, year_total.
  induction df as [|r df IH]; simpl; [lia|].
  destruct (Escalation.year_is y r); simpl; [|exact IH].
  destruct (Escalation.flagged _); simpl; lia.
Qed.

(** One pass of the loop, in terms of the counts. *)
Lemma add_flag_spec (col : string) (df : list Escalation.record) (row : Escalation.trend_row) :
  Escalation.add_flag col (Escalation.groupby_size (Escalation.flagged_df col df)) row =
  {| Escalation.trend_year := Escalation.trend_year row;
     Escalation.Total_Records := Escalation.Total_Records row;
     Escalation.added :=
       Escalation.added row ++
       [ ((col ++ "_Count")%string,
          Escalation.Q_of_nat (flag_count col (Escalation.trend_year row) df));
         ((col ++ "_Percent")%string,
          percent_of (flag_count col (Escalation.trend_year row) df)
                     (Escalation.Total_Records row)) ] |}.
Proof.
  unfold Escalation.add_flag, percent_of.
  rewrite lookup_groupby_size, year_total_flagged. reflexivity.
Qed.

(** The trend table, row by row: one row for each year that occurs, with
    the number of its records and, for each tracked column, the number and
    the percentage of its flagged records. *)
Lemma trends_rows (df : list Escalation.record) :
  Escalation.trends df =
  map (fun y =>
         {| Escalation.trend_year := y;
            Escalation.Total_Records := year_total y df;
            Escalation.added :=
              [ ("Subject_Armed_Count", Escalation.Q_of_nat (flag_count "Subject_Armed" y df));
                ("Subject_Armed_Percent",
                 percent_of (flag_count "Subject_Armed" y df) (year_total y df));
                ("Subject_Felon_Count", Escalation.Q_of_nat (flag_count "Subject_Felon" y df));
                ("Subject_Felon_Percent",
                 percent_of (flag_count "Subject_Felon" y df) (year_total y df));
                ("Subject_Probation_Count",
                 Escalation.Q_of_nat (flag_count "Subject_Probation" y df));
                ("Subject_Probation_Percent",
                 percent_of (flag_count "Subject_Probation" y df) (year_total y df)) ] |})
      (sorted_keys Z.compare (Escalation.years df)).
Proof.
  unfold Escalation.trends, Escalation.columns_to_track, Escalation.trends_step.
  cbn [fold_left]. unfold Escalation.groupby_size at 4.
  rewrite !map_map. apply map_ext. intro y.
  rewrite !add_flag_spec. reflexivity.
Qed.

Lemma In_trends (df : list Escalation.record) (row : Escalation.trend_row) :
  In row (Escalation.trends df) ->
  exists y, In y (Escalation.years df)
            /\ Escalation.trend_year row = y
            /\ Escalation.Total_Records row = year_total y df
            /\ Escalation.added row =
               [ ("Subject_Armed_Count", Escalation.Q_of_nat (flag_count "Subject_Armed" y df));
                 ("Subject_Armed_Percent",
                  percent_of (flag_count "Subject_Armed" y df) (year_total y df));
                 ("Subject_Felon_Count", Escalation.Q_of_nat (flag_count "Subject_Felon" y df));
                 ("Subject_Felon_Percent",
                  percent_of (flag_count "Subject_Felon" y df) (year_total y df));
                 ("Subject_Probation_Count",
                  Escalation.Q_of_nat (flag_count "Subject_Probation" y df));
                 ("Subject_Probation_Percent",
                  percent_of (flag_count "Subject_Probation" y df) (year_total y df)) ].
Proof.
  rewrite trends_rows, in_map_iff. intros [y [<- Hy]].
  exists y. apply (proj1 (In_sorted_years _ _)) in Hy. repeat split. exact Hy.
Qed.

(** C5.  Every row of the trend table belongs to a year that has at least
    one record, so no percentage divides by zero; the row has the three
    percentage columns, and each percentage lies between 0 and 100. *)
Theorem C5_trend_percentages_bounded
        (df : list Escalation.record) (row : Escalation.trend_row) :
  In row (Escalation.trends df) ->
  In (Escalation.trend_year row) (Escalation.years df)
  /\ (1 <= Escalation.Total_Records row)%nat
  /\ map fst (Escalation.percents row) =
     ["Subject_Armed_Percent"; "Subject_Felon_Percent"; "Subject_Probation_Percent"]
  /\ Forall (fun c => (0 <= snd c)%Q /\ (snd c <= 100)%Q) (Escalation.percents row).
Proof.
  intro H. apply In_trends in H. destruct H as [y [Hy [Hrow [Htot Hadd]]]].
  assert (Hpos := year_total_positive y df Hy).
  split; [rewrite Hrow; exact Hy|].
  split; [rewrite Htot; exact Hpos|].
  unfold Escalation.percents. rewrite Hadd. cbn.
  split; [reflexivity|].
  repeat constructor; cbn [snd];
    apply percent_of_bounds; try exact Hpos; apply flag_count_le_total.
Qed.

Lemma C5_trend_percentages_bounded_witness :
  In demo_trend_row (Escalation.trends demo_records)
  /\ Forall (fun c => (0 <= snd c)%Q /\ (snd c <= 100)%Q) (Escalation.percents demo_trend_row).
Proof.
  assert (H : In demo_trend_row (Escalation.trends demo_records)).
  { right. left. reflexivity. }
  split; [exact H|].
  exact (proj2 (proj2 (proj2 (C5_trend_percentages_bounded demo_records demo_trend_row H)))).
Defined.











(** ** The geographic aggregate of heatmap.py *)

Lemma In_map_data (df : list (cell * cell)) (row : Heatmap.geo_row) :
  In row (Heatmap.map_data df) ->
  let t := Heatmap.race_zip_counts df in
  In (Heatmap.address_zip row) (map fst (Heatmap.clean df))
  /\ Heatmap.Dominant_Race row =
     Heatmap.idxmax (Heatmap.percentage_row t (Heatmap.address_zip row))
  /\ Heatmap.Dominant_Percentage row =
     Heatmap.row_max (map snd (Heatmap.percentage_row t (Heatmap.address_zip row)))
  /\ Heatmap.Total_Records row = row_sum t (Heatmap.address_zip row).
Proof.
  unfold Heatmap.map_data. intro H. apply filter_In in H. destruct H as [H Hm].
  apply in_map_iff in H. destruct H as [zip [<- Hzip]]. simpl in *.
  apply mem_In in Hm. repeat split. exact Hm.
Qed.

(** The total of a ZIP code is the number of its records. *)
Lemma heatmap_total_records (df : list (cell * cell)) (zip : string) :
  row_sum (Heatmap.race_zip_counts df) zip =
  List.length (filter (fun p => String.eqb (fst p) zip) (Heatmap.clean df)).
Proof. apply row_sum_crosstab. Qed.

Lemma filter_fst_positive (rows : list (string * string)) (zip : string) :
  In zip (map fst rows) ->
  (1 <= List.length (filter (fun p => String.eqb (fst p) zip) rows))%nat.
Proof.
  intro H. apply in_map_iff in H. destruct H as [p [E Hp]].
  assert (In p (filter (fun p => String.eqb (fst p) zip) rows)) as Hin.
  { apply filter_In. split; [exact Hp | apply String.eqb_eq, E]. }
  destruct (filter _ rows); [contradiction | simpl; lia].
Qed.

Lemma max_records_upper (rows : list Heatmap.geo_row) (row : Heatmap.geo_row) :
  In row rows -> (Z.of_nat (Heatmap.Total_Records row) <= Heatmap.max_records rows)%Z.
Proof.
  induction rows as [|r rows IH]; [contradiction|].
  unfold Heatmap.max_records in *. cbn [fold_right].
  intros [->|H]; [lia|]. specialize (IH H). lia.
Qed.

Ltac split_leb :=
  repeat match goal with
         | |- context [(?a <=? ?b)%Z] => destruct (Z.leb_spec a b); try lia
         end.

(** The presets chosen for a maximum cover the counts from 1 to it, each by
    exactly one range, and the scan finds that range. *)
Lemma ranges_cover (m n : Z) :
  (1 <= n <= m)%Z ->
  List.length (filter (fun r => ((fst r <=? n) && (n <=? snd r))%Z) (Heatmap.ranges m)) = 1%nat
  /\ exists tier, Heatmap.find_range 0 (Heatmap.ranges m) n = Some tier
                  /\ (1 <= tier <= 5)%Z.
Proof.
  intro H. unfold Heatmap.ranges.
  destruct (Z.leb_spec m 10); [|destruct (Z.leb_spec m 50);
    [|destruct (Z.leb_spec m 100); [|destruct (Z.leb_spec m 500)]]];
    cbn [filter Heatmap.find_range fst snd];
    split_leb; cbn; (split; [reflexivity | eexists; split; [reflexivity | lia]]).
Qed.

(** [idxmax] and [max] along a row: the row splits at the label returned,
    strictly smaller values before it and none greater after it, and [max]
    returns the value at that label.  [pre] and [mid] are the part of the row
    already scanned, before and after the best label so far. *)
Lemma idxmax_from_spec (l : list (string * Q)) :
  forall (pre mid : list (string * Q)) (best : string) (bv : Q),
    Forall (fun p => (snd p < bv)%Q) pre ->
    Forall (fun p => (snd p <= bv)%Q) mid ->
    exists l1 l2 vr,
      pre ++ (best, bv) :: mid ++ l = l1 ++ (Heatmap.idxmax_from best bv l, vr) :: l2
      /\ Forall (fun p => (snd p < vr)%Q) l1
      /\ Forall (fun p => (snd p <= vr)%Q) l2
      /\ Heatmap.max_from bv (map snd l) = vr.
Proof.
  induction l as [|[c v] l IH]; intros pre mid best bv Hpre Hmid.
  - exists pre, mid, bv. rewrite app_nil_r. simpl. auto.
  - simpl. destruct (Qle_bool v bv) eqn:E.
    + apply Qle_bool_iff in E.
      destruct (IH pre (mid ++ [(c, v)]) best bv Hpre) as [l1 [l2 [vr H]]].
      { apply Forall_app. split; [exact Hmid | constructor; [exact E | constructor]]. }
      exists l1, l2, vr. rewrite <- app_assoc in H. exact H.
    + assert (bv < v)%Q as Hlt.
      { apply Qnot_le_lt. intro H. apply Qle_bool_iff in H. congruence. }
      destruct (IH (pre ++ (best, bv) :: mid) [] c v) as [l1 [l2 [vr H]]].
      * apply Forall_app. split; [|constructor].
        -- eapply Forall_impl; [|exact Hpre]. intros p Hp. simpl in Hp.
           eapply Qlt_trans; eassumption.
        -- exact Hlt.
        -- eapply Forall_impl; [|exact Hmid]. intros p Hp. simpl in Hp.
           eapply Qle_lt_trans; eassumption.
      * constructor.
      * exists l1, l2, vr. rewrite <- app_assoc in H. exact H.
Qed.

Lemma percent_of_le (a b t : nat) :
  (1 <= t)%nat -> (percent_of a t <= percent_of b t)%Q -> (a <= b)%nat.
Proof.
  intros Ht H. unfold percent_of, Qdiv, Escalation.Q_of_nat in H.
  assert (0 < inject_Z (Z.of_nat t))%Q as Hpos.
  { change 0%Q with (inject_Z 0). rewrite <- Zlt_Qlt. lia. }
  apply Qmult_le_r in H; [|reflexivity].
  apply Qmult_le_r in H; [|apply Qinv_lt_0_compat, Hpos].
  rewrite <- Zle_Qle in H. lia.
Qed.

Lemma race_zip_percentage_percent_of (t : table) (zip race : string) :
  Heatmap.race_zip_percentage t zip race = percent_of (count t zip race) (row_sum t zip).
Proof. reflexivity. Qed.

Lemma In_percentage_row (t : table) (zip c : string) (v : Q) :
  In (c, v) (Heatmap.percentage_row t zip) ->
  In c (columns t) /\ v = percent_of (count t zip c) (row_sum t zip).
Proof.
  unfold Heatmap.percentage_row. rewrite in_map_iff.
  intros [c' [E Hc]]. injection E as <- <-. split; [exact Hc | reflexivity].
Qed.

Lemma sorted_app_after (l1 l2 : list string) (r c : string) :
  StronglySorted label_before (l1 ++ r :: l2) -> In c l2 -> label_before r c.
Proof.
  induction l1 as [|a l1 IH]; simpl; intros H Hc.
  - inversion H as [|? ? _ Hall]; subst. rewrite Forall_forall in Hall. apply Hall, Hc.
  - inversion H; subst. apply IH; assumption.
Qed.

(** The dominant label of a row with at least one record. *)
Lemma dominant_spec (t : table) (zip : string) :
  StronglySorted label_before (columns t) ->
  (1 <= row_sum t zip)%nat ->
  exists race,
    Heatmap.idxmax (Heatmap.percentage_row t zip) = Some race
    /\ In race (columns t)
    /\ (forall c, In c (columns t) -> (count t zip c <= count t zip race)%nat)
    /\ Heatmap.row_max (map snd (Heatmap.percentage_row t zip)) =
       Some (percent_of (count t zip race) (row_sum t zip))
    /\ (forall c, In c (columns t) -> count t zip c = count t zip race ->
                  c = race \/ label_before race c).
Proof.
  intros Hsorted Hpos.
  destruct (columns t) as [|c0 cs] eqn:Ecols.
  { exfalso. unfold row_sum in Hpos. rewrite Ecols in Hpos. simpl in Hpos. lia. }
  pose (L := Heatmap.percentage_row t zip).
  assert (HL : L = (c0, Heatmap.race_zip_percentage t zip c0)
                   :: map (fun race => (race, Heatmap.race_zip_percentage t zip race)) cs).
  { unfold L, Heatmap.percentage_row. rewrite Ecols. reflexivity. }
  assert (Hfst : map fst L = columns t).
  { unfold L, Heatmap.percentage_row. rewrite map_map. simpl. apply map_id. }
  destruct (idxmax_from_spec
              (map (fun race => (race, Heatmap.race_zip_percentage t zip race)) cs)
              [] [] c0 (Heatmap.race_zip_percentage t zip c0))
    as [l1 [l2 [vr [Hsplit [H1 [H2 Hmax]]]]]]; try constructor.
  simpl in Hsplit. rewrite <- HL in Hsplit.
  set (race := Heatmap.idxmax_from c0 _ _) in *.
  assert (Hin : In (race, vr) L) by (rewrite Hsplit; apply in_elt).
  destruct (In_percentage_row t zip race vr Hin) as [Hrace Hvr].
  assert (Hcols : columns t = map fst l1 ++ race :: map fst l2).
  { rewrite <- Hfst, Hsplit, map_app. reflexivity. }
  exists race. rewrite <- Ecols in Hsorted |- *.
  split; [change (Heatmap.percentage_row t zip) with L; rewrite HL; reflexivity|].
  split; [exact Hrace|]. split; [|split].
  - intros c Hc.
    assert (In (c, percent_of (count t zip c) (row_sum t zip)) L) as HcL.
    { unfold L, Heatmap.percentage_row. apply in_map_iff. exists c. split; [reflexivity | exact Hc]. }
    apply (percent_of_le _ _ (row_sum t zip) Hpos). rewrite <- Hvr.
    rewrite Hsplit in HcL. apply in_app_or in HcL. destruct HcL as [HcL|[HcL|HcL]].
    + rewrite Forall_forall in H1. apply Qlt_le_weak. exact (H1 _ HcL).
    + injection HcL as _ <-. apply Qle_refl.
    + rewrite Forall_forall in H2. exact (H2 _ HcL).
  - change (Heatmap.percentage_row t zip) with L. rewrite HL.
    cbn [map snd Heatmap.row_max]. cbn [snd] in Hmax.
    rewrite Hmax, Hvr. reflexivity.
  - intros c Hc Htie. rewrite Hcols in Hc. apply in_app_or in Hc.
    destruct Hc as [Hc|[Hc|Hc]].
    + exfalso. apply in_map_iff in Hc. destruct Hc as [[c' v] [Ec Hc]]. simpl in Ec. subst c'.
      assert (In (c, v) L) as HcL by (rewrite Hsplit; apply in_or_app; left; exact Hc).
      apply In_percentage_row in HcL. destruct HcL as [_ Hv].
      rewrite Forall_forall in H1. specialize (H1 _ Hc). simpl in H1.
      rewrite Hv, Hvr, Htie in H1. exact (Qlt_irrefl _ H1).
    + left. symmetry. exact Hc.
    + right. rewrite Hcols in Hsorted. exact (sorted_app_after _ _ _ _ Hsorted Hc).
Qed.

Lemma mem_Permutation (x : string) (l l' : list string) :
  Permutation l l' -> mem x l = mem x l'.
Proof.
  intro P. destruct (mem x l') eqn:E.
  - apply mem_In. apply mem_In in E. eapply Permutation_in; [apply Permutation_sym|]; eassumption.
  - destruct (mem x l) eqn:E'; [|reflexivity].
    apply mem_In in E'. apply (Permutation_in _ P), mem_In in E'. congruence.
Qed.

Lemma filter_Permutation {A : Type} (f : A -> bool) (l l' : list A) :
  Permutation l l' -> Permutation (filter f l) (filter f l').
Proof.
  induction 1; simpl.
  - constructor.
  - destruct (f x); [constructor|]; assumption.
  - destruct (f x), (f y); try constructor; apply Permutation_refl.
  - eapply Permutation_trans; eassumption.
Qed.

Lemma heatmap_clean_Permutation (df df' : list (cell * cell)) :
  Permutation df df' -> Permutation (Heatmap.clean df) (Heatmap.clean df').
Proof.
  intro P. unfold Heatmap.clean.
  apply Permutation_map, filter_Permutation, Permutation_map, P.
Qed.

(** The aggregate does not depend on the order of the records. *)
Lemma map_data_Permutation (df df' : list (cell * cell)) :
  Permutation df df' -> Heatmap.map_data df = Heatmap.map_data df'.
Proof.
  intro P. apply heatmap_clean_Permutation in P.
  unfold Heatmap.map_data, Heatmap.race_zip_counts.
  set (rows := Heatmap.clean df) in *. set (rows' := Heatmap.clean df') in *.
  assert (Hi : index (crosstab rows) = index (crosstab rows')).
  { apply sorted_labels_Permutation, Permutation_map, P. }
  assert (Hc : columns (crosstab rows) = columns (crosstab rows')).
  { apply sorted_labels_Permutation, Permutation_map, P. }
  assert (Hn : forall r c, count (crosstab rows) r c = count (crosstab rows') r c).
  { intros r c. apply count_pairs_Permutation, P. }
  assert (Hs : forall r, row_sum (crosstab rows) r = row_sum (crosstab rows') r).
  { intro r. unfold row_sum. rewrite Hc. f_equal. apply map_ext. intro c. apply Hn. }
  assert (Hp : forall zip, Heatmap.percentage_row (crosstab rows) zip
                           = Heatmap.percentage_row (crosstab rows') zip).
  { intro zip. unfold Heatmap.percentage_row, Heatmap.race_zip_percentage.
    rewrite Hc. apply map_ext. intro c. rewrite Hn, Hs. reflexivity. }
  rewrite Hi.
  transitivity
    (filter (fun row => mem (Heatmap.address_zip row) (map fst rows'))
            (map (fun zip =>
                    {| Heatmap.address_zip := zip;
                       Heatmap.Dominant_Race :=
                         Heatmap.idxmax (Heatmap.percentage_row (crosstab rows) zip);
                       Heatmap.Dominant_Percentage :=
                         Heatmap.row_max (map snd (Heatmap.percentage_row (crosstab rows) zip));
                       Heatmap.Total_Records := row_sum (crosstab rows) zip |})
                 (index (crosstab rows')))).
  - apply filter_ext. intro row. apply mem_Permutation, Permutation_map, P.
  - f_equal. apply map_ext. intro zip. rewrite Hp, Hs. reflexivity.
Qed.

(** C7.  For every row of the geographic aggregate: the dominant race is a
    column of the table whose count in the ZIP code is the greatest; the
    dominant percentage is the share of that count in the records of the ZIP
    code; among the races that tie for the greatest count the dominant one is
    the first in the sorted column order; and the aggregate is the same for
    every order of the input records. *)
Theorem C7_dominant_category :
  (forall (df : list (cell * cell)) (row : Heatmap.geo_row),
      In row (Heatmap.map_data df) ->
      let t := Heatmap.race_zip_counts df in
      let zip := Heatmap.address_zip row in
      exists race,
        Heatmap.Dominant_Race row = Some race
        /\ In race (columns t)
        /\ (forall c, In c (columns t) -> (count t zip c <= count t zip race)%nat)
        /\ Heatmap.Total_Records row =
           List.length (filter (fun p => String.eqb (fst p) zip) (Heatmap.clean df))
        /\ (1 <= Heatmap.Total_Records row)%nat
        /\ Heatmap.Dominant_Percentage row =
           Some (percent_of (count t zip race) (Heatmap.Total_Records row))
        /\ (forall c, In c (columns t) -> count t zip c = count t zip race ->
                      c = race \/ label_before race c))
  /\ (forall df df' : list (cell * cell),
         Permutation df df' -> Heatmap.map_data df = Heatmap.map_data df').
Proof.
  split; [|exact map_data_Permutation].
  intros df row H t zip. apply In_map_data in H.
  destruct H as [Hzip [Hdom [Hpct Htot]]]. fold t zip in Hzip, Hdom, Hpct, Htot.
  assert (Hlen := heatmap_total_records df zip). fold t in Hlen.
  assert (Hpos : (1 <= row_sum t zip)%nat).
  { rewrite Hlen. apply filter_fst_positive, Hzip. }
  destruct (dominant_spec t zip) as [race [H1 [H2 [H3 [H4 H5]]]]].
  { apply sorted_labels_sorted. }
  { exact Hpos. }
  exists race. rewrite Hdom, Hpct, Htot.
  repeat split; assumption.
Qed.

Lemma demo_geo_row_In : In demo_geo_row (Heatmap.map_data demo_geo).
Proof. left. reflexivity. Qed.

Lemma C7_dominant_category_witness :
  exists race,
    Heatmap.Dominant_Race demo_geo_row = Some race
    /\ forall c, In c (columns (Heatmap.race_zip_counts demo_geo)) ->
                 (count (Heatmap.race_zip_counts demo_geo) "60601" c
                  <= count (Heatmap.race_zip_counts demo_geo) "60601" race)%nat.
Proof.
  destruct (proj1 C7_dominant_category demo_geo demo_geo_row demo_geo_row_In)
    as [race [H1 [_ [H3 _]]]].
  exists race. split; [exact H1 | exact H3].
Defined.

(** C10.  For every row of the geographic aggregate, the total of the ZIP
    code lies between 1 and the greatest total; every count from 1 to the
    greatest total lies in exactly one of the five ranges chosen for it; so
    the scan of [get_logical_color] finds a range for the row, the tier is
    between 1 and 5, and it is the tier that the row gets. *)
Theorem C10_legend_tier_from_table (df : list (cell * cell)) (row : Heatmap.geo_row) :
  In row (Heatmap.map_data df) ->
  let m := Heatmap.max_records (Heatmap.map_data df) in
  let n := Z.of_nat (Heatmap.Total_Records row) in
  (1 <= n <= m)%Z
  /\ List.length (Heatmap.ranges m) = 5%nat
  /\ (forall k : Z, (1 <= k <= m)%Z ->
        List.length (filter (fun r => ((fst r <=? k) && (k <=? snd r))%Z) (Heatmap.ranges m))
        = 1%nat)
  /\ exists tier : Z,
       Heatmap.find_range 0 (Heatmap.ranges m) n = Some tier
       /\ (1 <= tier <= 5)%Z
       /\ Heatmap.get_logical_color (Heatmap.ranges m) n = tier
       /\ In (Heatmap.address_zip row, tier) (Heatmap.color_scale df).
Proof.
  intros H m n.
  assert (Hn : (1 <= n <= m)%Z).
  { split.
    - destruct (In_map_data df row H) as [Hzip [_ [_ Htot]]].
      unfold n. rewrite Htot, heatmap_total_records.
      apply (filter_fst_positive _ _) in Hzip. lia.
    - apply max_records_upper, H. }
  split; [exact Hn|]. split; [|split].
  - unfold Heatmap.ranges. repeat destruct (_ <=? _)%Z; reflexivity.
  - intros k Hk. apply ranges_cover, Hk.
  - destruct (ranges_cover m n Hn) as [_ [tier [Hf Ht]]].
    exists tier. split; [exact Hf|]. split; [exact Ht|].
    assert (Hg : Heatmap.get_logical_color (Heatmap.ranges m) n = tier).
    { unfold Heatmap.get_logical_color. rewrite Hf. reflexivity. }
    split; [exact Hg|].
    unfold Heatmap.color_scale. apply in_map_iff. exists row.
    split; [|exact H]. fold m n. rewrite Hg. reflexivity.
Qed.

Lemma C10_legend_tier_from_table_witness :
  exists tier : Z,
    Heatmap.find_range 0 (Heatmap.ranges (Heatmap.max_records (Heatmap.map_data demo_geo)))
                       (Z.of_nat (Heatmap.Total_Records demo_geo_row)) = Some tier
    /\ (1 <= tier <= 5)%Z.
Proof.
  destruct (C10_legend_tier_from_table demo_geo demo_geo_row demo_geo_row_In)
    as [_ [_ [_ [tier [H1 [H2 _]]]]]].
  exists tier. split; [exact H1 | exact H2].
Defined.

(** ** The loader *)



Section LoaderFacts.
Context `{G : NumpyRandom}.
Variable ambient : rng_state.
Variable timestamp_text : Z -> string.
Variable df : dataframe.





End LoaderFacts.




(** The four scripts that seed the generator build their fallback data from
    the seed alone, as far as they build it. *)
Lemma seeded_fallbacks_reproducible `{G : NumpyRandom}
      (timestamp_text : Z -> string) (ambient ambient' : rng_state) :
  colors_fallback ambient = colors_fallback ambient'
  /\ race_fallback ambient = race_fallback ambient'
  /\ escalation_fallback timestamp_text ambient = escalation_fallback timestamp_text ambient'
  /\ heatmap_fallback ambient = heatmap_fallback ambient'.
Proof. repeat split. Qed.

(** C8 at gang_colors.py, which draws its fallback data without seeding the
    generator: with a concrete generator, two runs that start from different
    generator states draw different data and render different tables. *)
Theorem C8_gang_colors_fallback_unseeded :
  gang_colors_fallback (G := Lcg.generator) 1%Z <> gang_colors_fallback (G := Lcg.generator) 2%Z
  /\ gang_colors_fallback_cells (G := Lcg.generator) 1%Z
     <> gang_colors_fallback_cells (G := Lcg.generator) 2%Z.
Proof.
  split.
  - intro H.
    assert (E1 : hd NaN (series GangColors.column_colors
                                (gang_colors_fallback (G := Lcg.generator) 1%Z)) = Str "NULL")
      by (vm_compute; reflexivity).
    assert (E2 : hd NaN (series GangColors.column_colors
                                (gang_colors_fallback (G := Lcg.generator) 2%Z)) = Str "Y")
      by (vm_compute; reflexivity).
    rewrite H, E2 in E1. clear H. discriminate E1.
  - intro H.
    assert (E1 : map (map Z.of_nat) (gang_colors_fallback_cells (G := Lcg.generator) 1%Z)
                 = [[2106; 898]; [1436; 560]]%Z) by (vm_compute; reflexivity).
    assert (E2 : map (map Z.of_nat) (gang_colors_fallback_cells (G := Lcg.generator) 2%Z)
                 = [[2063; 933]; [1432; 572]]%Z) by (vm_compute; reflexivity).
    rewrite H, E2 in E1. clear H. discriminate E1.
Qed.

(** * Further properties of the code *)

(** ** The three contingency tables *)

Lemma table_eq_cells (t t' : table) : table_eq t t' -> cells t = cells t'.
Proof.
  intros [Hi [Hc Hn]]. unfold cells. rewrite Hi, Hc.
  apply map_ext. intro r. apply map_ext. intro c. apply Hn.
Qed.

Lemma crosstab_Permutation (rows rows' : list (string * string)) :
  Permutation rows rows' -> table_eq (crosstab rows) (crosstab rows').
Proof.
  intro P. split; [|split]; simpl.
  - apply sorted_labels_Permutation, Permutation_map, P.
  - apply sorted_labels_Permutation, Permutation_map, P.
  - intros r c. apply count_pairs_Permutation, P.
Qed.

Lemma gang_colors_rows_combine (df : list (cell * cell)) :
  combine (GangColors.standardize_column (map fst df))
          (GangColors.standardize_column (map snd df)) = gang_colors_rows df.
Proof.
  unfold GangColors.standardize_column, gang_colors_rows.
  induction df as [|r df IH]; simpl; [reflexivity | rewrite IH; reflexivity].
Qed.

Lemma keyed_Permutation (df df' : list (cell * cell)) :
  Permutation df df' -> Permutation (keyed df) (keyed df').
Proof. intro P. unfold keyed. apply Permutation_flat_map, P. Qed.

Lemma colors_prepare_Permutation (df df' : list (cell * cell)) :
  Permutation df df' -> Permutation (Colors.prepare df) (Colors.prepare df').
Proof.
  intro P. unfold Colors.prepare, Colors.keep_YN, Colors.clean.
  apply filter_Permutation, Permutation_map, P.
Qed.

(** The order of the records does not matter to any of the three tables:
    the same row labels, the same column labels and the same counts. *)
Theorem contingency_tables_Permutation (df df' : list (cell * cell)) :
  Permutation df df' ->
  table_eq (gang_colors_contingency_table df) (gang_colors_contingency_table df')
  /\ table_eq (colors_frequency_table df) (colors_frequency_table df')
  /\ table_eq (race_frequency_table df) (race_frequency_table df').
Proof.
  intro P. split; [|split].
  - unfold gang_colors_contingency_table. rewrite !gang_colors_rows_combine.
    apply crosstab_Permutation. unfold gang_colors_rows. apply Permutation_map, P.
  - assert (H : table_eq (crosstab_obj (Colors.prepare df)) (crosstab_obj (Colors.prepare df'))).
    { apply crosstab_Permutation, keyed_Permutation, colors_prepare_Permutation, P. }
    unfold colors_frequency_table.
    set (t := crosstab_obj (Colors.prepare df)) in *.
    set (t' := crosstab_obj (Colors.prepare df')) in *.
    destruct H as [Hi [Hc Hn]].
    cbn [columns reindex_index]. rewrite <- Hc.
    destruct (mem "N" (columns t) && mem "Y" (columns t)); (split; [|split]);
      cbn [index columns count select_columns reindex_index];
      try reflexivity; try exact Hc;
      intros r c; rewrite Hi, Hn; reflexivity.
  - assert (H : table_eq (crosstab (Race.clean df)) (crosstab (Race.clean df'))).
    { apply crosstab_Permutation. unfold Race.clean. apply Permutation_map, P. }
    unfold race_frequency_table.
    set (t := crosstab (Race.clean df)) in *. set (t' := crosstab (Race.clean df')) in *.
    destruct H as [Hi [Hc Hn]]. rewrite <- Hc.
    assert (H1 : table_eq
                   (if negb (mem "N" (columns t)) then add_zero_column "N" t else t)
                   (if negb (mem "N" (columns t)) then add_zero_column "N" t' else t')).
    { destruct (negb _); (split; [|split]);
        cbn [index columns count add_zero_column]; try assumption.
      - rewrite Hc. reflexivity.
      - intros r c. rewrite Hn. reflexivity. }
    set (u := if negb (mem "N" (columns t)) then add_zero_column "N" t else t) in *.
    set (u' := if negb (mem "N" (columns t)) then add_zero_column "N" t' else t') in *.
    destruct H1 as [Hi1 [Hc1 Hn1]]. rewrite <- Hc1.
    destruct (negb (mem "Y" (columns u))); (split; [|split]);
      cbn [index columns count add_zero_column select_columns];
      try assumption; try reflexivity.
    intros r c. rewrite Hn1. reflexivity.
Qed.

Lemma contingency_tables_Permutation_witness :
  cells (race_frequency_table [(Str "White", Str "Y"); (Str "Black", NaN)])
  = cells (race_frequency_table [(Str "Black", NaN); (Str "White", Str "Y")]).
Proof.
  apply table_eq_cells.
  apply (contingency_tables_Permutation
           [(Str "White", Str "Y"); (Str "Black", NaN)]
           [(Str "Black", NaN); (Str "White", Str "Y")]).
  apply perm_swap.
Defined.

(** Count conservation.  The table of gang_colors.py holds every record
    once: its cells add up to the number of records. *)
Theorem gang_colors_count_conservation (df : list (cell * cell)) :
  table_sum (gang_colors_contingency_table df) = List.length df.
Proof. exact (gang_colors_table_sum df). Qed.

(** The table of colors.py holds once every record that passes its filter,
    with or without both columns: its cells add up to the number of records
    whose two cleaned values are ["Y"] or ["N"]. *)
Theorem colors_count_conservation (df : list (cell * cell)) :
  table_sum (colors_frequency_table df) = List.length (Colors.prepare df)
  /\ (List.length (Colors.prepare df) <= List.length df)%nat.
Proof.
  split; [exact (colors_table_sum df)|].
  unfold Colors.prepare, Colors.keep_YN.
  eapply Nat.le_trans; [apply filter_length_le|].
  unfold Colors.clean. rewrite length_map. apply Nat.le_refl.
Qed.

(** The cells of the table of race.py add up to the number of records whose
    cleaned admission label is ["N"] or ["Y"]; the records with any other
    label are in no cell. *)
Theorem race_table_count (df : list (cell * cell)) :
  table_sum (race_frequency_table df)
  = List.length (filter (fun p => mem (snd p) ["N"; "Y"]) (Race.clean df))
  /\ (table_sum (race_frequency_table df) <= List.length df)%nat.
Proof.
  split; [exact (race_table_sum df)|].
  rewrite race_table_sum.
  eapply Nat.le_trans; [apply filter_length_le|].
  unfold Race.clean. rewrite length_map. apply Nat.le_refl.
Qed.

Lemma label_sorted_unique (l1 l2 : list string) :
  StronglySorted label_before l1 -> StronglySorted label_before l2 ->
  (forall x, In x l1 <-> In x l2) -> l1 = l2.
Proof.
  apply (sorted_unique String.compare string_compare_refl string_compare_trans).
Qed.

(** A sorted list of labels among ["N"] and ["Y"]. *)
Lemma sorted_within_NY (l : list string) :
  StronglySorted label_before l ->
  (forall x, In x l -> In x ["N"; "Y"]) ->
  l = [] \/ l = ["N"] \/ l = ["Y"] \/ l = ["N"; "Y"].
Proof.
  intros Hs Hin.
  assert (HN : mem "N" l = true <-> In "N" l) by apply mem_In.
  assert (HY : mem "Y" l = true <-> In "Y" l) by apply mem_In.
  assert (Hcases : forall x, In x l -> (x = "N" /\ mem "N" l = true)
                                       \/ (x = "Y" /\ mem "Y" l = true)).
  { intros x Hx. destruct (Hin x Hx) as [<-|[<-|[]]]; [left|right]; split; try reflexivity.
    - apply HN, Hx.
    - apply HY, Hx. }
  destruct (mem "N" l) eqn:EN, (mem "Y" l) eqn:EY.
  - right. right. right. apply label_sorted_unique; [exact Hs | |].
    + repeat constructor.
    + intro x. split.
      * intro Hx. destruct (Hcases x Hx) as [[-> _]|[-> _]]; simpl; auto.
      * intros [<-|[<-|[]]]; [apply HN | apply HY]; reflexivity.
  - right. left. apply label_sorted_unique; [exact Hs | |].
    + repeat constructor.
    + intro x. split.
      * intro Hx. destruct (Hcases x Hx) as [[-> _]|[_ H]]; [left; reflexivity | discriminate].
      * intros [<-|[]]. apply HN. reflexivity.
  - right. right. left. apply label_sorted_unique; [exact Hs | |].
    + repeat constructor.
    + intro x. split.
      * intro Hx. destruct (Hcases x Hx) as [[_ H]|[-> _]]; [discriminate | left; reflexivity].
      * intros [<-|[]]. apply HY. reflexivity.
  - left. destruct l as [|x l]; [reflexivity|].
    destruct (Hcases x (or_introl eq_refl)) as [[_ H]|[_ H]]; discriminate.
Qed.

Lemma In_gang_colors_rows (df : list (cell * cell)) (p : string * string) :
  In p (gang_colors_rows df) -> In (fst p) ["N"; "Y"] /\ In (snd p) ["N"; "Y"].
Proof.
  unfold gang_colors_rows. rewrite in_map_iff. intros [r [<- _]]. simpl.
  destruct (standardize_value_YN (fst r)) as [-> | ->],
           (standardize_value_YN (snd r)) as [-> | ->]; auto.
Qed.

(** The table of gang_colors.py has a row for each label that occurs among
    the standardized colour values and a column for each label that occurs
    among the standardized admission values, and no other: at most the rows
    ["N"], ["Y"] and the columns ["N"], ["Y"], in that order. *)
Theorem gang_colors_table_labels (df : list (cell * cell)) :
  let t := gang_colors_contingency_table df in
  (index t = [] \/ index t = ["N"] \/ index t = ["Y"] \/ index t = ["N"; "Y"])
  /\ (columns t = [] \/ columns t = ["N"] \/ columns t = ["Y"] \/ columns t = ["N"; "Y"])
  /\ (forall l, In l (index t) <->
                exists r, In r df /\ GangColors.standardize_value (fst r) = l)
  /\ (forall l, In l (columns t) <->
                exists r, In r df /\ GangColors.standardize_value (snd r) = l).
Proof.
  unfold gang_colors_contingency_table. rewrite gang_colors_rows_combine.
  cbn [index columns crosstab].
  split; [|split; [|split]].
  - apply sorted_within_NY; [apply sorted_labels_sorted|].
    intros x Hx. apply In_sorted_labels, in_map_iff in Hx.
    destruct Hx as [p [<- Hp]]. apply (In_gang_colors_rows df p Hp).
  - apply sorted_within_NY; [apply sorted_labels_sorted|].
    intros x Hx. apply In_sorted_labels, in_map_iff in Hx.
    destruct Hx as [p [<- Hp]]. apply (In_gang_colors_rows df p Hp).
  - intro l. rewrite In_sorted_labels. unfold gang_colors_rows.
    rewrite map_map, in_map_iff. simpl. split; intros [r H]; exists r; tauto.
  - intro l. rewrite In_sorted_labels. unfold gang_colors_rows.
    rewrite map_map, in_map_iff. simpl. split; intros [r H]; exists r; tauto.
Qed.

Lemma In_keyed (df : list (cell * cell)) (a b : string) :
  In (a, b) (keyed df) <->
  exists r, In r df /\ key (fst r) = Some a /\ key (snd r) = Some b.
Proof.
  unfold keyed. rewrite in_flat_map. split.
  - intros [r [Hr H]]. exists r. split; [exact Hr|].
    destruct (key (fst r)) as [a'|], (key (snd r)) as [b'|]; simpl in H; try contradiction.
    destruct H as [H|[]]. injection H as -> ->. split; reflexivity.
  - intros [r [Hr [Ha Hb]]]. exists r. split; [exact Hr|].
    rewrite Ha, Hb. left. reflexivity.
Qed.

Lemma colors_column_occurs (df : list (cell * cell)) (c : string) :
  In c ["N"; "Y"] ->
  (In c (columns (crosstab_obj (Colors.prepare df))) <->
   exists r, In r (Colors.prepare df) /\ snd r = Str c).
Proof.
  intro Hc. unfold crosstab_obj. cbn [columns crosstab].
  rewrite In_sorted_labels, in_map_iff. split.
  - intros [[a b] [E Hp]]. simpl in E. subst b.
    apply In_keyed in Hp. destruct Hp as [r [Hr [_ Hb]]].
    exists r. split; [exact Hr|].
    apply colors_prepare_In in Hr. destruct Hr as [_ [_ [H|H]]];
      rewrite H in Hb |- *; simpl in Hb; congruence.
  - intros [r [Hr Hs]]. pose proof Hr as Hyn.
    apply colors_prepare_In in Hyn. destruct Hyn as [_ [Ha _]].
    assert (exists a, fst r = Str a) as [a Ea] by (destruct Ha as [H|H]; eauto).
    exists (a, c). split; [reflexivity|].
    apply In_keyed. exists r. rewrite Ea, Hs. auto.
Qed.

(** The table of colors.py always has the two rows ["N"], ["Y"]; its cells
    count the kept records by their two labels; its columns are the labels
    that occur among the kept admission values, so that it has both columns
    exactly when both labels occur. *)
Theorem colors_table_labels (df : list (cell * cell)) :
  let t := colors_frequency_table df in
  index t = ["N"; "Y"]
  /\ (columns t = [] \/ columns t = ["N"] \/ columns t = ["Y"] \/ columns t = ["N"; "Y"])
  /\ (columns t = ["N"; "Y"] <->
      (exists r, In r (Colors.prepare df) /\ snd r = Str "N")
      /\ (exists r, In r (Colors.prepare df) /\ snd r = Str "Y"))
  /\ (forall r c, count t r c = count_pairs (keyed (Colors.prepare df)) r c).
Proof.
  unfold colors_frequency_table.
  set (t0 := crosstab_obj (Colors.prepare df)).
  cbn [columns reindex_index].
  assert (Hshape : columns t0 = [] \/ columns t0 = ["N"] \/ columns t0 = ["Y"]
                   \/ columns t0 = ["N"; "Y"]).
  { apply sorted_within_NY; [apply sorted_labels_sorted|].
    intros x Hx. apply In_sorted_labels, in_map_iff in Hx.
    destruct Hx as [p [<- Hp]].
    apply (proj2 (proj2 (keyed_prepare df) p Hp)). }
  assert (HN := colors_column_occurs df "N" (or_introl eq_refl)).
  assert (HY := colors_column_occurs df "Y" (or_intror (or_introl eq_refl))).
  fold t0 in HN, HY.
  assert (Hcount : forall r c,
             (if mem r (index t0) then count t0 r c else 0%nat)
             = count_pairs (keyed (Colors.prepare df)) r c).
  { intros r c. destruct (mem r (index t0)) eqn:E; [reflexivity|].
    symmetry. apply count_pairs_zero. left. intro Hr.
    apply In_sorted_labels, mem_In in Hr. unfold t0, crosstab_obj in E. simpl in E. congruence. }
  destruct (mem "N" (columns t0) && mem "Y" (columns t0)) eqn:E;
    cbn [index columns count select_columns reindex_index].
  - apply andb_true_iff in E. destruct E as [EN EY].
    apply mem_In in EN. apply mem_In in EY.
    split; [reflexivity|]. split; [auto|]. split; [|exact Hcount].
    split; [intros _; split; [apply HN, EN | apply HY, EY] | reflexivity].
  - split; [reflexivity|]. split; [exact Hshape|]. split; [|exact Hcount].
    split.
    + intro Hc. rewrite Hc in E. discriminate.
    + intros [H1 H2]. apply HN, mem_In in H1. apply HY, mem_In in H2.
      rewrite H1, H2 in E. discriminate.
Qed.

(** The table of race.py always has the two columns ["N"], ["Y"]; its rows are
    the cleaned race labels that occur, sorted and without duplicates; its
    cells count the records by cleaned race and cleaned admission label. *)
Theorem race_table_labels (df : list (cell * cell)) :
  let t := race_frequency_table df in
  columns t = ["N"; "Y"]
  /\ StronglySorted label_before (index t)
  /\ (forall l, In l (index t) <-> exists r, In r df /\ Race.clean_race (fst r) = l)
  /\ (forall r c, In c ["N"; "Y"] -> count t r c = count_pairs (Race.clean df) r c).
Proof.
  unfold race_frequency_table.
  set (rows := Race.clean df).
  set (t1 := if negb (mem "N" (columns (crosstab rows)))
             then add_zero_column "N" (crosstab rows) else crosstab rows).
  set (t2 := if negb (mem "Y" (columns t1)) then add_zero_column "Y" t1 else t1).
  cbn [index columns count select_columns].
  assert (Hidx : index t2 = sorted_labels (map fst rows)).
  { unfold t2, t1. destruct (negb _); destruct (negb _); reflexivity. }
  split; [reflexivity|]. rewrite Hidx. split; [apply sorted_labels_sorted|]. split.
  - intro l. rewrite In_sorted_labels. unfold rows, Race.clean.
    rewrite map_map, in_map_iff. simpl. split; intros [r H]; exists r; tauto.
  - intros r c Hc.
    assert (H1 : count t1 r c = count_pairs rows r c).
    { unfold t1. destruct (mem "N" (columns (crosstab rows))) eqn:E; simpl; [reflexivity|].
      destruct (String.eqb_spec c "N") as [->|_]; [|reflexivity].
      symmetry. apply count_pairs_zero. right. intro H.
      apply In_sorted_labels, mem_In in H. simpl in E. congruence. }
    unfold t2. destruct (mem "Y" (columns t1)) eqn:E; simpl; [exact H1|].
    destruct (String.eqb_spec c "Y") as [->|_]; [|exact H1].
    symmetry. apply count_pairs_zero. right. intro H.
    assert (In "Y" (columns t1)) as HY.
    { unfold t1. destruct (negb _); simpl; [apply in_or_app; left|];
        apply In_sorted_labels, H. }
    apply mem_In in HY. congruence.
Qed.

Lemma race_table_labels_witness :
  count (race_frequency_table [(Str "White", Str "Y"); (Str "White", Str "maybe")]) "White" "Y"
  = count_pairs (Race.clean [(Str "White", Str "Y"); (Str "White", Str "maybe")]) "White" "Y".
Proof.
  apply (proj2 (proj2 (proj2 (race_table_labels
           [(Str "White", Str "Y"); (Str "White", Str "maybe")])))).
  right. left. reflexivity.
Defined.

(** ** The normalizers *)

(** [standardize_column] is idempotent: a standardized column is left as it
    is by a second pass. *)
Theorem standardize_idempotent (series : list cell) :
  GangColors.standardize_column (map Str (GangColors.standardize_column series))
  = GangColors.standardize_column series.
Proof.
  unfold GangColors.standardize_column. rewrite !map_map. apply map_ext.
  intro v. destruct (standardize_value_YN v) as [H|H]; rewrite H; reflexivity.
Qed.

(** The cleaning of colors.py leaves no missing value and is idempotent, and
    it changes no string other than ["NULL"]. *)
Theorem colors_clean_value_stable (v : cell) :
  notna (Colors.clean_value v) = true
  /\ Colors.clean_value (Colors.clean_value v) = Colors.clean_value v
  /\ (forall s, v = Str s -> s <> "NULL" -> Colors.clean_value v = v).
Proof.
  destruct v as [| |s|y t]; simpl; repeat split; try discriminate.
  - unfold Colors.clean_value. simpl. destruct (String.eqb s "NULL"); reflexivity.
  - unfold Colors.clean_value. simpl.
    destruct (String.eqb_spec s "NULL") as [->|N]; simpl; [reflexivity|].
    apply String.eqb_neq in N. rewrite N. reflexivity.
  - intros s' E N. injection E as <-. unfold Colors.clean_value. simpl.
    apply String.eqb_neq in N. rewrite N. reflexivity.
Qed.

Lemma colors_clean_value_stable_witness :
  Colors.clean_value (Str "maybe") = Str "maybe".
Proof.
  apply (proj2 (proj2 (colors_clean_value_stable (Str "maybe"))) "maybe").
  - reflexivity.
  - discriminate.
Defined.

Lemma replace_ci_no_occurrence (pat repl s : string) :
  occurs_ci pat s = false -> PyStr.replace_ci pat repl s = s.
Proof.
  unfold PyStr.replace_ci. induction s as [|c s IH]; intro H; [reflexivity|].
  cbn [PyStr.replace_ci_from]. cbn [occurs_ci] in H.
  destruct (PyStr.match_ci pat (String c s)); [discriminate|].
  rewrite (IH H). reflexivity.
Qed.

(** The cleaning of race.py and heatmap.py passes a value through, trimmed
    of its white space (that of ASCII and that of Unicode, such as a no-break
    space), when it does not contain ["NULL"] in any letter case and is not
    ["nan"]. *)
Theorem race_clean_passthrough (label : string) (v : cell) :
  occurs_ci "NULL" (PyStr.strip (astype_str v)) = false ->
  PyStr.strip (astype_str v) <> "nan" ->
  Race.clean_with label v = PyStr.strip (astype_str v).
Proof.
  intros Ho Hn. unfold Race.clean_with.
  rewrite (replace_ci_no_occurrence _ _ _ Ho).
  apply String.eqb_neq in Hn. rewrite Hn. reflexivity.
Qed.

Lemma race_clean_passthrough_witness :
  Race.clean_with "Unknown" (Str "  Hispanic ") = "Hispanic"
  /\ Race.clean_with "Unknown" (Str (nbsp ++ "White")) = "White".
Proof.
  split.
  - apply (race_clean_passthrough "Unknown" (Str "  Hispanic ")).
    + reflexivity.
    + discriminate.
  - apply (race_clean_passthrough "Unknown" (Str (nbsp ++ "White"))).
    + reflexivity.
    + discriminate.
Defined.

(** ** The trend table *)

Lemma Z_compare_gt (x y : Z) : (x ?= y)%Z = Gt -> (y ?= x)%Z = Lt.
Proof. intro H. apply Z.compare_gt_iff in H. apply Z.compare_lt_iff. exact H. Qed.

Lemma Z_compare_trans (x y z : Z) :
  (x ?= y)%Z = Lt -> (y ?= z)%Z = Lt -> (x ?= z)%Z = Lt.
Proof. rewrite !Z.compare_lt_iff. lia. Qed.

Lemma sorted_years_sorted (l : list Z) : StronglySorted Z.lt (sorted_keys Z.compare l).
Proof.
  apply (sorted_keys_sorted Z.compare).
  - intros x y. apply Z.compare_eq.
  - apply Z_compare_gt.
  - apply Z_compare_trans.
Qed.

Lemma sorted_years_Permutation (l l' : list Z) :
  Permutation l l' -> sorted_keys Z.compare l = sorted_keys Z.compare l'.
Proof.
  apply (sorted_keys_Permutation Z.compare).
  - intros x y. apply Z.compare_eq.
  - apply Z.compare_refl.
  - apply Z_compare_gt.
  - apply Z_compare_trans.
Qed.

(** The trend table has one row for each year that occurs among the dated
    records, in increasing order of the year. *)
Theorem trends_years (df : list Escalation.record) :
  StronglySorted Z.lt (map Escalation.trend_year (Escalation.trends df))
  /\ forall y, In y (map Escalation.trend_year (Escalation.trends df)) <->
               exists r, In r df /\ Escalation.Year r = Some y.
Proof.
  assert (E : map Escalation.trend_year (Escalation.trends df)
              = sorted_keys Z.compare (Escalation.years df)).
  { rewrite trends_rows, map_map. simpl. apply map_id. }
  rewrite E. split; [apply sorted_years_sorted|].
  intro y. rewrite In_sorted_years. apply In_years.
Qed.

Lemma Z_indicator_sum (y : Z) (L : list Z) :
  NoDup L -> In y L -> list_sum (map (fun c => indicator (Z.eqb y c)) L) = 1%nat.
Proof.
  induction 1 as [|c L Hc Hnd IH]; simpl; intros Hin; [contradiction|].
  destruct Hin as [->|Hin].
  - rewrite Z.eqb_refl. simpl. f_equal.
    apply list_sum_map_zero. intros c' Hc'.
    destruct (Z.eqb_spec y c') as [->|_]; [contradiction | reflexivity].
  - destruct (Z.eqb_spec y c) as [->|_]; [contradiction|].
    simpl. apply IH, Hin.
Qed.

Lemma year_totals_sum (df : list Escalation.record) (L : list Z) :
  NoDup L -> (forall y, In y (Escalation.years df) -> In y L) ->
  list_sum (map (fun y => year_total y df) L) = List.length (Escalation.years df).
Proof.
  intro Hnd. unfold year_total. induction df as [|r df IH]; intro Hin.
  - simpl. apply list_sum_map_zero. reflexivity.
  - assert (Hin' : forall y, In y (Escalation.years df) -> In y L).
    { intros y Hy. apply Hin. unfold Escalation.years. simpl. apply in_or_app. right. exact Hy. }
    specialize (IH Hin').
    transitivity
      (list_sum (map (fun y => indicator (Escalation.year_is y r)
                               + List.length (filter (Escalation.year_is y) df))%nat L)).
    { f_equal. apply map_ext. intro y. simpl. destruct (Escalation.year_is y r); reflexivity. }
    rewrite list_sum_map_add, IH.
    unfold Escalation.years. simpl. rewrite length_app.
    unfold Escalation.year_is. destruct (Escalation.Year r) as [y0|] eqn:Ey; simpl.
    + rewrite Z_indicator_sum; [reflexivity | exact Hnd |].
      apply Hin. unfold Escalation.years. simpl. rewrite Ey. left. reflexivity.
    + rewrite list_sum_map_zero; reflexivity.
Qed.

(** The totals of the trend table add up to the number of records that have
    a date: a record without a date is in no row, and every other record is
    in exactly one. *)
Theorem trends_total_records (df : list Escalation.record) :
  list_sum (map Escalation.Total_Records (Escalation.trends df))
  = List.length (filter (fun r => match Escalation.Year r with
                                  | Some _ => true
                                  | None => false
                                  end) df).
Proof.
  rewrite trends_rows, map_map. simpl.
  rewrite year_totals_sum.
  - unfold Escalation.years. induction df as [|r df IH]; simpl; [reflexivity|].
    rewrite length_app, IH. destruct (Escalation.Year r); reflexivity.
  - apply (sorted_keys_NoDup Z.compare).
    + intros x y. apply Z.compare_eq.
    + apply Z.compare_refl.
    + apply Z_compare_gt.
    + apply Z_compare_trans.
  - intros y Hy. apply In_sorted_years, Hy.
Qed.

Lemma percent_of_zero (n t : nat) :
  (1 <= t)%nat -> (percent_of n t == 0)%Q <-> n = 0%nat.
Proof.
  intro Ht. split.
  - intro H. assert (percent_of n t <= percent_of 0 t)%Q as Hle.
    { rewrite H. unfold percent_of, Escalation.Q_of_nat. simpl.
      unfold Qdiv. rewrite !Qmult_0_l. apply Qle_refl. }
    apply percent_of_le in Hle; [lia | exact Ht].
  - intros ->. unfold percent_of, Escalation.Q_of_nat. simpl.
    unfold Qdiv. rewrite !Qmult_0_l. reflexivity.
Qed.

Lemma percent_of_full (n t : nat) :
  (1 <= t)%nat -> (percent_of n t == 100)%Q <-> n = t.
Proof.
  intro Ht.
  assert (Hfull : (percent_of t t == 100)%Q).
  { unfold percent_of, Escalation.Q_of_nat, Qdiv.
    rewrite Qmult_inv_r; [reflexivity|].
    intro H. assert (inject_Z (Z.of_nat t) == inject_Z 0)%Q as H' by exact H.
    apply (proj1 (inject_Z_injective _ _)) in H'. lia. }
  split.
  - intro H. apply Nat.le_antisymm; apply (percent_of_le _ _ t Ht);
      rewrite H, Hfull; apply Qle_refl.
  - intros ->. exact Hfull.
Qed.

(** In each row of the trend table and for each tracked column, the
    percentage is 0 exactly when no record of the year is flagged and 100
    exactly when all records of the year are. *)
Theorem trends_percent_extremes
        (df : list Escalation.record) (row : Escalation.trend_row) (col : string) :
  In row (Escalation.trends df) ->
  In col Escalation.columns_to_track ->
  exists p : Q,
    In ((col ++ "_Percent")%string, p) (Escalation.percents row)
    /\ ((p == 0)%Q <-> flag_count col (Escalation.trend_year row) df = 0%nat)
    /\ ((p == 100)%Q <->
        flag_count col (Escalation.trend_year row) df = Escalation.Total_Records row).
Proof.
  intros Hrow Hcol. apply In_trends in Hrow.
  destruct Hrow as [y [Hy [Hyear [Htot Hadd]]]].
  assert (Hpos := year_total_positive y df Hy).
  exists (percent_of (flag_count col y df) (year_total y df)).
  rewrite Hyear, Htot. split; [|split].
  - unfold Escalation.percents. rewrite Hadd.
    simpl in Hcol. destruct Hcol as [<-|[<-|[<-|[]]]]; cbn; intuition.
  - apply percent_of_zero, Hpos.
  - apply percent_of_full, Hpos.
Qed.

Lemma trends_percent_extremes_witness :
  exists p : Q,
    In ("Subject_Felon_Percent", p) (Escalation.percents demo_trend_row)
    /\ ((p == 0)%Q <-> flag_count "Subject_Felon" 2011 demo_records = 0%nat).
Proof.
  destruct (trends_percent_extremes demo_records demo_trend_row "Subject_Felon")
    as [p [H1 [H2 _]]].
  - right. left. reflexivity.
  - right. left. reflexivity.
  - exists p. split; [exact H1 | exact H2].
Defined.

Lemma year_total_Permutation (y : Z) (df df' : list Escalation.record) :
  Permutation df df' -> year_total y df = year_total y df'.
Proof. intro P. unfold year_total. apply Permutation_length, filter_Permutation, P. Qed.

Lemma flag_count_Permutation (col : string) (y : Z) (df df' : list Escalation.record) :
  Permutation df df' -> flag_count col y df = flag_count col y df'.
Proof. intro P. unfold flag_count. apply Permutation_length, filter_Permutation, P. Qed.

(** The trend table does not depend on the order of the records. *)
Theorem trends_Permutation (df df' : list Escalation.record) :
  Permutation df df' -> Escalation.trends df = Escalation.trends df'.
Proof.
  intro P. rewrite !trends_rows.
  rewrite (sorted_years_Permutation (Escalation.years df) (Escalation.years df')).
  - apply map_ext. intro y.
    rewrite (year_total_Permutation y df df' P).
    rewrite !(fun col => flag_count_Permutation col y df df' P). reflexivity.
  - unfold Escalation.years. apply Permutation_flat_map, P.
Qed.

Lemma trends_Permutation_witness :
  Escalation.trends demo_records = Escalation.trends (rev demo_records).
Proof. apply trends_Permutation, Permutation_rev. Defined.

(** ** The ZIP codes of heatmap.py *)

Lemma len_take (s : string) :
  forall n, PyStr.len (PyStr.take n s) = Nat.min n (PyStr.len s).
Proof.
  induction s as [|c s IH]; intro n; cbn [PyStr.take PyStr.len].
  - symmetry. apply Nat.min_0_r.
  - destruct (PyStr.is_continuation c) eqn:E.
    + cbn [PyStr.len]. rewrite E. apply IH.
    + destruct n as [|k]; [reflexivity|].
      cbn [PyStr.len]. rewrite E, IH. reflexivity.
Qed.

Lemma lstrip_no_space (s : string) : has_space s = false -> PyStr.lstrip s = s.
Proof.
  destruct s as [|c s]; [reflexivity|].
  cbn [has_space]. intro H. apply orb_false_iff in H. destruct H as [H _].
  apply Nat.ltb_ge in H. unfold PyStr.lstrip. cbn [PyStr.lstrip_from].
  destruct (PyStr.space_width (String c s)); [reflexivity | lia].
Qed.

Lemma rstrip_no_space (s : string) : has_space s = false -> PyStr.rstrip s = s.
Proof.
  induction s as [|c s IH]; [reflexivity|].
  intro H. cbn [PyStr.rstrip]. rewrite (lstrip_no_space _ H).
  cbn [has_space] in H. apply orb_false_iff in H. destruct H as [_ Hs].
  rewrite (IH Hs). reflexivity.
Qed.

Lemma strip_no_space (s : string) : has_space s = false -> PyStr.strip s = s.
Proof.
  intro H. unfold PyStr.strip. rewrite (lstrip_no_space s H). apply rstrip_no_space, H.
Qed.

Lemma drop_dot_skipping (t : string) :
  has_char "010"%char t = false -> PyStr.drop_dot_suffix_from true t = "".
Proof.
  induction t as [|c t IH]; simpl; [reflexivity|].
  intro H. apply orb_false_iff in H. destruct H as [-> Ht]. apply IH, Ht.
Qed.

Lemma drop_dot_prefix (s rest : string) :
  has_char "."%char s = false ->
  PyStr.drop_dot_suffix_from false (s ++ rest)
  = (s ++ PyStr.drop_dot_suffix_from false rest)%string.
Proof.
  induction s as [|c s IH]; simpl; [reflexivity|].
  intro H. apply orb_false_iff in H. destruct H as [-> Hs]. rewrite (IH Hs). reflexivity.
Qed.

(** The cleaned ZIP code never has more than five characters.  For a value
    without a dot and without white space, alone or followed by a dot and
    anything up to the end of the line (a ZIP code read as a number with
    decimals), the cleaned ZIP code is its first five characters, and it has
    five characters, so that the record is kept, exactly when the value has
    at least five.  A character is a code point, of one byte or more. *)
Theorem clean_zip_spec :
  (forall v : cell, (PyStr.len (Heatmap.clean_zip v) <= 5)%nat)
  /\ (forall s t : string,
         has_char "."%char s = false -> has_space s = false ->
         has_char "010"%char t = false ->
         Heatmap.clean_zip (Str s) = PyStr.take 5 s
         /\ Heatmap.clean_zip (Str (s ++ String "."%char t)) = PyStr.take 5 s
         /\ (PyStr.len (PyStr.take 5 s) = 5%nat <-> (5 <= PyStr.len s)%nat)).
Proof.
  split.
  - intro v. unfold Heatmap.clean_zip. rewrite len_take. apply Nat.le_min_l.
  - intros s t Hdot Hsp Hlf. unfold Heatmap.clean_zip, PyStr.drop_dot_suffix. simpl astype_str.
    split; [|split].
    + rewrite <- (append_empty_r s) at 1. rewrite (drop_dot_prefix s "" Hdot).
      simpl. rewrite append_empty_r, (strip_no_space s Hsp). reflexivity.
    + rewrite (drop_dot_prefix s _ Hdot). cbn [PyStr.drop_dot_suffix_from].
      rewrite Ascii.eqb_refl, (drop_dot_skipping t Hlf), append_empty_r,
        (strip_no_space s Hsp). reflexivity.
    + rewrite len_take. lia.
Qed.

Lemma clean_zip_spec_witness :
  Heatmap.clean_zip (Str "60601") = PyStr.take 5 "60601"
  /\ Heatmap.clean_zip (Str ("60601" ++ String "."%char "0")) = PyStr.take 5 "60601".
Proof.
  destruct (proj2 clean_zip_spec "60601" "0") as [H1 [H2 _]]; try reflexivity.
  split; [exact H1 | exact H2].
Defined.

(** ** The rows of the geographic aggregate *)

Lemma filter_map_all {A B : Type} (f : B -> bool) (g : A -> B) (l : list A) :
  (forall x, In x l -> f (g x) = true) -> filter f (map g l) = map g l.
Proof.
  induction l as [|x l IH]; simpl; intro H; [reflexivity|].
  rewrite (H x (or_introl eq_refl)), IH; [reflexivity|].
  intros y Hy. apply H. right. exact Hy.
Qed.

(** The last filter of section 2 keeps every row. *)
Lemma map_data_rows (df : list (cell * cell)) :
  Heatmap.map_data df =
  map (fun zip =>
         {| Heatmap.address_zip := zip;
            Heatmap.Dominant_Race :=
              Heatmap.idxmax (Heatmap.percentage_row (Heatmap.race_zip_counts df) zip);
            Heatmap.Dominant_Percentage :=
              Heatmap.row_max
                (map snd (Heatmap.percentage_row (Heatmap.race_zip_counts df) zip));
            Heatmap.Total_Records := row_sum (Heatmap.race_zip_counts df) zip |})
      (sorted_labels (map fst (Heatmap.clean df))).
Proof.
  unfold Heatmap.map_data. cbn [index Heatmap.race_zip_counts crosstab].
  apply filter_map_all. intros zip Hzip. cbn [Heatmap.address_zip].
  apply mem_In, In_sorted_labels, Hzip.
Qed.

Lemma In_heatmap_clean (df : list (cell * cell)) (p : string * string) :
  In p (Heatmap.clean df) ->
  PyStr.len (fst p) = 5%nat
  /\ exists r, In r df /\ fst p = Heatmap.clean_zip (fst r)
               /\ snd p = Race.clean_race (snd r).
Proof.
  unfold Heatmap.clean. rewrite in_map_iff. intros [q [<- Hq]].
  apply filter_In in Hq. destruct Hq as [Hq Hlen].
  apply in_map_iff in Hq. destruct Hq as [r [<- Hr]]. simpl in *.
  split; [apply Nat.eqb_eq, Hlen|].
  exists r. repeat split. exact Hr.
Qed.

Lemma map_data_address_zips (df : list (cell * cell)) :
  map Heatmap.address_zip (Heatmap.map_data df) = sorted_labels (map fst (Heatmap.clean df)).
Proof. rewrite map_data_rows, map_map. simpl. apply map_id. Qed.

(** The geographic aggregate has one row for each cleaned five-character ZIP
    code that occurs, in sorted order and without duplicates; the totals of
    its rows add up to the number of records that have such a ZIP code. *)
Theorem map_data_zip_codes (df : list (cell * cell)) :
  map Heatmap.address_zip (Heatmap.map_data df) = sorted_labels (map fst (Heatmap.clean df))
  /\ StronglySorted label_before (map Heatmap.address_zip (Heatmap.map_data df))
  /\ NoDup (map Heatmap.address_zip (Heatmap.map_data df))
  /\ (forall zip, In zip (map Heatmap.address_zip (Heatmap.map_data df)) <->
                  PyStr.len zip = 5%nat
                  /\ exists r, In r df /\ Heatmap.clean_zip (fst r) = zip)
  /\ list_sum (map Heatmap.Total_Records (Heatmap.map_data df))
     = List.length (filter (fun r => Nat.eqb (PyStr.len (Heatmap.clean_zip (fst r))) 5) df).
Proof.
  assert (E := map_data_address_zips df).
  rewrite E. split; [reflexivity|].
  split; [apply sorted_labels_sorted|]. split; [apply sorted_labels_NoDup|]. split.
  - intro zip. rewrite In_sorted_labels, in_map_iff. split.
    + intros [p [<- Hp]]. apply In_heatmap_clean in Hp.
      destruct Hp as [Hlen [r [Hr [Hz _]]]]. split; [exact Hlen|].
      exists r. split; [exact Hr | symmetry; exact Hz].
    + intros [Hlen [r [Hr Hz]]].
      exists (zip, Race.clean_race (snd r)). split; [reflexivity|].
      unfold Heatmap.clean. apply in_map_iff.
      exists (zip, snd r). split; [reflexivity|].
      apply filter_In. split; [|apply Nat.eqb_eq; exact Hlen].
      apply in_map_iff. exists r. rewrite Hz. split; [reflexivity | exact Hr].
  - transitivity (table_sum (Heatmap.race_zip_counts df)).
    + rewrite map_data_rows, map_map. reflexivity.
    + unfold Heatmap.race_zip_counts. rewrite table_sum_crosstab.
      unfold Heatmap.clean. rewrite length_map. clear E.
      induction df as [|r df IH]; simpl; [reflexivity|].
      destruct (Nat.eqb _ 5); simpl; rewrite IH; reflexivity.
Qed.

Lemma filter_zip_none (rows : list Heatmap.geo_row) (zip : string) :
  ~ In zip (map Heatmap.address_zip rows) ->
  filter (fun r => String.eqb (Heatmap.address_zip r) zip) rows = [].
Proof.
  induction rows as [|r rows IH]; simpl; intro H; [reflexivity|].
  destruct (String.eqb_spec (Heatmap.address_zip r) zip) as [E|_].
  - exfalso. apply H. left. exact E.
  - apply IH. intro Hin. apply H. right. exact Hin.
Qed.

Lemma filter_zip_unique (rows : list Heatmap.geo_row) (zip : string) :
  NoDup (map Heatmap.address_zip rows) ->
  forall row, In row rows -> Heatmap.address_zip row = zip ->
  filter (fun r => String.eqb (Heatmap.address_zip r) zip) rows = [row].
Proof.
  induction rows as [|r rows IH]; intros Hnd row Hin Hz; [contradiction|].
  simpl in Hnd. inversion Hnd as [|? ? Hnot Hnd']; subst.
  simpl. destruct Hin as [->|Hin].
  - rewrite String.eqb_refl. f_equal. apply filter_zip_none, Hnot.
  - destruct (String.eqb_spec (Heatmap.address_zip r) (Heatmap.address_zip row)) as [E|_].
    + exfalso. apply Hnot. rewrite E. apply in_map, Hin.
    + apply IH; auto.
Qed.

(** The popup of a ZIP code of the map: a ZIP code that occurs in the data
    finds its row, the only one with that ZIP code, whose total is the number
    of records of the ZIP code; any other ZIP code finds none. *)
Theorem popup_row_spec (df : list (cell * cell)) (zip_code : string) :
  (In zip_code (map fst (Heatmap.clean df)) ->
   exists row,
     popup_row (Heatmap.map_data df) zip_code = Some row
     /\ In row (Heatmap.map_data df)
     /\ Heatmap.address_zip row = zip_code
     /\ Heatmap.Total_Records row =
        List.length (filter (fun p => String.eqb (fst p) zip_code) (Heatmap.clean df))
     /\ forall row', In row' (Heatmap.map_data df) ->
                     Heatmap.address_zip row' = zip_code -> row' = row)
  /\ (~ In zip_code (map fst (Heatmap.clean df)) ->
      popup_row (Heatmap.map_data df) zip_code = None).
Proof.
  assert (E := map_data_address_zips df).
  assert (Hnd : NoDup (map Heatmap.address_zip (Heatmap.map_data df)))
    by (rewrite E; apply sorted_labels_NoDup).
  unfold popup_row. split.
  - intro Hin.
    assert (Hm : In zip_code (map Heatmap.address_zip (Heatmap.map_data df))).
    { rewrite E. apply In_sorted_labels, Hin. }
    pose proof Hm as Hm'. apply in_map_iff in Hm'. destruct Hm' as [row [Hz Hrow]].
    apply mem_In in Hm. rewrite Hm.
    rewrite (filter_zip_unique _ zip_code Hnd row Hrow Hz).
    exists row. split; [reflexivity|]. split; [exact Hrow|]. split; [exact Hz|]. split.
    + destruct (In_map_data df row Hrow) as [_ [_ [_ Htot]]].
      rewrite Htot, Hz. apply heatmap_total_records.
    + intros row' Hrow' Hz'.
      assert (H := filter_zip_unique _ zip_code Hnd row' Hrow' Hz').
      rewrite (filter_zip_unique _ zip_code Hnd row Hrow Hz) in H. congruence.
  - intro Hnot.
    destruct (mem zip_code (map Heatmap.address_zip (Heatmap.map_data df))) eqn:Em;
      [|reflexivity].
    exfalso. apply Hnot. apply mem_In in Em. rewrite E in Em.
    apply In_sorted_labels, Em.
Qed.

Lemma popup_row_spec_witness :
  exists row, popup_row (Heatmap.map_data demo_geo) "60608" = Some row
              /\ Heatmap.address_zip row = "60608".
Proof.
  destruct (proj1 (popup_row_spec demo_geo "60608")) as [row [H1 [_ [H2 _]]]].
  - cbv. right. right. left. reflexivity.
  - exists row. split; [exact H1 | exact H2].
Defined.

(** ** The legend tiers *)

(** [get_logical_color] returns a tier from 1 to 5 for every count and every
    maximum, also through its default; a count below 1 is in no range and
    gets the default tier 1. *)
Theorem get_logical_color_range (m n : Z) :
  (1 <= Heatmap.get_logical_color (Heatmap.ranges m) n <= 5)%Z
  /\ ((n < 1)%Z ->
      Heatmap.find_range 0 (Heatmap.ranges m) n = None
      /\ Heatmap.get_logical_color (Heatmap.ranges m) n = 1%Z).
Proof.
  unfold Heatmap.get_logical_color, Heatmap.ranges.
  destruct (Z.leb_spec m 10); [|destruct (Z.leb_spec m 50);
    [|destruct (Z.leb_spec m 100); [|destruct (Z.leb_spec m 500)]]];
    cbn [Heatmap.find_range];
    split_leb; cbn; (split; [lia | intro; try lia; split; reflexivity]).
Qed.

Lemma get_logical_color_range_witness :
  Heatmap.get_logical_color (Heatmap.ranges 40) 0 = 1%Z.
Proof. apply (proj2 (get_logical_color_range 40 0)). lia. Defined.

(** Within the counts from 1 to the maximum, a ZIP code with more records
    never gets a lower tier. *)
Theorem get_logical_color_monotone (m n1 n2 : Z) :
  (1 <= n1)%Z -> (n1 <= n2)%Z -> (n2 <= m)%Z ->
  (Heatmap.get_logical_color (Heatmap.ranges m) n1
   <= Heatmap.get_logical_color (Heatmap.ranges m) n2)%Z.
Proof.
  intros H1 H12 H2. unfold Heatmap.get_logical_color, Heatmap.ranges.
  destruct (Z.leb_spec m 10); [|destruct (Z.leb_spec m 50);
    [|destruct (Z.leb_spec m 100); [|destruct (Z.leb_spec m 500)]]];
    cbn [Heatmap.find_range];
    split_leb; cbn; lia.
Qed.

Lemma get_logical_color_monotone_witness :
  (Heatmap.get_logical_color (Heatmap.ranges 40) 7
   <= Heatmap.get_logical_color (Heatmap.ranges 40) 25)%Z.
Proof. apply get_logical_color_monotone; lia. Defined.

Lemma max_records_attained (rows : list Heatmap.geo_row) :
  rows <> [] ->
  exists row, In row rows /\ Z.of_nat (Heatmap.Total_Records row) = Heatmap.max_records rows.
Proof.
  induction rows as [|r rows IH]; intro H; [congruence|].
  unfold Heatmap.max_records in *. cbn [fold_right].
  destruct rows as [|r' rows'].
  - exists r. split; [left; reflexivity|]. simpl. lia.
  - destruct IH as [row [Hin Hrow]]; [discriminate|].
    destruct (Z.max_spec (Z.of_nat (Heatmap.Total_Records r))
                         (fold_right (fun row m => Z.max (Z.of_nat (Heatmap.Total_Records row)) m)
                                     0%Z (r' :: rows'))) as [[_ E]|[_ E]]; rewrite E.
    + exists row. split; [right; exact Hin | exact Hrow].
    + exists r. split; [left; reflexivity | reflexivity].
Qed.

Lemma top_tier_of_max (m : Z) :
  Heatmap.get_logical_color (Heatmap.ranges m) m = 5%Z <->
  ((8 <= m <= 10)%Z \/ (21 <= m)%Z).
Proof.
  unfold Heatmap.get_logical_color, Heatmap.ranges.
  destruct (Z.leb_spec m 10); [|destruct (Z.leb_spec m 50);
    [|destruct (Z.leb_spec m 100); [|destruct (Z.leb_spec m 500)]]];
    cbn [Heatmap.find_range];
    split_leb; cbn; (split; [intro; try lia; discriminate | intro; try lia; reflexivity]).
Qed.

Lemma tier_five_needs_max (m n : Z) :
  (n <= m)%Z -> Heatmap.get_logical_color (Heatmap.ranges m) n = 5%Z ->
  ((8 <= m <= 10)%Z \/ (21 <= m)%Z).
Proof.
  unfold Heatmap.get_logical_color, Heatmap.ranges. intros Hn.
  destruct (Z.leb_spec m 10); [|destruct (Z.leb_spec m 50);
    [|destruct (Z.leb_spec m 100); [|destruct (Z.leb_spec m 500)]]];
    cbn [Heatmap.find_range];
    split_leb; cbn; intro; try lia; discriminate.
Qed.

(** The darkest tier of the legend is used by some ZIP code exactly when the
    greatest total is from 8 to 10 or at least 21: with a greatest total
    below 8, or from 11 to 20, the fifth range of the legend is empty. *)
Theorem darkest_tier_used (df : list (cell * cell)) :
  (exists zip, In (zip, 5%Z) (Heatmap.color_scale df)) <->
  ((8 <= Heatmap.max_records (Heatmap.map_data df) <= 10)%Z
   \/ (21 <= Heatmap.max_records (Heatmap.map_data df))%Z).
Proof.
  unfold Heatmap.color_scale.
  set (rows := Heatmap.map_data df). set (m := Heatmap.max_records rows).
  split.
  - intros [zip H]. apply in_map_iff in H. destruct H as [row [E Hrow]].
    injection E as _ E.
    apply (tier_five_needs_max m (Z.of_nat (Heatmap.Total_Records row))); [|exact E].
    apply max_records_upper, Hrow.
  - intro H.
    destruct (max_records_attained rows) as [row [Hrow Hmax]].
    { intro E. unfold m in H. rewrite E in H. simpl in H. lia. }
    exists (Heatmap.address_zip row). apply in_map_iff. exists row.
    split; [|exact Hrow]. f_equal. fold m in Hmax. rewrite Hmax.
    apply top_tier_of_max, H.
Qed.

Lemma list_sum_bounded {A : Type} (f : A -> nat) (M : nat) (l : list A) :
  (forall c, In c l -> (f c <= M)%nat) -> (list_sum (map f l) <= List.length l * M)%nat.
Proof.
  induction l as [|c l IH]; simpl; intro H; [lia|].
  assert (f c <= M)%nat by (apply H; left; reflexivity).
  assert (list_sum (map f l) <= List.length l * M)%nat.
  { apply IH. intros c' Hc'. apply H. right. exact Hc'. }
  lia.
Qed.

Lemma percent_of_positive (n t : nat) :
  (1 <= n)%nat -> (n <= t)%nat -> (0 < percent_of n t)%Q.
Proof.
  intros Hn Ht. apply Qnot_le_lt. intro H.
  assert (percent_of n t <= percent_of 0 t)%Q as Hle.
  { eapply Qle_trans; [exact H|]. apply percent_of_bounds; lia. }
  apply percent_of_le in Hle; lia.
Qed.

(** The dominant race of a ZIP code has at least one record there, its
    percentage is above 0 and at most 100, and its count is at least the
    average over the race columns of the table. *)
Theorem dominant_share_bounds (df : list (cell * cell)) (row : Heatmap.geo_row) :
  In row (Heatmap.map_data df) ->
  let t := Heatmap.race_zip_counts df in
  exists (race : string) (pct : Q),
    Heatmap.Dominant_Race row = Some race
    /\ Heatmap.Dominant_Percentage row = Some pct
    /\ (0 < pct)%Q /\ (pct <= 100)%Q
    /\ (1 <= count t (Heatmap.address_zip row) race)%nat
    /\ (Heatmap.Total_Records row
        <= List.length (columns t) * count t (Heatmap.address_zip row) race)%nat.
Proof.
  intros H t. destruct (In_map_data df row H) as [Hzip [Hdom [Hpct Htot]]].
  fold t in Hdom, Hpct, Htot. set (zip := Heatmap.address_zip row) in *.
  assert (Hpos : (1 <= row_sum t zip)%nat).
  { unfold t. rewrite heatmap_total_records. apply filter_fst_positive, Hzip. }
  destruct (dominant_spec t zip) as [race [H1 [H2 [H3 [H4 _]]]]];
    [apply sorted_labels_sorted | exact Hpos |].
  assert (Hsum : (row_sum t zip <= List.length (columns t) * count t zip race)%nat).
  { unfold row_sum. apply list_sum_bounded, H3. }
  assert (Hle : (count t zip race <= row_sum t zip)%nat).
  { unfold row_sum. clear - H2. induction (columns t) as [|c l IH]; [contradiction|].
    cbn [map list_sum fold_right]. destruct H2 as [->|Hin]; [lia|].
    specialize (IH Hin). unfold list_sum in IH. lia. }
  assert (Hone : (1 <= count t zip race)%nat).
  { destruct (count t zip race) eqn:E0; [rewrite Nat.mul_0_r in Hsum; lia | lia]. }
  exists race, (percent_of (count t zip race) (row_sum t zip)).
  rewrite Hdom, Hpct, Htot.
  split; [exact H1|]. split; [exact H4|].
  split; [apply percent_of_positive; assumption|].
  split; [apply percent_of_bounds; assumption|].
  split; assumption.
Qed.

Lemma dominant_share_bounds_witness :
  exists (race : string) (pct : Q),
    Heatmap.Dominant_Race demo_geo_row = Some race
    /\ Heatmap.Dominant_Percentage demo_geo_row = Some pct
    /\ (0 < pct)%Q /\ (pct <= 100)%Q.
Proof.
  destruct (dominant_share_bounds demo_geo demo_geo_row demo_geo_row_In)
    as [race [pct [H1 [H2 [H3 [H4 _]]]]]].
  exists race, pct. repeat split; assumption.
Defined.

(** ** The fallback data *)

Section FallbackFacts.
Context `{G : NumpyRandom}.
Variable ambient : rng_state.
Variable timestamp_text : Z -> string.

Lemma gang_colors_fallback_columns :
  df_columns (gang_colors_fallback ambient)
  = [GangColors.column_colors; GangColors.column_admits].
Proof.
  unfold gang_colors_fallback.
  destruct (rng_choice _ _ _ ambient) as [colors st].
  destruct (rng_choice _ _ _ st) as [admits st']. reflexivity.
Qed.

Lemma colors_fallback_columns :
  df_columns (colors_fallback ambient)
  = [Colors.column_wears_colors; Colors.column_admits_gang].
Proof.
  unfold colors_fallback.
  destruct (rng_choice _ _ _ (rng_seed 42)) as [wears st].
  destruct (rng_choice _ _ _ st) as [admits st']. reflexivity.
Qed.

Lemma race_fallback_columns :
  df_columns (race_fallback ambient) = [Race.column_race; Race.column_admits_gang].
Proof.
  unfold race_fallback.
  destruct (rng_choice _ _ _ (rng_seed 43)) as [race st].
  destruct (rng_choice _ _ _ st) as [admits st']. reflexivity.
Qed.

Lemma heatmap_fallback_columns :
  df_columns (heatmap_fallback ambient) = [Heatmap.column_zip; Heatmap.column_race].
Proof.
  unfold heatmap_fallback.
  destruct (rng_choice _ _ _ (rng_seed 42)) as [zips st].
  destruct (draw_races zips st) as [races st']. reflexivity.
Qed.

(** The fallback data of escalation.py is never built: the first call of
    [generate_binary_trend] asks a [DatetimeIndex] for [.dt]. *)
Lemma escalation_fallback_raises :
  escalation_fallback timestamp_text ambient = None.
Proof.
  unfold escalation_fallback.
  destruct (rng_randint _ _ _ (rng_seed 45)) as [offsets st]. reflexivity.
Qed.
End FallbackFacts.

Lemma filter_all {A : Type} (f : A -> bool) (l : list A) :
  Forall (fun x => f x = true) l -> filter f l = l.
Proof.
  induction 1 as [|x l Hx _ IH]; simpl; [reflexivity|]. rewrite Hx, IH. reflexivity.
Qed.

Lemma Forall_combine {A B : Type} (P : A -> Prop) (Q : B -> Prop) (la : list A) :
  forall lb, Forall P la -> Forall Q lb ->
             Forall (fun r => P (fst r) /\ Q (snd r)) (combine la lb).
Proof.
  induction la as [|a la IH]; intros [|b lb] Ha Hb; simpl; try constructor.
  - inversion Ha; inversion Hb; subst. split; assumption.
  - inversion Ha; inversion Hb; subst. apply IH; assumption.
Qed.

Lemma require2_present {A : Type} (a b : string) (stdout : list message)
      (df : dataframe) (rest : outcome A) :
  has_columns [a; b] df = true -> require2 a b stdout df rest = rest.
Proof.
  unfold has_columns, require2. simpl. intro H.
  destruct (mem a (df_columns df)), (mem b (df_columns df)); try discriminate; reflexivity.
Qed.

Lemma table_sum_no_rows (t : table) : index t = [] -> table_sum t = 0%nat.
Proof. unfold table_sum. intros ->. reflexivity. Qed.

Lemma table_sum_no_columns (t : table) : columns t = [] -> table_sum t = 0%nat.
Proof.
  unfold table_sum, row_sum. intros ->. simpl.
  induction (index t) as [|r l IH]; simpl; [reflexivity | exact IH].
Qed.

Lemma race_table_index (df : list (cell * cell)) :
  index (race_frequency_table df) = sorted_labels (map fst (Race.clean df)).
Proof.
  unfold race_frequency_table.
  destruct (negb (mem "N" (columns (crosstab (Race.clean df))))); cbn [select_columns index];
    match goal with |- context [if ?c then _ else _] => destruct c end; reflexivity.
Qed.

Lemma sorted_labels_nonempty (l : list string) : l <> [] -> sorted_labels l <> [].
Proof.
  destruct l as [|x l]; [congruence|]. intros _ E.
  assert (H : In x (sorted_labels (x :: l))) by (apply In_sorted_labels; left; reflexivity).
  rewrite E in H. exact H.
Qed.

(** What the fallback generators build with a random source whose [choice]
    draws as many values as asked for, among those offered. *)
Section FallbackDraws.
Context `{G : NumpyRandom}.
Hypothesis Hw : draws_well G.
Variable ambient : rng_state.

Lemma gang_colors_fallback_sum :
  table_sum (gang_colors_contingency_table
               (rows2 GangColors.column_colors GangColors.column_admits
                      (gang_colors_fallback ambient))) = 5000%nat.
Proof.
  rewrite gang_colors_table_sum. unfold gang_colors_fallback.
  destruct (rng_choice _ _ _ ambient) as [colors st] eqn:E1.
  destruct (rng_choice _ _ _ st) as [admits st'] eqn:E2.
  unfold rows2. cbn [series]. simpl String.eqb. cbv iota.
  rewrite length_combine.
  pose proof (proj1 (Hw [Str "Y"; Str "NULL"; Str "N"]
                        (Some [4 # 10; 2 # 10; 4 # 10]%Q) 5000%nat ambient)) as H1.
  pose proof (proj1 (Hw [Str "Y"; Str "NULL"; Str "N"]
                        (Some [3 # 10; 1 # 10; 6 # 10]%Q) 5000%nat st)) as H2.
  rewrite E1 in H1. rewrite E2 in H2. simpl fst in H1, H2.
  rewrite H1, H2. apply Nat.min_id.
Qed.

Lemma colors_fallback_sum :
  table_sum (colors_frequency_table
               (rows2 Colors.column_wears_colors Colors.column_admits_gang
                      (colors_fallback ambient))) = 500%nat.
Proof.
  rewrite colors_table_sum. unfold colors_fallback.
  destruct (rng_choice _ _ _ (rng_seed 42)) as [wears st] eqn:E1.
  destruct (rng_choice _ _ _ st) as [admits st'] eqn:E2.
  unfold rows2. cbn [series]. simpl String.eqb. cbv iota.
  destruct (Hw [Str "Y"; PyNone; Str "Y"; Str "Y"]
               (Some [4 # 10; 2 # 10; 3 # 10; 1 # 10]%Q) 500%nat (rng_seed 42)) as [L1 F1].
  destruct (Hw [Str "Y"; Str "NULL"; PyNone]
               (Some [2 # 10; 5 # 10; 3 # 10]%Q) 500%nat st) as [L2 F2].
  rewrite E1 in L1, F1. rewrite E2 in L2, F2. simpl fst in L1, F1, L2, F2.
  specialize (F1 ltac:(discriminate)). specialize (F2 ltac:(discriminate)).
  unfold Colors.prepare, Colors.keep_YN, Colors.clean.
  rewrite filter_all.
  + rewrite length_map, length_combine, L1, L2. apply Nat.min_id.
  + apply Forall_forall. intros r Hr. apply in_map_iff in Hr.
    destruct Hr as [[a b] [<- Hab]]. simpl.
    pose proof (Forall_combine _ _ _ _ F1 F2) as HF.
    rewrite Forall_forall in HF. destruct (HF _ Hab) as [Ha Hb]. simpl in Ha, Hb.
    destruct Ha as [<-|[<-|[<-|[<-|[]]]]], Hb as [<-|[<-|[<-|[]]]]; reflexivity.
Qed.

Lemma colors_fallback_len : df_len (colors_fallback ambient) = 500%nat.
Proof.
  unfold colors_fallback.
  destruct (rng_choice _ _ _ (rng_seed 42)) as [wears st] eqn:E1.
  destruct (rng_choice _ _ _ st) as [admits st']. cbn [df_len].
  pose proof (proj1 (Hw [Str "Y"; PyNone; Str "Y"; Str "Y"]
                        (Some [4 # 10; 2 # 10; 3 # 10; 1 # 10]%Q) 500%nat (rng_seed 42))) as L.
  rewrite E1 in L. exact L.
Qed.

Lemma race_fallback_rows :
  df_len (race_fallback ambient) = 500%nat
  /\ List.length (rows2 Race.column_race Race.column_admits_gang (race_fallback ambient))
     = 500%nat.
Proof.
  unfold race_fallback.
  destruct (rng_choice _ _ _ (rng_seed 43)) as [race st] eqn:E1.
  destruct (rng_choice _ _ _ st) as [admits st'] eqn:E2.
  pose proof (proj1 (Hw [Str "Black"; Str "White"; Str "Hispanic"; Str "Multiracial";
                         PyNone; Str "Black"]
                        (Some [30 # 100; 15 # 100; 40 # 100; 5 # 100; 5 # 100; 5 # 100]%Q)
                        500%nat (rng_seed 43))) as L1.
  pose proof (proj1 (Hw [Str "Y"; Str "NULL"; PyNone; Str "Y"]
                        (Some [3 # 10; 3 # 10; 2 # 10; 2 # 10]%Q) 500%nat st)) as L2.
  rewrite E1 in L1. rewrite E2 in L2. simpl fst in L1, L2.
  split; [exact L1|].
  unfold rows2. cbn [series]. simpl String.eqb. cbv iota.
  rewrite length_combine, L1, L2. apply Nat.min_id.
Qed.

Lemma heatmap_fallback_len : df_len (heatmap_fallback ambient) = 5000%nat.
Proof.
  unfold heatmap_fallback.
  destruct (rng_choice _ _ _ (rng_seed 42)) as [zips st] eqn:E1.
  destruct (draw_races zips st) as [races st']. cbn [df_len].
  pose proof (proj1 (Hw real_zips None 5000%nat (rng_seed 42))) as L.
  rewrite E1 in L. exact L.
Qed.
End FallbackDraws.

Lemma lcg_draw_length {A : Type} (f : Z -> A) (n : nat) (st : Z) :
  List.length (fst (Lcg.draw f n st)) = n.
Proof.
  revert st. induction n as [|n IH]; intro st; simpl; [reflexivity|].
  specialize (IH (Lcg.next st)). destruct (Lcg.draw f n (Lcg.next st)). simpl in *.
  rewrite IH. reflexivity.
Qed.

Lemma lcg_draw_Forall {A : Type} (f : Z -> A) (P : A -> Prop) (n : nat) (st : Z) :
  (forall s, P (f s)) -> Forall P (fst (Lcg.draw f n st)).
Proof.
  intro H. revert st. induction n as [|n IH]; intro st; simpl; [constructor|].
  specialize (IH (Lcg.next st)). destruct (Lcg.draw f n (Lcg.next st)). simpl in *.
  constructor; [apply H | exact IH].
Qed.

Lemma lcg_pick_In (a : list cell) :
  a <> [] -> forall p u, In (Lcg.pick a p u) a.
Proof.
  induction a as [|x a IH]; intros Hne p u; [congruence|].
  destruct a as [|y a].
  - simpl. left. reflexivity.
  - destruct p as [|q p].
    + simpl. left. reflexivity.
    + cbn [Lcg.pick]. destruct (Qle_bool q u).
      * right. apply IH. discriminate.
      * left. reflexivity.
Qed.

Lemma lcg_draws_well : draws_well Lcg.generator.
Proof.
  intros a p n st. split.
  - apply lcg_draw_length.
  - intro Hne. apply lcg_draw_Forall. intro s. unfold Lcg.choose.
    destruct p as [p|].
    + apply lcg_pick_In, Hne.
    + apply nth_In.
      assert (0 < Z.of_nat (List.length a))%Z by (destruct a; [congruence | simpl; lia]).
      pose proof (Z.mod_pos_bound s (Z.of_nat (List.length a)) H). lia.
Qed.

(** When the file is not found, gang_colors.py, colors.py, race.py and
    heatmap.py build fallback data that has the columns they require and, with
    a random source that draws as many values as asked for, records to
    tabulate: none stops at its column check and each renders its aggregate.
    escalation.py does not: building its fallback data raises inside the
    handler of the missing file, and the run ends there with a traceback,
    whatever the random source draws. *)
Theorem fallback_outcomes `{G : NumpyRandom}
        (ambient : rng_state) (timestamp_text : Z -> string) :
  (draws_well G ->
   (exists t, gang_colors_main ambient FileNotFound = Rendered file_not_found_lines t)
   /\ (exists t, colors_main ambient FileNotFound =
                 Rendered ([AttemptingToRead] ++ file_not_found_lines ++
                           [generating_line; Text "Data loaded successfully.";
                            TotalRecords 500]) t)
   /\ (exists t, race_main ambient FileNotFound =
                 Rendered ([AttemptingToRead] ++ file_not_found_lines ++
                           [generating_line; Text "Data loaded successfully.";
                            TotalRecords 500]) t)
   /\ (exists t, heatmap_main ambient FileNotFound =
                 Rendered ([AttemptingToRead] ++ file_not_found_lines ++
                           [generating_line; Text "Data loaded successfully.";
                            TotalRecords 5000;
                            Text "Interactive map successfully created!"]) t))
  /\ escalation_main timestamp_text ambient FileNotFound =
     Crashed ([AttemptingToRead] ++ file_not_found_lines ++ [generating_line]).
Proof.
  split.
  - intro Hw. split; [|split; [|split]].
    + unfold gang_colors_main. rewrite require2_present.
      2: { unfold has_columns. rewrite gang_colors_fallback_columns. reflexivity. }
      cbv zeta.
      destruct (index _) as [|r l] eqn:E; [|eexists; reflexivity].
      apply table_sum_no_rows in E. rewrite (gang_colors_fallback_sum Hw) in E. discriminate.
    + unfold colors_main. cbv zeta. rewrite require2_present.
      2: { unfold has_columns. rewrite colors_fallback_columns. reflexivity. }
      rewrite (colors_fallback_len Hw).
      destruct (columns _) as [|c l] eqn:E; [|eexists; reflexivity].
      apply table_sum_no_columns in E. rewrite (colors_fallback_sum Hw) in E. discriminate.
    + unfold race_main. cbv zeta. rewrite require2_present.
      2: { unfold has_columns. rewrite race_fallback_columns. reflexivity. }
      destruct (race_fallback_rows Hw ambient) as [L R]. rewrite L.
      destruct (index _) as [|r l] eqn:E; [|eexists; reflexivity].
      rewrite race_table_index in E. apply sorted_labels_nonempty in E; [contradiction|].
      unfold Race.clean. intro N. apply (f_equal (@List.length _)) in N.
      rewrite !length_map, R in N. discriminate.
    + unfold heatmap_main. cbv zeta. rewrite require2_present.
      2: { unfold has_columns. rewrite heatmap_fallback_columns. reflexivity. }
      rewrite (heatmap_fallback_len Hw). eexists. reflexivity.
  - unfold escalation_main. rewrite escalation_fallback_raises. reflexivity.
Qed.

Lemma fallback_outcomes_witness :
  (exists t, colors_main (G := Lcg.generator) 7%Z FileNotFound =
             Rendered ([AttemptingToRead] ++ file_not_found_lines ++
                       [generating_line; Text "Data loaded successfully.";
                        TotalRecords 500]) t)
  /\ escalation_main (G := Lcg.generator) (fun _ => "") 7%Z FileNotFound =
     Crashed ([AttemptingToRead] ++ file_not_found_lines ++ [generating_line]).
Proof.
  destruct (fallback_outcomes (G := Lcg.generator) 7%Z (fun _ => "")) as [H E].
  split; [exact (proj1 (proj2 (H lcg_draws_well))) | exact E].
Defined.

(** With a random source whose [choice] draws as many values as asked for,
    among those offered, no fallback record is lost: the table of
    gang_colors.py holds all 5000 of them, and colors.py keeps and tabulates
    all 500 of its own. *)
Theorem fallback_tables_complete `{G : NumpyRandom} (ambient : rng_state) :
  draws_well G ->
  table_sum (gang_colors_contingency_table
               (rows2 GangColors.column_colors GangColors.column_admits
                      (gang_colors_fallback ambient))) = 5000%nat
  /\ table_sum (colors_frequency_table
                  (rows2 Colors.column_wears_colors Colors.column_admits_gang
                         (colors_fallback ambient))) = 500%nat.
Proof.
  intro Hw. split; [apply gang_colors_fallback_sum | apply colors_fallback_sum]; exact Hw.
Qed.

Lemma fallback_tables_complete_witness :
  table_sum (colors_frequency_table
               (rows2 Colors.column_wears_colors Colors.column_admits_gang
                      (colors_fallback (G := Lcg.generator) 7%Z))) = 500%nat.
Proof.
  apply (proj2 (fallback_tables_complete (G := Lcg.generator) 7%Z lcg_draws_well)).
Defined.

Lemma year_after_bounds (fuel : nat) :
  forall y d : Z, (0 <= d)%Z ->
                  (y <= year_after fuel y d <= y + d / 365)%Z.
Proof.
  induction fuel as [|fuel IH]; intros y d Hd; simpl.
  - Z.div_mod_to_equations. lia.
  - assert (Hlen : year_length y = 365%Z \/ year_length y = 366%Z).
    { unfold year_length. destruct (is_leap y); auto. }
    destruct (Z.ltb_spec d (year_length y)) as [Hlt|Hge].
    + Z.div_mod_to_equations. lia.
    + specialize (IH (y + 1)%Z (d - year_length y)%Z ltac:(lia)).
      destruct Hlen as [E|E]; rewrite E in *; Z.div_mod_to_equations; lia.
Qed.

Lemma year_after_calendar (fuel : nat) :
  forall y d : Z,
    (0 <= d)%Z -> (d < 365 * (Z.of_nat fuel + 1))%Z ->
    exists k : nat,
      year_after fuel y d = (y + Z.of_nat k)%Z
      /\ (days_of_years y k <= d < days_of_years y (S k))%Z.
Proof.
  induction fuel as [|fuel IH]; intros y d Hd Hfuel.
  - exists 0%nat. simpl. unfold year_length. destruct (is_leap y); lia.
  - assert (Hlen : year_length y = 365%Z \/ year_length y = 366%Z).
    { unfold year_length. destruct (is_leap y); auto. }
    cbn [year_after]. destruct (Z.ltb_spec d (year_length y)) as [Hlt|Hge].
    + exists 0%nat. simpl. lia.
    + destruct (IH (y + 1)%Z (d - year_length y)%Z) as [k [Hk Hspan]]; [lia | lia |].
      exists (S k). rewrite Hk. split; [lia|].
      cbn [days_of_years] in *. lia.
Qed.

(** The dates of the fallback data of escalation.py, drawn up to [365 * 13]
    days after the first of January 2010: the year of each is the calendar
    year that the day falls in, and it is one of the years 2010 to 2022, both
    of which are reached; no date falls in 2023. *)
Theorem fallback_years_range :
  (forall d : Z,
      (0 <= d < 365 * 13)%Z ->
      (2010 <= year_of_offset d <= 2022)%Z
      /\ exists k : nat,
           year_of_offset d = (2010 + Z.of_nat k)%Z
           /\ (days_of_years 2010 k <= d < days_of_years 2010 (S k))%Z)
  /\ year_of_offset 0 = 2010%Z
  /\ year_of_offset (365 * 13 - 1) = 2022%Z.
Proof.
  split; [|split; reflexivity].
  intros d Hd. unfold year_of_offset. split.
  - pose proof (year_after_bounds (Z.to_nat d) 2010 d ltac:(lia)) as H.
    Z.div_mod_to_equations. lia.
  - apply year_after_calendar; lia.
Qed.

Lemma fallback_years_range_witness : (2010 <= year_of_offset 1000 <= 2022)%Z.
Proof. apply (proj1 fallback_years_range). lia. Defined.

(** ** The labels of race.py *)

Lemma Qlt_bool_inject (a b : Z) :
  RaceLabels.Qlt_bool (inject_Z a) (inject_Z b) = (a <? b)%Z.
Proof.
  unfold RaceLabels.Qlt_bool.
  destruct (Z.ltb_spec a b) as [H|H].
  - apply negb_true_iff. destruct (Qle_bool (inject_Z b) (inject_Z a)) eqn:E; [|reflexivity].
    apply Qle_bool_iff in E. rewrite <- Zle_Qle in E. lia.
  - apply negb_false_iff. apply Qle_bool_iff. rewrite <- Zle_Qle. exact H.
Qed.

Lemma Qlt_bool_spec (a b : Q) : RaceLabels.Qlt_bool a b = true <-> (a < b)%Q.
Proof.
  unfold RaceLabels.Qlt_bool. rewrite negb_true_iff. split.
  - intro H. apply Qnot_le_lt. intro Hle. apply Qle_bool_iff in Hle. congruence.
  - intro H. destruct (Qle_bool b a) eqn:E; [|reflexivity].
    apply Qle_bool_iff in E. exfalso. exact (Qlt_not_le _ _ H E).
Qed.

(** [min] with a key returns a position that is at least as close as every
    other. *)
Lemma closest_from_min (x : Q) (l : list Q) :
  forall best,
    In (RaceLabels.closest_from best x l) (best :: l)
    /\ forall y, In y (best :: l) ->
                 (Qabs (RaceLabels.closest_from best x l - x) <= Qabs (y - x))%Q.
Proof.
  induction l as [|z l IH]; intro best; cbn [RaceLabels.closest_from].
  - split; [left; reflexivity|]. intros y [<-|[]]. apply Qle_refl.
  - destruct (RaceLabels.Qlt_bool (Qabs (z - x)) (Qabs (best - x))) eqn:E.
    + destruct (IH z) as [Hin Hmin]. split.
      * right. exact Hin.
      * intros y [<-|Hy].
        -- apply Qlt_bool_spec in E. eapply Qle_trans; [apply Hmin; left; reflexivity|].
           apply Qlt_le_weak, E.
        -- apply Hmin, Hy.
    + destruct (IH best) as [Hin Hmin]. split.
      * destruct Hin as [H|H]; [left; exact H | right; right; exact H].
      * intros y [<-|[<-|Hy]].
        -- apply Hmin. left. reflexivity.
        -- eapply Qle_trans; [apply Hmin; left; reflexivity|].
           unfold RaceLabels.Qlt_bool in E. apply negb_false_iff, Qle_bool_iff in E. exact E.
        -- apply Hmin. right. exact Hy.
Qed.

Lemma tick_inj (i j : nat) : (tick i == tick j)%Q -> i = j.
Proof.
  unfold tick. intro H. apply (proj1 (inject_Z_injective _ _)) in H. lia.
Qed.

(** The tick closest to the centre of a bar is the tick of its row. *)
Lemma closest_tick_of_row (n i : nat) (x_pos : Q) :
  (i < n)%nat -> (x_pos == tick i)%Q ->
  RaceLabels.closest_tick (map tick (seq 0 n)) x_pos = Some (tick i).
Proof.
  intros Hi Hx. destruct n as [|n]; [lia|].
  cbn [seq map RaceLabels.closest_tick]. f_equal.
  destruct (closest_from_min x_pos (map tick (seq 1 n)) (tick 0)) as [Hin Hmin].
  set (r := RaceLabels.closest_from (tick 0) x_pos (map tick (seq 1 n))) in *.
  assert (Hr : In r (map tick (seq 0 (S n)))) by exact Hin.
  apply in_map_iff in Hr. destruct Hr as [k [Hk _]].
  assert (Hi' : In (tick i) (tick 0 :: map tick (seq 1 n))).
  { change (In (tick i) (map tick (seq 0 (S n)))). apply in_map, in_seq. lia. }
  specialize (Hmin _ Hi').
  assert (Hz : (Qabs (tick i - x_pos) == 0)%Q).
  { rewrite Hx. setoid_replace (tick i - tick i)%Q with 0%Q by ring. reflexivity. }
  rewrite Hz in Hmin.
  apply Qabs_Qle_condition in Hmin. destruct Hmin as [H1 H2].
  assert (r - x_pos == 0)%Q as H0 by (apply Qle_antisym; [exact H2 | exact H1]).
  assert (r == tick i)%Q as Hri.
  { rewrite <- Hx. setoid_replace r with ((r - x_pos) + x_pos)%Q by ring.
    rewrite H0. ring. }
  rewrite <- Hk in Hri |- *. apply tick_inj in Hri. subst k. reflexivity.
Qed.

Lemma Qeq_bool_tick (a i : nat) : Qeq_bool (tick a) (tick i) = Nat.eqb a i.
Proof.
  destruct (Nat.eqb_spec a i) as [->|N].
  - apply Qeq_bool_refl.
  - destruct (Qeq_bool (tick a) (tick i)) eqn:E; [|reflexivity].
    apply Qeq_bool_iff, tick_inj in E. contradiction.
Qed.

(** The dictionary of the total heights, looked up at the tick of a row. *)
Lemma dict_get_ticks (vals : list Q) :
  forall a i : nat,
    RaceLabels.dict_get (tick i) (combine (map tick (seq a (List.length vals))) vals)
    = if ((a <=? i) && (i <? a + List.length vals))%nat
      then Some (nth (i - a) vals 0%Q) else None.
Proof.
  induction vals as [|v vals IH]; intros a i.
  - cbn [List.length seq map combine RaceLabels.dict_get].
    destruct (Nat.leb_spec a i), (Nat.ltb_spec i (a + 0)); cbn [andb]; try reflexivity; lia.
  - cbn [List.length seq map combine RaceLabels.dict_get].
    rewrite (IH (S a) i), Qeq_bool_tick.
    destruct (Nat.leb_spec (S a) i) as [H1|H1];
      destruct (Nat.ltb_spec i (S a + List.length vals)) as [H2|H2];
      destruct (Nat.leb_spec a i) as [H3|H3];
      destruct (Nat.ltb_spec i (a + S (List.length vals))) as [H4|H4];
      destruct (Nat.eqb_spec a i) as [H5|H5];
      cbn [andb]; try lia; try reflexivity.
    + replace (i - a)%nat with (S (i - S a)) by lia. reflexivity.
    + subst i. rewrite Nat.sub_diag. reflexivity.
Qed.

Lemma In_numbered_rows (t : table) (i : nat) (r : string) :
  In (i, r) (numbered_rows t) ->
  (i < List.length (index t))%nat /\ nth i (index t) "" = r.
Proof.
  unfold numbered_rows.
  assert (H : forall l a, In (i, r) (combine (seq a (List.length l)) l) ->
                          (a <= i < a + List.length l)%nat /\ nth (i - a) l "" = r).
  { induction l as [|x l IH]; intros a Hin; [contradiction|].
    cbn [List.length seq combine] in Hin. destruct Hin as [E|Hin].
    - injection E as <- <-. rewrite Nat.sub_diag. simpl. split; [lia | reflexivity].
    - destruct (IH (S a) Hin) as [Hr Hn]. split; [simpl; lia|].
      replace (i - a)%nat with (S (i - S a)) by lia. exact Hn. }
  intro Hin. destruct (H (index t) 0%nat Hin) as [Hr Hn].
  rewrite Nat.sub_0_r in Hn. split; [lia | exact Hn].
Qed.

Lemma Qfloor_count (n : nat) : Qfloor (RaceLabels.Q_of_count n) = Z.of_nat n.
Proof. apply Qfloor_Z. Qed.

Lemma Qlt_bool_count (a b : nat) :
  RaceLabels.Qlt_bool (RaceLabels.Q_of_count a) (RaceLabels.Q_of_count b) = Nat.ltb a b.
Proof.
  unfold RaceLabels.Q_of_count. rewrite Qlt_bool_inject.
  destruct (Nat.ltb_spec a b), (Z.ltb_spec (Z.of_nat a) (Z.of_nat b)); try reflexivity; lia.
Qed.

(** The inner loop on the bar of one cell writes the label of the cell. *)
Lemma label_bar_cell (t : table) (container_index i : nat) (r : string)
      (before : list string) (c : string) :
  In (i, r) (numbered_rows t) ->
  RaceLabels.label_bar (RaceLabels.x_ticks t)
                       (combine (RaceLabels.x_ticks t) (RaceLabels.total_heights t))
                       container_index
                       {| RaceLabels.get_x := (tick i - (1 # 4))%Q;
                          RaceLabels.get_width := (1 # 2)%Q;
                          RaceLabels.get_y :=
                            RaceLabels.Q_of_count (list_sum (map (count t r) before));
                          RaceLabels.get_height := RaceLabels.Q_of_count (count t r c) |}
  = Some (cell_label t container_index i r before c).
Proof.
  intro Hin. destruct (In_numbered_rows t i r Hin) as [Hi Hr].
  unfold RaceLabels.label_bar, cell_label.
  cbn [RaceLabels.get_x RaceLabels.get_width RaceLabels.get_y RaceLabels.get_height].
  change 0%Q with (RaceLabels.Q_of_count 0) at 1. rewrite Qlt_bool_count.
  destruct (count t r c) as [|h] eqn:Eh; [reflexivity|].
  change (Nat.ltb 0 (S h)) with true. change (Nat.eqb (S h) 0) with false. cbv iota.
  change (RaceLabels.x_ticks t) with (map tick (seq 0 (List.length (index t)))).
  rewrite (closest_tick_of_row _ i);
    [|exact Hi | unfold tick, Qeq, Qdiv, Qminus, Qplus, Qopp, Qmult, Qinv, inject_Z; simpl; lia].
  assert (Hlen : List.length (index t) = List.length (RaceLabels.total_heights t)).
  { unfold RaceLabels.total_heights. rewrite length_map. reflexivity. }
  rewrite Hlen, dict_get_ticks, <- Hlen.
  replace ((0 <=? i)%nat && (i <? 0 + List.length (index t))%nat) with true
    by (symmetry; apply andb_true_iff; split; [apply Nat.leb_le | apply Nat.ltb_lt]; lia).
  rewrite Nat.sub_0_r.
  assert (Hnth : nth i (RaceLabels.total_heights t) 0%Q = RaceLabels.Q_of_count (row_sum t r)).
  { unfold RaceLabels.total_heights.
    rewrite (nth_indep _ 0%Q (RaceLabels.Q_of_count (row_sum t ""))) by (rewrite length_map; lia).
    rewrite (map_nth (fun r => RaceLabels.Q_of_count (row_sum t r))), Hr. reflexivity. }
  rewrite Hnth.
  change 0%Q with (RaceLabels.Q_of_count 0).
  change RaceLabels.TINY_TOTAL_BAR_THRESHOLD with (RaceLabels.Q_of_count 500).
  change RaceLabels.SMALL_SEGMENT_THRESHOLD with (RaceLabels.Q_of_count 300).
  rewrite !Qlt_bool_count, Qfloor_count.
  destruct (Nat.ltb 0 (row_sum t r) && Nat.ltb (row_sum t r) 500); [reflexivity|].
  destruct (Nat.ltb (S h) 300); reflexivity.
Qed.

Lemma combine_map_fst {A B C : Type} (f : A -> C) (l : list A) :
  forall l' : list B,
    combine (map f l) l' = map (fun p => (f (fst p), snd p)) (combine l l').
Proof.
  induction l as [|x l IH]; intros [|y l']; simpl; try reflexivity.
  rewrite IH. reflexivity.
Qed.

Lemma label_container_cells (t : table) (container_index : nat)
      (before : list string) (c : string) (rows : list (nat * string)) :
  (forall p, In p rows -> In p (numbered_rows t)) ->
  RaceLabels.label_container
    (RaceLabels.x_ticks t)
    (combine (RaceLabels.x_ticks t) (RaceLabels.total_heights t))
    container_index
    (map (fun ir =>
            {| RaceLabels.get_x := (fst ir - (1 # 4))%Q;
               RaceLabels.get_width := (1 # 2)%Q;
               RaceLabels.get_y :=
                 RaceLabels.Q_of_count (list_sum (map (count t (snd ir)) before));
               RaceLabels.get_height := RaceLabels.Q_of_count (count t (snd ir) c) |})
         (map (fun p => (tick (fst p), snd p)) rows))
  = Some (flat_map (fun ir => cell_label t container_index (fst ir) (snd ir) before c) rows).
Proof.
  induction rows as [|[i r] rows IH]; intro Hin; [reflexivity|].
  cbn [map flat_map RaceLabels.label_container fst snd].
  rewrite (label_bar_cell t container_index i r before c) by (apply Hin; left; reflexivity).
  rewrite IH by (intros p Hp; apply Hin; right; exact Hp).
  reflexivity.
Qed.

Lemma label_containers_from (t : table) (cols : list string) :
  forall (container_index : nat) (before : list string),
    RaceLabels.label_containers
      (RaceLabels.x_ticks t)
      (combine (RaceLabels.x_ticks t) (RaceLabels.total_heights t))
      container_index
      (RaceLabels.containers_from t before cols)
    = Some (labels_from t container_index before cols).
Proof.
  induction cols as [|c cols IH]; intros container_index before; [reflexivity|].
  cbn [RaceLabels.containers_from RaceLabels.label_containers labels_from].
  change (RaceLabels.x_ticks t) with (map tick (seq 0 (List.length (index t)))) at 3.
  rewrite combine_map_fst.
  change (combine (seq 0 (List.length (index t))) (index t)) with (numbered_rows t).
  rewrite (label_container_cells t container_index before c (numbered_rows t))
    by (intros p Hp; exact Hp).
  rewrite IH. reflexivity.
Qed.

(** Section 5 of race.py never fails on the chart of a frequency table, and
    the labels it writes are those of the cells of the table: the closest
    tick of each bar is the tick of its row, and the total height found for
    it is the total of that row. *)
Theorem race_labels_of_table (t : table) :
  RaceLabels.labels t = Some (table_labels t).
Proof. apply label_containers_from. Qed.

Lemma In_labels_from (t : table) (tx : RaceLabels.text) (cols : list string) :
  forall (container_index : nat) (before : list string),
    In tx (labels_from t container_index before cols) ->
    exists (ci i : nat) (r : string) (before' : list string) (c : string) (rest : list string),
      In (i, r) (numbered_rows t)
      /\ (before' ++ c :: rest = before ++ cols)%list
      /\ In tx (cell_label t ci i r before' c).
Proof.
  induction cols as [|c cols IH]; intros ci before Hin; [contradiction|].
  cbn [labels_from] in Hin. apply in_app_or in Hin. destruct Hin as [Hin|Hin].
  - apply in_flat_map in Hin. destruct Hin as [[i r] [Hir Htx]].
    exists ci, i, r, before, c, cols. auto.
  - destruct (IH _ _ Hin) as [ci' [i [r [before' [c' [rest [H1 [H2 H3]]]]]]]].
    exists ci', i, r, before', c', rest. split; [exact H1|]. split; [|exact H3].
    rewrite H2, <- app_assoc. reflexivity.
Qed.

Lemma segment_within_total (t : table) (r : string) (before : list string)
      (c : string) (rest : list string) :
  (before ++ c :: rest = columns t)%list ->
  (list_sum (map (count t r) before) + count t r c <= row_sum t r)%nat.
Proof.
  intro H. unfold row_sum. rewrite <- H, map_app, list_sum_app. simpl. lia.
Qed.

Lemma total_below_max (t : table) (r : string) :
  In r (index t) ->
  (RaceLabels.Q_of_count (row_sum t r)
   <= fold_right (fun h m => if Qle_bool m h then h else m) 0 (RaceLabels.total_heights t))%Q.
Proof.
  unfold RaceLabels.total_heights.
  induction (index t) as [|x l IH]; intro Hin; [contradiction|].
  cbn [map fold_right].
  set (m := fold_right _ _ _) in *.
  destruct (Qle_bool m (RaceLabels.Q_of_count (row_sum t x))) eqn:E.
  - destruct Hin as [->|Hin]; [apply Qle_refl|].
    apply Qle_bool_iff in E. eapply Qle_trans; [apply IH, Hin | exact E].
  - assert (RaceLabels.Q_of_count (row_sum t x) <= m)%Q as Hle.
    { apply Qlt_le_weak, Qnot_le_lt. intro H. apply Qle_bool_iff in H. congruence. }
    destruct Hin as [<-|Hin]; [exact Hle | apply IH, Hin].
Qed.

Lemma Q_of_count_le (a b : nat) :
  (a <= b)%nat -> (RaceLabels.Q_of_count a <= RaceLabels.Q_of_count b)%Q.
Proof. intro H. unfold RaceLabels.Q_of_count. rewrite <- Zle_Qle. lia. Qed.

Lemma cell_label_bounds (t : table) (ci i : nat) (r : string) (before : list string)
      (c : string) (tx : RaceLabels.text) :
  (list_sum (map (count t r) before) + count t r c <= row_sum t r)%nat ->
  In tx (cell_label t ci i r before c) ->
  (0 <= RaceLabels.text_y tx)%Q
  /\ (RaceLabels.text_y tx <= RaceLabels.Q_of_count (row_sum t r) + RaceLabels.Y_Y_OFFSET)%Q
  /\ (1 <= RaceLabels.text_label tx)%Z
  /\ RaceLabels.text_label tx = Z.of_nat (count t r c).
Proof.
  intros Hle. unfold cell_label.
  set (h := count t r c) in *. set (T := row_sum t r) in *.
  set (B := list_sum (map (count t r) before)) in *.
  destruct (Nat.eqb_spec h 0) as [E|Hh]; [contradiction|].
  assert (HT : forall a b : nat,
             (a <= b)%nat ->
             (inject_Z (Z.of_nat a) <= inject_Z (Z.of_nat b))%Q)
    by (intros a b Hab; rewrite <- Zle_Qle; lia).
  destruct (Nat.ltb 0 T && Nat.ltb T 500).
  - intros [<-|[]]. cbn [RaceLabels.text_y RaceLabels.text_label].
    unfold RaceLabels.Q_of_count, RaceLabels.Y_N_OFFSET, RaceLabels.Y_Y_OFFSET.
    destruct (Nat.eqb ci 0);
      (split; [|split; [|split; [lia | reflexivity]]]);
      unfold Qle, Qplus, inject_Z; simpl; lia.
  - destruct (Nat.ltb h 300).
    + intros [<-|[]]. cbn [RaceLabels.text_y RaceLabels.text_label].
      unfold RaceLabels.Q_of_count, RaceLabels.Y_N_OFFSET, RaceLabels.Y_Y_OFFSET.
      (split; [|split; [|split; [lia | reflexivity]]]);
        unfold Qle, Qplus, inject_Z; simpl; lia.
    + intros [<-|[]]. cbn [RaceLabels.text_y RaceLabels.text_label].
      unfold RaceLabels.Q_of_count, RaceLabels.Y_Y_OFFSET.
      (split; [|split; [|split; [lia | reflexivity]]]);
        unfold Qle, Qplus, Qdiv, Qmult, Qinv, inject_Z; simpl; lia.
Qed.

(** Every label that race.py writes on the chart of a frequency table shows
    the count of a cell that is not zero, and its anchor lies between the
    bottom of the y axis and the upper limit that the script sets. *)
Theorem race_labels_within_axes (t : table) :
  exists ls : list RaceLabels.text,
    RaceLabels.labels t = Some ls
    /\ Forall (fun tx => (0 <= RaceLabels.text_y tx)%Q
                         /\ (RaceLabels.text_y tx <= RaceLabels.ylim_top t)%Q
                         /\ (1 <= RaceLabels.text_label tx)%Z) ls.
Proof.
  exists (table_labels t). split; [apply label_containers_from|].
  apply Forall_forall. intros tx Htx.
  apply In_labels_from in Htx.
  destruct Htx as [ci [i [r [before [c [rest [Hir [Hcols Hin]]]]]]]].
  simpl in Hcols.
  destruct (cell_label_bounds t ci i r before c tx
              (segment_within_total t r before c rest Hcols) Hin) as [H0 [H1 [H2 _]]].
  split; [exact H0|]. split; [|exact H2].
  assert (Hr : In r (index t)).
  { destruct (In_numbered_rows t i r Hir) as [Hi Hn]. rewrite <- Hn. apply nth_In, Hi. }
  pose proof (total_below_max t r Hr) as Hmax.
  unfold RaceLabels.ylim_top. set (m := fold_right _ _ _) in *.
  eapply Qle_trans; [exact H1|].
  unfold RaceLabels.Y_Y_OFFSET.
  apply Qle_trans with (m + 350 + 0)%Q.
  - rewrite Qplus_0_r. apply Qplus_le_compat; [exact Hmax | apply Qle_refl].
  - apply Qplus_le_compat; [apply Qle_refl | discriminate].
Qed.

Lemma cell_label_cases (t : table) (ci i : nat) (r : string) (before : list string)
      (c : string) :
  (0 < count t r c)%nat ->
  exists tx : RaceLabels.text,
    cell_label t ci i r before c = [tx]
    /\ (RaceLabels.text_x tx == tick i)%Q
    /\ RaceLabels.text_label tx = Z.of_nat (count t r c)
    /\ ((0 < row_sum t r < 500)%nat ->
        RaceLabels.text_y tx =
        (RaceLabels.Q_of_count (row_sum t r) + (if Nat.eqb ci 0 then 30 else 350))%Q
        /\ RaceLabels.text_color tx = (if Nat.eqb ci 0 then RaceLabels.Green else RaceLabels.Red))
    /\ ((500 <= row_sum t r)%nat -> (count t r c < 300)%nat ->
        RaceLabels.text_y tx =
        (RaceLabels.Q_of_count (list_sum (map (count t r) before))
         + RaceLabels.Q_of_count (count t r c) + 30)%Q
        /\ RaceLabels.text_color tx = RaceLabels.Black)
    /\ ((500 <= row_sum t r)%nat -> (300 <= count t r c)%nat ->
        (RaceLabels.Q_of_count (list_sum (map (count t r) before)) < RaceLabels.text_y tx)%Q
        /\ (RaceLabels.text_y tx
            < RaceLabels.Q_of_count (list_sum (map (count t r) before))
              + RaceLabels.Q_of_count (count t r c))%Q
        /\ RaceLabels.text_va tx = RaceLabels.Center
        /\ RaceLabels.text_color tx = RaceLabels.White).
Proof.
  intro Hh. unfold cell_label.
  set (h := count t r c) in *. set (T := row_sum t r) in *.
  set (B := list_sum (map (count t r) before)) in *.
  assert (Hx : (tick i - (1 # 4) + (1 # 2) / 2 == tick i)%Q).
  { unfold tick, Qeq, Qdiv, Qminus, Qplus, Qopp, Qmult, Qinv, inject_Z; simpl; lia. }
  destruct (Nat.eqb_spec h 0) as [E|_]; [lia|].
  destruct (Nat.ltb_spec 0 T) as [H0|H0]; destruct (Nat.ltb_spec T 500) as [H5|H5];
    cbn [andb].
  1: { eexists. split; [reflexivity|]. cbn [RaceLabels.text_x RaceLabels.text_y
         RaceLabels.text_label RaceLabels.text_color RaceLabels.text_va].
       split; [exact Hx|]. split; [reflexivity|].
       split; [|split; intros; lia].
       intros _. unfold RaceLabels.Y_N_OFFSET, RaceLabels.Y_Y_OFFSET.
       destruct (Nat.eqb ci 0); split; reflexivity. }
  all: destruct (Nat.ltb_spec h 300) as [H3|H3];
    (eexists; split; [reflexivity|];
     cbn [RaceLabels.text_x RaceLabels.text_y
          RaceLabels.text_label RaceLabels.text_color RaceLabels.text_va];
     split; [exact Hx|]; split; [reflexivity|];
     split; [intros; lia|]; split; [intros; try lia; split; reflexivity|];
     intros; try lia; unfold RaceLabels.Q_of_count;
     repeat split; unfold Qlt, Qplus, Qdiv, Qmult, Qinv, inject_Z; simpl; lia).
Qed.

(** Where race.py puts the label of a cell of its table that is not zero,
    the ["N"] cell of a race (container 0) or its ["Y"] cell (container 1,
    stacked on the ["N"] cell): on the tick of the row, showing the count;
    for a bar lower than 500, above the bar, 30 over its top for ["N"] and
    350 for ["Y"], in the colour of the segment; otherwise, for a segment
    lower than 300, in black 30 over the top of the segment, and for a
    higher segment, in white, centred strictly inside the segment. *)
Theorem race_labels_placement (df : list (cell * cell)) (i : nat) (r c : string) :
  let t := race_frequency_table df in
  let ci := if String.eqb c "N" then 0%nat else 1%nat in
  let base := if String.eqb c "N" then 0%nat else count t r "N" in
  In (i, r) (numbered_rows t) ->
  In c ["N"; "Y"] ->
  (0 < count t r c)%nat ->
  exists (ls : list RaceLabels.text) (tx : RaceLabels.text),
    RaceLabels.labels t = Some ls /\ In tx ls
    /\ (RaceLabels.text_x tx == tick i)%Q
    /\ RaceLabels.text_label tx = Z.of_nat (count t r c)
    /\ ((0 < row_sum t r < 500)%nat ->
        RaceLabels.text_y tx =
        (RaceLabels.Q_of_count (row_sum t r) + (if Nat.eqb ci 0 then 30 else 350))%Q
        /\ RaceLabels.text_color tx = (if Nat.eqb ci 0 then RaceLabels.Green else RaceLabels.Red))
    /\ ((500 <= row_sum t r)%nat -> (count t r c < 300)%nat ->
        (RaceLabels.text_y tx ==
         RaceLabels.Q_of_count base + RaceLabels.Q_of_count (count t r c) + 30)%Q
        /\ RaceLabels.text_color tx = RaceLabels.Black)
    /\ ((500 <= row_sum t r)%nat -> (300 <= count t r c)%nat ->
        (RaceLabels.Q_of_count base < RaceLabels.text_y tx)%Q
        /\ (RaceLabels.text_y tx
            < RaceLabels.Q_of_count base + RaceLabels.Q_of_count (count t r c))%Q
        /\ RaceLabels.text_va tx = RaceLabels.Center
        /\ RaceLabels.text_color tx = RaceLabels.White).
Proof.
  intros t ci base Hir Hc Hh.
  assert (Hls : table_labels t =
                (flat_map (fun ir => cell_label t 0 (fst ir) (snd ir) [] "N") (numbered_rows t)
                 ++ flat_map (fun ir => cell_label t 1 (fst ir) (snd ir) ["N"] "Y")
                             (numbered_rows t) ++ [])%list) by reflexivity.
  exists (table_labels t).
  destruct Hc as [<-|[<-|[]]].
  - destruct (cell_label_cases t 0 i r [] "N" Hh) as [tx [E [Hx [Hl [H1 [H2 H3]]]]]].
    exists tx. split; [apply label_containers_from|]. split.
    { rewrite Hls. apply in_or_app. left. apply in_flat_map. exists (i, r).
      split; [exact Hir|]. cbn [fst snd]. rewrite E. left. reflexivity. }
    split; [exact Hx|]. split; [exact Hl|].
    split; [exact H1|]. split; [|exact H3].
    intros Ha Hb. destruct (H2 Ha Hb) as [Hy Hcol]. split; [rewrite Hy; reflexivity | exact Hcol].
  - destruct (cell_label_cases t 1 i r ["N"] "Y" Hh) as [tx [E [Hx [Hl [H1 [H2 H3]]]]]].
    assert (Hb : list_sum (map (count t r) ["N"]) = count t r "N") by (simpl; lia).
    rewrite Hb in H2, H3.
    exists tx. split; [apply label_containers_from|]. split.
    { rewrite Hls. apply in_or_app. right. apply in_or_app. left.
      apply in_flat_map. exists (i, r).
      split; [exact Hir|]. cbn [fst snd]. rewrite E. left. reflexivity. }
    split; [exact Hx|]. split; [exact Hl|].
    split; [exact H1|]. split; [|exact H3].
    intros Ha Hb'. destruct (H2 Ha Hb') as [Hy Hcol].
    split; [rewrite Hy; reflexivity | exact Hcol].
Qed.

Lemma race_labels_placement_witness :
  exists (ls : list RaceLabels.text) (tx : RaceLabels.text),
    RaceLabels.labels (race_frequency_table demo_race) = Some ls /\ In tx ls
    /\ RaceLabels.text_label tx = 2%Z.
Proof.
  destruct (race_labels_placement demo_race 1 "White" "Y")
    as [ls [tx [H1 [H2 [_ [H3 _]]]]]].
  - right. left. reflexivity.
  - right. left. reflexivity.
  - cbv. lia.
  - exists ls, tx. split; [exact H1|]. split; [exact H2 | exact H3].
Defined.
